(** * AeroWizard: price monitoring and flight tracking decision engine

    A shallow embedding of the decision logic of [services/priceMonitor.js],
    [services/flightTracker.js], [services/database.js] and of
    [findAirlineCode] in [index.js], with the properties the specification
    states about them.

    Conventions of the embedding.
    - JavaScript numbers that carry prices are exact rationals ([Q]); IEEE
      rounding and [NaN] are outside the model, so a price is always the
      result of a successful [parseFloat].
    - A nullable numeric field ([current_price], [lowest_price]) is an
      [option Q]; its truthiness test is [truthy_price].
    - The Firestore store is a finite map of user documents, each holding
      its sub-collections keyed by document id.  Every document is written
      with its id field ([alert_id], [track_id]) equal to its document id,
      so a query on the id field is a lookup by key.
    - Asynchronous methods are state transformers on a world made of the
      store, the log of the calls made on the chat transport, and the
      clock; the store and the chat transport do not fail unless a
      definition says so explicitly. *)

From Stdlib Require Import QArith Qabs Qminmax ZArith String Ascii List Bool.
From Stdlib Require Import Lia Lqa.
From stdpp Require Import gmap strings list fin_maps sorting pretty.
Import ListNotations.

Local Open Scope Z_scope.
Local Open Scope string_scope.

(** ** JavaScript numbers on prices *)

Module Js.

Definition Qlt_bool (a b : Q) : bool := negb (Qle_bool b a).

(** [!x] is false exactly on a set, non-zero number. *)
Definition truthy_price (p : option Q) : bool :=
  match p with
  | Some q => negb (Qeq_bool q 0)
  | None => false
  end.

(** [ToNumber] on a nullable number: [null] converts to [0]. *)
Definition ToNumber (p : option Q) : Q :=
  match p with
  | Some q => q
  | None => 0%Q
  end.

(** [c !== p]: a number never equals [null]. *)
Definition strict_neq (c : Q) (p : option Q) : bool :=
  match p with
  | Some q => negb (Qeq_bool c q)
  | None => true
  end.

(** [Math.min(a, b)] *)
Definition Math_min (a b : Q) : Q := if Qle_bool a b then a else b.

End Js.

(** ** JavaScript arrays *)

Module JsArray.

Section Sort.
Context {A : Type}.

(** [before a b] stands for [compare(a, b) <= 0]. *)
Variable before : A -> A -> bool.

Fixpoint insert_sorted (x : A) (l : list A) : list A :=
  match l with
  | [] => [x]
  | y :: rest =>
      if before x y then x :: y :: rest else y :: insert_sorted x rest
  end.

(** [l.sort(compare)].  The sort is stable: of two elements that compare
    equal the one that came first stays first. *)
Fixpoint sort (l : list A) : list A :=
  match l with
  | [] => []
  | x :: rest => insert_sorted x (sort rest)
  end.

End Sort.

(** [l.slice(0, limit)]: a negative [limit] counts from the end. *)
Definition slice0 {A} (limit : Z) (l : list A) : list A :=
  if (limit <? 0)%Z then take (length l - Z.to_nat (- limit)) l
  else take (Z.to_nat limit) l.

(** [s.split(sep)] for a separator that is not empty.  [skip] counts the
    characters of a separator just found that are still to be passed over,
    [piece] is the piece read so far. *)
Fixpoint split_from (sep : string) (skip : nat) (piece : string)
    (s : string) : list string :=
  match s with
  | EmptyString => [piece]
  | String c rest =>
      match skip with
      | S k => split_from sep k piece rest
      | O =>
          if String.prefix sep s
          then piece :: split_from sep (String.length sep - 1) "" rest
          else split_from sep 0 (piece ++ String c "") rest
      end
  end.

Definition split (sep s : string) : list string := split_from sep 0 "" s.

(** [parts[i]] inside a template literal *)
Definition part (parts : list string) (i : nat) : string :=
  default "undefined" (parts !! i).

End JsArray.

(** ** JSON values

    Flight status snapshots travel as plain JSON objects: fetched from the
    provider, serialised into [last_status], parsed back for comparison. *)

#[warnings="-register-all"]
Inductive jsval : Type :=
| JUndefined
| JNull
| JBool (b : bool)
| JNum (n : Z)
| JStr (s : string)
| JObj (fields : list (string * jsval)).

(** Outcome of code that may throw. *)
Inductive result (A : Type) : Type :=
| Ok (a : A)
| Throw (message : string).
Arguments Ok {A} a.
Arguments Throw {A} message.

#[global] Instance result_ret : MRet result := fun A a => Ok a.

#[global] Instance result_bind : MBind result := fun A B k r =>
  match r with
  | Ok a => k a
  | Throw m => Throw m
  end.

Module Json.

Definition truthy (v : jsval) : bool :=
  match v with
  | JUndefined | JNull => false
  | JBool b => b
  | JNum n => negb (n =? 0)%Z
  | JStr s => negb (String.eqb s "")
  | JObj _ => true
  end.

(** [a === b] on values read from two different objects: primitives are
    compared by value, two objects are never the same reference. *)
Definition strict_eq (a b : jsval) : bool :=
  match a, b with
  | JUndefined, JUndefined => true
  | JNull, JNull => true
  | JBool x, JBool y => Bool.eqb x y
  | JNum x, JNum y => (x =? y)%Z
  | JStr x, JStr y => String.eqb x y
  | _, _ => false
  end.

Fixpoint lookup_field (k : string) (fields : list (string * jsval)) : jsval :=
  match fields with
  | [] => JUndefined
  | (k', v) :: rest => if String.eqb k k' then v else lookup_field k rest
  end.

(** [v.k]: a [TypeError] on [undefined] and [null], [undefined] for a
    property that is not there. *)
Definition member (v : jsval) (k : string) : result jsval :=
  match v with
  | JUndefined | JNull => Throw "TypeError"
  | JObj fields => Ok (lookup_field k fields)
  | _ => Ok JUndefined
  end.

(** [v?.k] *)
Definition opt_member (v : jsval) (k : string) : jsval :=
  match v with
  | JObj fields => lookup_field k fields
  | _ => JUndefined
  end.

(** [a && b] and [a || b] yield one of their operands. *)
Definition and_ (a b : jsval) : jsval := if truthy a then b else a.
Definition or_ (a b : jsval) : jsval := if truthy a then a else b.

(** [JSON.parse(JSON.stringify(v))]: properties holding [undefined] are
    dropped, everything else comes back as it went in. *)
Fixpoint roundtrip (v : jsval) : jsval :=
  match v with
  | JObj fields =>
      JObj ((fix go (l : list (string * jsval)) : list (string * jsval) :=
               match l with
               | [] => []
               | (k, JUndefined) :: rest => go rest
               | (k, x) :: rest => (k, roundtrip x) :: go rest
               end) fields)
  | _ => v
  end.

End Json.

(** ** Data model *)

(** Reasons carried by a price notification ([priceMonitor.js]). *)
Inductive reason : Type :=
| price_drop
| price_increase
| target_reached
| significant_drop
| first_check.

(** The object returned by [PriceMonitor.shouldNotifyUser]:
    [{ notify: true, reason }] or [{ notify: false }]. *)
Record notification : Type := Notification {
  notify : bool;
  notify_reason : option reason
}.

Definition yes (r : reason) : notification := Notification true (Some r).
Definition no : notification := Notification false None.

(** A document of a user's [flight_alerts] sub-collection.  [current_price]
    is [null] until the first successful check, [lowest_price] and
    [last_checked] are absent until then. *)
Record PriceAlert : Type := mkAlert {
  alert_id : string;
  origin : string;
  destination : string;
  departure_date : string;
  return_date : option string;
  min_price : Q;
  current_price : option Q;
  lowest_price : option Q;
  is_active : bool;
  last_checked : option Z;
  booking_url : option string
}.

(** A document of a user's [price_history] sub-collection. *)
Record PriceHistoryEntry : Type := mkHistory {
  history_alert_id : string;
  history_price : Q;
  history_airline : option string;
  history_booking_url : option string;
  history_timestamp : Z
}.

(** The [last_status] field of a track: falsy (absent, [null] or the empty
    string), a string that [JSON.parse] rejects, or the text
    [JSON.stringify(o)], kept as the value [o] it parses back to. *)
Inductive stored_status : Type :=
| NoStatus
| Unparsable (text : string)
| Json (o : jsval).

(** A document of a user's [flight_tracks] sub-collection.  The three
    segment fields are written only for a leg of a connecting itinerary. *)
Record FlightTrack : Type := mkTrack {
  track_id : string;
  carrier_code : string;
  flight_number : string;
  date : string;
  track_origin : option string;
  track_destination : option string;
  last_status : stored_status;
  created_at : string;
  active : bool;
  is_segment : bool;
  segment_index : option nat;
  parent_route : option string;
  track_last_checked : option string;
  cancelled_at : option string
}.

(** A document of [users], with its sub-collections.  User ids are the
    document keys, that is [telegramId.toString()]. *)
Record UserDoc : Type := mkUser {
  last_active : Z;
  flight_alerts : gmap string PriceAlert;
  flight_tracks : gmap string FlightTrack;
  price_history : list PriceHistoryEntry
}.

(** The [users] collection. *)
Abbreviation Store := (gmap string UserDoc).

(** The argument of [FirebaseService.createFlightTrack]. *)
Record TrackData : Type := mkTrackData {
  userId : string;
  telegramId : string;
  carrierCode : string;
  flightNumber : string;
  td_date : string;
  td_origin : option string;
  td_destination : option string;
  isSegment : bool;
  segmentIndex : option nat;
  parentRoute : option string
}.

(** ** The persistent store ([services/database.js]) *)

Module Database.
Import Js.

(** *** Field updates ([ref.update({...})]) *)

Definition with_last_checked (now : Z) (a : PriceAlert) : PriceAlert :=
  mkAlert (alert_id a) (origin a) (destination a) (departure_date a)
    (return_date a) (min_price a) (current_price a) (lowest_price a)
    (is_active a) (Some now) (booking_url a).

Definition with_current_price (price : Q) (a : PriceAlert) : PriceAlert :=
  mkAlert (alert_id a) (origin a) (destination a) (departure_date a)
    (return_date a) (min_price a) (Some price) (lowest_price a)
    (is_active a) (last_checked a) (booking_url a).

Definition with_prices (current lowest : Q) (now : Z)
    (url : option string) (a : PriceAlert) : PriceAlert :=
  mkAlert (alert_id a) (origin a) (destination a) (departure_date a)
    (return_date a) (min_price a) (Some current) (Some lowest)
    (is_active a) (Some now)
    (match url with Some u => Some u | None => booking_url a end).

Definition with_is_active (b : bool) (a : PriceAlert) : PriceAlert :=
  mkAlert (alert_id a) (origin a) (destination a) (departure_date a)
    (return_date a) (min_price a) (current_price a) (lowest_price a)
    b (last_checked a) (booking_url a).

Definition with_cancelled (now : string) (t : FlightTrack) : FlightTrack :=
  mkTrack (track_id t) (carrier_code t) (flight_number t) (date t)
    (track_origin t) (track_destination t) (last_status t) (created_at t)
    false (is_segment t) (segment_index t) (parent_route t)
    (track_last_checked t) (Some now).

Definition with_status (s : stored_status) (now : string)
    (t : FlightTrack) : FlightTrack :=
  mkTrack (track_id t) (carrier_code t) (flight_number t) (date t)
    (track_origin t) (track_destination t) s (created_at t)
    (active t) (is_segment t) (segment_index t) (parent_route t)
    (Some now) (cancelled_at t).

Definition with_check_time (now : string) (t : FlightTrack) : FlightTrack :=
  mkTrack (track_id t) (carrier_code t) (flight_number t) (date t)
    (track_origin t) (track_destination t) (last_status t) (created_at t)
    (active t) (is_segment t) (segment_index t) (parent_route t)
    (Some now) (cancelled_at t).

Definition on_alerts (f : gmap string PriceAlert -> gmap string PriceAlert)
    (u : UserDoc) : UserDoc :=
  mkUser (last_active u) (f (flight_alerts u)) (flight_tracks u)
    (price_history u).

Definition on_tracks (f : gmap string FlightTrack -> gmap string FlightTrack)
    (u : UserDoc) : UserDoc :=
  mkUser (last_active u) (flight_alerts u) (f (flight_tracks u))
    (price_history u).

Definition on_history (f : list PriceHistoryEntry -> list PriceHistoryEntry)
    (u : UserDoc) : UserDoc :=
  mkUser (last_active u) (flight_alerts u) (flight_tracks u)
    (f (price_history u)).

Definition with_last_active (now : Z) (u : UserDoc) : UserDoc :=
  mkUser now (flight_alerts u) (flight_tracks u) (price_history u).

(** [alertRef.update(...)] on [users/{uid}/flight_alerts/{id}] *)
Definition update_alert (uid id : string) (f : PriceAlert -> PriceAlert)
    (db : Store) : Store :=
  alter (on_alerts (alter f id)) uid db.

Definition update_track (uid id : string) (f : FlightTrack -> FlightTrack)
    (db : Store) : Store :=
  alter (on_tracks (alter f id)) uid db.

(** *** Queries *)

(** [users/{uid}/flight_alerts] filtered on [alert_id == id], [limit(1)]. *)
Definition user_alert (db : Store) (uid id : string) : option PriceAlert :=
  u ← db !! uid; flight_alerts u !! id.

Definition user_track (db : Store) (uid id : string) : option FlightTrack :=
  u ← db !! uid; flight_tracks u !! id.

(** The first user document, in the order the store lists them, whose
    sub-collection [sub] holds a document [id], with the owner's id (the
    second segment of the document path). *)
Definition first_owner {A} (sub : UserDoc -> gmap string A) (db : Store)
    (id : string) : option (string * A) :=
  head (omap (fun p : string * UserDoc =>
                (fun a => (p.1, a)) <$> sub p.2 !! id)
             (map_to_list db)).

(** [collectionGroup('flight_alerts').where('alert_id','==',id).limit(1)] *)
Definition collectionGroup_alert (db : Store) (id : string)
  : option (string * PriceAlert) := first_owner flight_alerts db id.

(** [collectionGroup('flight_tracks').where('track_id','==',id).limit(1)] *)
Definition collectionGroup_track (db : Store) (id : string)
  : option (string * FlightTrack) := first_owner flight_tracks db id.

Definition with_alert_id (id : string) (a : PriceAlert) : PriceAlert :=
  mkAlert id (origin a) (destination a) (departure_date a)
    (return_date a) (min_price a) (current_price a) (lowest_price a)
    (is_active a) (last_checked a) (booking_url a).

(** [getAlert(alertId, userId = null)]: the alert, answered under the id
    it was asked for, with its owner ([telegram_id]); with no user id every
    user document is tried in turn. *)
Definition getAlert (db : Store) (alertId : string) (user : option string)
  : option (string * PriceAlert) :=
  (fun p : string * PriceAlert => (p.1, with_alert_id alertId p.2)) <$>
  match user with
  | Some uid => (fun a => (uid, a)) <$> user_alert db uid alertId
  | None => first_owner flight_alerts db alertId
  end.

(** [updateAlertCheck(alertId, price = null)] *)
Definition updateAlertCheck (db : Store) (alertId : string)
    (price : option Q) (now : Z) : result Store :=
  match collectionGroup_alert db alertId with
  | None => Throw ("Alert " ++ alertId ++ " not found")
  | Some (uid, _) =>
      Ok (update_alert uid alertId
            (fun a =>
               let a' := with_last_checked now a in
               match price with
               | Some p => with_current_price p a'
               | None => a'
               end) db)
  end.

(** [addPriceHistory(userId, alertId, price, airline, bookingUrl)] *)
Definition addPriceHistory (db : Store) (uid alertId : string) (price : Q)
    (airline bookingUrl : option string) (now : Z) : Store :=
  alter (on_history (fun h =>
           (h ++ [mkHistory alertId price airline bookingUrl now])%list))
        uid db.

(** [alert.lowest_price ? Math.min(alert.lowest_price, currentPrice)
                         : currentPrice] *)
Definition lowestPrice (alert : PriceAlert) (currentPrice : Q) : Q :=
  if truthy_price (lowest_price alert)
  then Math_min (ToNumber (lowest_price alert)) currentPrice
  else currentPrice.

(** [updateAlertPrice(alertId, currentPrice, bookingUrl = null)] *)
Definition updateAlertPrice (db : Store) (alertId : string)
    (currentPrice : Q) (bookingUrl : option string) (now : Z)
  : result Store :=
  match getAlert db alertId None with
  | None => Throw ("Alert " ++ alertId ++ " not found")
  | Some (uid, alert) =>
      let db1 :=
        update_alert uid alertId
          (with_prices currentPrice (lowestPrice alert currentPrice) now
             bookingUrl) db in
      Ok (addPriceHistory db1 uid alertId currentPrice None bookingUrl now)
  end.

(** [cancelAlert(alertId, telegramId)]: returns nothing, throws when the
    alert is unknown or belongs to somebody else. *)
Definition cancelAlert (db : Store) (alertId telegramId : string)
  : result unit * Store :=
  match user_alert db telegramId alertId with
  | None =>
      match collectionGroup_alert db alertId with
      | None => (Throw "Alert not found", db)
      | Some (ownerId, _) =>
          if negb (String.eqb ownerId telegramId)
          then (Throw "Alert not owned by user", db)
          else (Ok tt, update_alert ownerId alertId (with_is_active false) db)
      end
  | Some _ =>
      (Ok tt, update_alert telegramId alertId (with_is_active false) db)
  end.

(** [cancelFlightTrack(trackId, userId)]: [false] when the track is unknown
    or belongs to somebody else. *)
Definition cancelFlightTrack (db : Store) (trackId userId : string)
    (now : string) : bool * Store :=
  match user_track db userId trackId with
  | Some _ => (true, update_track userId trackId (with_cancelled now) db)
  | None =>
      match collectionGroup_track db trackId with
      | None => (false, db)
      | Some (ownerId, _) =>
          if negb (String.eqb ownerId userId)
          then (false, db)
          else (true, update_track ownerId trackId (with_cancelled now) db)
      end
  end.

(** The snapshot [createFlightTrack] serialises into a new track. *)
Definition default_status (checked : string) : jsval :=
  JObj [("status", JStr "SCHEDULED");
        ("departureTime", JNull);
        ("arrivalTime", JNull);
        ("terminal", JNull);
        ("gate", JNull);
        ("checked", JStr checked)].

(** [x || null] on an optional string *)
Definition or_null (x : option string) : option string :=
  match x with
  | Some s => if String.eqb s "" then None else Some s
  | None => None
  end.

(** [(userId || telegramId).toString()]: the user document a track is
    filed under. *)
Definition userIdStr (trackData : TrackData) : string :=
  if String.eqb (userId trackData) "" then telegramId trackData
  else userId trackData.

(** [createFlightTrack(trackData)].  [newId] is the id of
    [tracksCollectionRef.doc()], [now] is [new Date().toISOString()],
    [stamp] the server time. *)
Definition createFlightTrack (db : Store) (newId : string)
    (trackData : TrackData) (now : string) (stamp : Z) : string * Store :=
  let userIdStr := userIdStr trackData in
  let db1 :=
    match db !! userIdStr with
    | Some _ => db
    | None => <[userIdStr := mkUser stamp ∅ ∅ []]> db
    end in
  let track :=
    mkTrack newId (carrierCode trackData) (flightNumber trackData)
      (td_date trackData) (or_null (td_origin trackData))
      (or_null (td_destination trackData))
      (Json (Json.roundtrip (default_status now)))
      now true
      (isSegment trackData)
      (if isSegment trackData then segmentIndex trackData else None)
      (if isSegment trackData then parentRoute trackData else None)
      None None in
  let db2 := alter (on_tracks (insert newId track)) userIdStr db1 in
  (newId, alter (with_last_active stamp) userIdStr db2).

(** [getFlightTrack(trackId)]: the track with its owner.  The method tries
    a lookup by document id under every user, then a collection-group query
    on the [track_id] field, then a scan of every track. *)
Definition getFlightTrack (db : Store) (trackId : string)
  : option (string * FlightTrack) :=
  match first_owner flight_tracks db trackId with
  | Some r => Some r
  | None =>
      match collectionGroup_track db trackId with
      | Some r => Some r
      | None => first_owner flight_tracks db trackId
      end
  end.

(** [updateFlightTrackStatus(trackId, statusData)]: errors are caught and
    turned into [false]. *)
Definition updateFlightTrackStatus (db : Store) (trackId : string)
    (statusData : jsval) (now : string) : bool * Store :=
  match getFlightTrack db trackId with
  | None => (false, db)
  | Some (uid, _) =>
      if String.eqb uid "" then (false, db)
      else (true, update_track uid trackId
                    (with_status (Json (Json.roundtrip statusData)) now) db)
  end.

(** [updateFlightTrackCheckTime(trackId)] *)
Definition updateFlightTrackCheckTime (db : Store) (trackId : string)
    (now : string) : bool * Store :=
  match getFlightTrack db trackId with
  | None => (false, db)
  | Some (uid, _) =>
      if String.eqb uid "" then (false, db)
      else (true, update_track uid trackId (with_check_time now) db)
  end.

(** Every alert of the store with its owner, in collection-group order,
    each under its document id ([alert_id: doc.id]). *)
Definition all_alerts (db : Store) : list (string * PriceAlert) :=
  flat_map (fun p : string * UserDoc =>
              map (fun q : string * PriceAlert =>
                     (p.1, with_alert_id q.1 q.2))
                  (map_to_list (flight_alerts p.2)))
           (map_to_list db).

(** [cleanupOldAlerts()]: deactivates the active alerts whose departure
    date is before [today] (dates compare as strings). *)
Definition cleanupOldAlerts (db : Store) (today : string) : nat * Store :=
  let expired (a : PriceAlert) : bool :=
    is_active a && String.ltb (departure_date a) today in
  (length (filter (fun p => expired p.2 = true) (all_alerts db)),
   (on_alerts (fmap (fun a => if expired a then with_is_active false a
                              else a))) <$> db).

Definition staler (x y : string * PriceAlert) : Prop :=
  (default 0 (last_checked x.2) <= default 0 (last_checked y.2))%Z.

#[local] Instance staler_dec x y : Decision (staler x y).
Proof. unfold staler. apply _. Defined.

(** [getActiveAlerts()]: the active alerts ordered by [last_checked];
    ordering on a field leaves out the documents that do not have it. *)
Definition getActiveAlerts (db : Store) : list (string * PriceAlert) :=
  merge_sort staler
    (filter (fun p => is_active p.2 = true /\ is_Some (last_checked p.2))
            (all_alerts db)).

(** *** Creating an alert *)

(** The argument of [createAlert]. *)
Record AlertData : Type := mkAlertData {
  ad_userId : string;
  ad_origin : string;
  ad_destination : string;
  ad_departure_date : string;
  ad_return_date : option string;
  ad_min_price : Q;
  ad_current_price : option Q;
  ad_bookingUrl : option string
}.

(** [price || null] *)
Definition price_or_null (p : option Q) : option Q :=
  if truthy_price p then p else None.

(** [createAlert(alertData)].  [newId] is the id of
    [alertsCollectionRef.doc()], [stamp] the server time.  The new document
    has neither [lowest_price] nor [last_checked]. *)
Definition createAlert (db : Store) (newId : string)
    (alertData : AlertData) (stamp : Z) : string * Store :=
  let userId := ad_userId alertData in
  let db1 :=
    match db !! userId with
    | Some _ => db
    | None => <[userId := mkUser stamp ∅ ∅ []]> db
    end in
  let alertDoc :=
    mkAlert newId (ad_origin alertData) (ad_destination alertData)
      (ad_departure_date alertData) (ad_return_date alertData)
      (ad_min_price alertData)
      (price_or_null (ad_current_price alertData))
      None true None (or_null (ad_bookingUrl alertData)) in
  let db2 := alter (on_alerts (insert newId alertDoc)) userId db1 in
  (newId, alter (with_last_active stamp) userId db2).

(** *** Reports *)

(** [getUsersWithActiveAlerts()]: the owners of the active alerts, each
    once, in the order the [Set] met them. *)
Definition getUsersWithActiveAlerts (db : Store) : list string :=
  fold_left
    (fun (userIds : list string) (p : string * PriceAlert) =>
       if bool_decide (p.1 ∈ userIds) then userIds
       else (userIds ++ [p.1])%list)
    (filter (fun p : string * PriceAlert => is_active p.2 = true)
            (all_alerts db))
    [].

(** [Number.MAX_VALUE] *)
Definition MAX_VALUE : Q := inject_Z (2 ^ 1024 - 2 ^ 971).

Record UserStats : Type := mkStats {
  total_alerts : nat;
  active_alerts : nat;
  avg_current_price : option Q;
  best_deal_saved : option Q
}.

(** The counters of [getUserStats], after one more document. *)
Definition count_alert
    (acc : nat * nat * Q * nat * Q) (data : PriceAlert)
  : nat * nat * Q * nat * Q :=
  let '(totalAlerts, activeAlerts, totalPrice, priceCount, bestDealSaved) :=
    acc in
  (S totalAlerts,
   if is_active data then S activeAlerts else activeAlerts,
   if truthy_price (current_price data)
   then (totalPrice + ToNumber (current_price data))%Q else totalPrice,
   if truthy_price (current_price data) then S priceCount else priceCount,
   if truthy_price (lowest_price data)
      && Qlt_bool (ToNumber (lowest_price data)) bestDealSaved
   then ToNumber (lowest_price data) else bestDealSaved).

(** [getUserStats(telegramId)] *)
Definition getUserStats (db : Store) (telegramId : string) : UserStats :=
  let docs :=
    match db !! telegramId with
    | Some u => map snd (map_to_list (flight_alerts u))
    | None => []
    end in
  let '(totalAlerts, activeAlerts, totalPrice, priceCount, bestDealSaved) :=
    fold_left count_alert docs (0%nat, 0%nat, 0%Q, 0%nat, MAX_VALUE) in
  mkStats totalAlerts activeAlerts
    (if (0 <? priceCount)%nat
     then Some (totalPrice / inject_Z (Z.of_nat priceCount))%Q else None)
    (if negb (Qeq_bool bestDealSaved MAX_VALUE) then Some bestDealSaved
     else None).

(** [(a, b) => b.timestamp - a.timestamp], as [compare(a, b) <= 0] *)
Definition newer_first (a b : PriceHistoryEntry) : bool :=
  (history_timestamp b <=? history_timestamp a)%Z.

(** [getPriceHistory(userId, alertId, limit)]: the entries recorded for the
    alert under that user, newest first, cut at [limit]. *)
Definition getPriceHistory (db : Store) (userId alertId : string)
    (limit : Z) : list PriceHistoryEntry :=
  let history :=
    filter (fun h => history_alert_id h = alertId)
      (match db !! userId with
       | Some u => price_history u
       | None => []
       end) in
  JsArray.slice0 limit (JsArray.sort newer_first history).

(** *** Tracks of all users *)

(** [(a, b) => new Date(b.created_at) - new Date(a.created_at)], as
    [compare(a, b) <= 0]; a difference that is [NaN] counts as zero. *)
Definition created_later (Date_parse : string -> option Z)
    (a b : string * FlightTrack) : bool :=
  match Date_parse (created_at a.2), Date_parse (created_at b.2) with
  | Some dateA, Some dateB => (dateB <=? dateA)%Z
  | _, _ => true
  end.

(** [getAllActiveFlightTracks()]: the active tracks of every user with
    their owners, latest created first. *)
Definition getAllActiveFlightTracks (Date_parse : string -> option Z)
    (db : Store) : list (string * FlightTrack) :=
  JsArray.sort (created_later Date_parse)
    (flat_map (fun p : string * UserDoc =>
                 map (fun q : string * FlightTrack => (p.1, q.2))
                     (filter (fun q : string * FlightTrack =>
                                active q.2 = true)
                             (map_to_list (flight_tracks p.2))))
              (map_to_list db)).

End Database.

(** ** Subscriptions ([services/database.js])

    The subscription fields of the documents of [users], keyed like the
    store by [telegramId.toString()]. *)

Module Subscription.

Record Account : Type := mkAccount {
  subscription_tier : option string;
  subscription_expiry : option Z;
  subscription_updated_at : option Z
}.

Abbreviation Accounts := (gmap string Account).

(** The object [getUserSubscription] answers with. *)
Record Plan : Type := mkPlan {
  tier : string;
  expiry : option Z
}.

(** [getUserSubscription(telegramId)] *)
Definition getUserSubscription (db : Accounts) (telegramId : string)
  : Plan :=
  match db !! telegramId with
  | None => mkPlan "free" None
  | Some userData =>
      mkPlan
        (match subscription_tier userData with
         | Some t => if String.eqb t "" then "free" else t
         | None => "free"
         end)
        (subscription_expiry userData)
  end.

(** [updateUserSubscription(telegramId, tier, expiryDate = null)]: an
    update of a document that does not exist is refused by the store. *)
Definition updateUserSubscription (db : Accounts) (telegramId : string)
    (tier : string) (expiryDate : option Z) (now : Z) : result Accounts :=
  match db !! telegramId with
  | None => Throw "NOT_FOUND"
  | Some userData =>
      Ok (<[telegramId :=
              mkAccount (Some tier)
                (match expiryDate with
                 | Some e => Some e
                 | None => subscription_expiry userData
                 end)
                (Some now)]> db)
  end.

(** [isUserPremium(telegramId)] at the instant [now] *)
Definition isUserPremium (db : Accounts) (telegramId : string) (now : Z)
  : bool :=
  let subscription := getUserSubscription db telegramId in
  if String.eqb (tier subscription) "premium"
  then
    match expiry subscription with
    | None => true
    | Some e => (now <? e)%Z
    end
  else false.

End Subscription.

(** ** The collaborators seen from the two services *)

(** A flight offer as [searchFlights] returns it; [price] is the value of
    [parseFloat(flight.price)]. *)
Record Offer : Type := mkOffer {
  price : Q;
  airline : option string;
  bookingUrl : option string
}.

(** What [await flightAPI.searchFlights(...)] does: it throws, or it
    returns a list of offers (possibly [null]). *)
Inductive SearchOutcome : Type :=
| SearchThrows (message : string)
| SearchReturns (flights : option (list Offer)).

(** Calls made on the chat transport and on the tracker, oldest first. *)
Inductive Event : Type :=
| PriceAlertSent (telegram_id alertId : string) (why : option reason)
    (flight : Offer) (previousPrice : option Q)
| StatusUpdateSent (telegram_id trackId : string) (status : jsval)
| MessageSent (chatId : string) (text : string)
| TrackCreated (trackId : string) (data : TrackData)
| StatusChecked (trackId : string)
| CheckScheduled (trackId : string) (delay : Z).

(** The state the services act on: the store, the calls made so far, the
    wall clock in milliseconds and the number of document ids drawn. *)
Record World : Type := mkWorld {
  store : Store;
  events : list Event;
  clock : Z;
  drawn : nat
}.

Definition set_store (db : Store) (w : World) : World :=
  mkWorld db (events w) (clock w) (drawn w).

Definition emit (e : Event) (w : World) : World :=
  mkWorld (store w) (events w ++ [e])%list (clock w) (drawn w).

(** [await this.sleep(ms)] *)
Definition sleep (ms : Z) (w : World) : World :=
  mkWorld (store w) (events w) (clock w + ms) (drawn w).

(** ** Price monitor ([services/priceMonitor.js]) *)

Module PriceMonitor.
Import Js.

(** [shouldNotifyUser(alert, currentPrice, previousPrice)] *)
Definition shouldNotifyUser (alert : PriceAlert) (currentPrice : Q)
    (previousPrice : option Q) : notification :=
  if Qeq_bool (min_price alert) 0 && truthy_price previousPrice
     && strict_neq currentPrice previousPrice
  then yes (if Qlt_bool currentPrice (ToNumber previousPrice)
            then price_drop else price_increase)
  else if Qle_bool currentPrice (min_price alert)
  then yes target_reached
  else
    let significant :=
      if truthy_price previousPrice
         && Qlt_bool currentPrice (ToNumber previousPrice)
      then
        let dropAmount := (ToNumber previousPrice - currentPrice)%Q in
        let dropPercentage :=
          ((dropAmount / ToNumber previousPrice) * 100)%Q in
        Qle_bool 50 dropAmount && Qle_bool 20 dropPercentage
      else false in
    if significant then yes significant_drop
    else if negb (truthy_price previousPrice) then yes first_check
    else no.

(** The [forEach] of step 3: the first offer of strictly smallest price. *)
Definition cheapest (first : Offer) (flights : list Offer) : Offer * Q :=
  fold_left
    (fun (best : Offer * Q) (flight : Offer) =>
       let currentPrice := price flight in
       if Qlt_bool currentPrice best.2 then (flight, currentPrice) else best)
    flights (first, price first).

(** [sendPriceAlert(alert, flightData, reason, previousPrice)]: one message
    to the owner of the alert; a failed delivery is logged and dropped. *)
Definition sendPriceAlert (owner : string) (alert : PriceAlert)
    (flightData : Offer) (why : option reason) (previousPrice : option Q)
    (w : World) : World :=
  emit (PriceAlertSent owner (alert_id alert) why flightData previousPrice) w.

Section WithProvider.

(** The flight-data provider and the calendar date of an instant. *)
Variable searchFlights :
  string -> string -> string -> option string -> SearchOutcome.
Variable today_of : Z -> string.

(** The two early exits of [checkSingleAlert]: only the check is recorded.
    An error of the store ends in the outer [catch]. *)
Definition record_check_only (alertId : string) (w : World) : World :=
  match Database.updateAlertCheck (store w) alertId None (clock w) with
  | Ok db => set_store db w
  | Throw _ => w
  end.

(** [checkSingleAlert(alertId)] *)
Definition checkSingleAlert (alertId : string) (w : World) : World :=
  match Database.getAlert (store w) alertId None with
  | None => w
  | Some (owner, alert) =>
      match searchFlights (origin alert) (destination alert)
              (departure_date alert) (return_date alert) with
      | SearchThrows _ => record_check_only alertId w
      | SearchReturns None => record_check_only alertId w
      | SearchReturns (Some []) => record_check_only alertId w
      | SearchReturns (Some (first :: rest)) =>
          let '(cheapestFlight, cheapestPrice) :=
            cheapest first (first :: rest) in
          let previousPrice := current_price alert in
          let notification :=
            shouldNotifyUser alert cheapestPrice previousPrice in
          match Database.updateAlertPrice (store w) alertId cheapestPrice
                  None (clock w) with
          | Throw _ => w
          | Ok db =>
              let w1 := set_store db w in
              if notify notification
              then sendPriceAlert owner alert cheapestFlight
                     (notify_reason notification) previousPrice w1
              else w1
          end
      end
  end.

(** *** The batch cycle and its reentrancy flag

    [checkAllAlerts] is asynchronous: between two of its [await]s any other
    call may run.  A cycle in flight is the point where it is suspended;
    the check of one alert, which catches its own errors, is one step. *)
Inductive Cycle : Type :=
| AwaitCleanup
| AwaitActiveAlerts
| AwaitCheck (alertId : string) (rest : list string)
| AwaitSleep (rest : list string).

Record Monitor : Type := mkMonitor {
  isRunning : bool;
  world : World;
  cycles : list Cycle
}.

(** The [finally] block, reached on completion and from the outer [catch]. *)
Definition finish (i : nat) (m : Monitor) : Monitor :=
  mkMonitor false (world m) (delete i (cycles m)).

Definition suspend (i : nat) (c : Cycle) (w : World) (m : Monitor)
  : Monitor :=
  mkMonitor (isRunning m) w (<[i := c]> (cycles m)).

(** The head of the [for] loop. *)
Definition next_alert (i : nat) (alerts : list string) (w : World)
    (m : Monitor) : Monitor :=
  match alerts with
  | [] => finish i (mkMonitor (isRunning m) w (cycles m))
  | alertId :: rest => suspend i (AwaitCheck alertId rest) w m
  end.

(** A call of [checkAllAlerts()], up to its first [await]. *)
Definition checkAllAlerts (m : Monitor) : Monitor :=
  if isRunning m then m
  else mkMonitor true (world m) (cycles m ++ [AwaitCleanup])%list.

(** Cycle number [i], suspended at [c], is resumed; [ok] tells whether the
    awaited call on the store succeeded ([checkSingleAlert] and [sleep]
    never fail). *)
Definition resume (ok : bool) (i : nat) (c : Cycle) (m : Monitor)
  : Monitor :=
  let w := world m in
  match c with
  | AwaitCleanup =>
      if ok
      then suspend i AwaitActiveAlerts
             (set_store (Database.cleanupOldAlerts (store w)
                           (today_of (clock w))).2 w) m
      else finish i m
  | AwaitActiveAlerts =>
      if ok
      then next_alert i
             (map (fun p : string * PriceAlert => alert_id p.2)
                  (Database.getActiveAlerts (store w))) w m
      else finish i m
  | AwaitCheck alertId rest =>
      suspend i (AwaitSleep rest) (checkSingleAlert alertId w) m
  | AwaitSleep rest => next_alert i rest (sleep 2000 w) m
  end.

(** One scheduling step of the process: the scheduler fires, or a
    suspended cycle goes on. *)
Inductive step : Monitor -> Monitor -> Prop :=
| step_call m : step m (checkAllAlerts m)
| step_resume m i c ok :
    cycles m !! i = Some c -> step m (resume ok i c m).

(** A monitor as the constructor leaves it. *)
Definition initial (w : World) : Monitor := mkMonitor false w [].

(** *** Showing the price history *)

(** [Math.max(a, b)] and [Math.round(x)] *)
Definition Math_max (a b : Q) : Q := if Qle_bool a b then b else a.
Definition Math_round (x : Q) : Z :=
  let y := (x + (1 # 2))%Q in (Qnum y / Zpos (Qden y))%Z.

(** What [sendPriceHistory] sends to the chat. *)
Inductive HistoryMessage : Type :=
| AccessDenied
| NoHistoryYet
| PriceHistory (entries : list PriceHistoryEntry)
    (minPrice maxPrice : Q) (avgPrice : Z) (target : Q).

(** [sendPriceHistory(chatId, alertId, userId)] *)
Definition sendPriceHistory (db : Store) (alertId userId : string)
  : HistoryMessage :=
  match Database.getAlert db alertId None with
  | None => AccessDenied
  | Some (alertUserId, alert) =>
      if negb (String.eqb alertUserId userId) then AccessDenied
      else
        match Database.getPriceHistory db userId alertId 10 with
        | [] => NoHistoryYet
        | h :: more =>
            let prices := map history_price (h :: more) in
            PriceHistory (h :: more)
              (fold_left Math_min (map history_price more)
                 (history_price h))
              (fold_left Math_max (map history_price more)
                 (history_price h))
              (Math_round
                 (fold_left Qplus prices 0%Q
                  / inject_Z (Z.of_nat (length (h :: more)))))
              (min_price alert)
        end
  end.

End WithProvider.

End PriceMonitor.

(** ** Flight tracker ([services/flightTracker.js]) *)

(** An end of a flight segment of a search result. *)
Record Endpoint : Type := mkEndpoint {
  iataCode : string;
  at_ : string
}.

Record Segment : Type := mkSegment {
  seg_carrierCode : string;
  seg_flightNumber : string;
  departure : Endpoint;
  arrival : Endpoint
}.

(** The [flightData] argument of [FlightTracker.createFlightTrack]. *)
Record FlightData : Type := mkFlightData {
  fd_carrierCode : string;
  fd_flightNumber : string;
  fd_date : string;
  fd_origin : option string;
  fd_destination : option string;
  segments : option (list Segment)
}.

Module FlightTracker.
Import Json.

(** A template literal prints a missing value as [undefined]. *)
Definition interpolate (x : option string) : string :=
  default "undefined" x.

(** [s.split('T')[0]] *)
Definition before_T (s : string) : string :=
  match String.index 0 "T" s with
  | Some n => String.substring 0 n s
  | None => s
  end.

(** What the decision of [shouldNotifyUser] rested on. *)
Inductive Basis : Type :=
| AbsentStatus
| ParseFailure
| Comparison (significantChanges : list jsval).

(** [significantChanges.some(change => change === true)] *)
Definition some_true (changes : list jsval) : bool :=
  existsb (fun change => strict_eq change (JBool true)) changes.

Definition verdict (b : Basis) : bool :=
  match b with
  | AbsentStatus | ParseFailure => true
  | Comparison changes => some_true changes
  end.

(** The object [getFlightStatus] builds from the provider's answer. *)
Definition flight_status (flightDesignator departureAirport arrivalAirport
    departureTime arrivalTime terminal gate : jsval) (checked : string)
  : jsval :=
  JObj [("flightDesignator", flightDesignator);
        ("departureAirport", departureAirport);
        ("arrivalAirport", arrivalAirport);
        ("scheduledDepartureTime", departureTime);
        ("scheduledArrivalTime", arrivalTime);
        ("actualDepartureTime", departureTime);
        ("actualArrivalTime", arrivalTime);
        ("terminal", terminal);
        ("gate", gate);
        ("status", JStr "SCHEDULED");
        ("checked", JStr checked)].

(** A point of a scheduled flight, as far as [getFlightStatus] reads it:
    [iataCode], [departure?.timings?.[0]?.value],
    [arrival?.timings?.[0]?.value], [arrival?.terminal], [arrival?.gate]. *)
Record FlightPoint : Type := mkPoint {
  point_iataCode : jsval;
  departure_timing : jsval;
  arrival_timing : jsval;
  arrival_terminal : jsval;
  arrival_gate : jsval
}.

(** An entry of [response.data.data]. *)
Record ScheduledFlight : Type := mkScheduled {
  flightDesignator : jsval;
  flightPoints : option (list FlightPoint)
}.

(** What the schedule request does: it fails (no token, no connection, an
    error status), or it answers with [response.data.data], possibly
    missing. *)
Inductive ScheduleResponse : Type :=
| ScheduleFails
| ScheduleData (data : option (list ScheduledFlight)).

(** The provider's [flightDesignator]. *)
Definition designator (carrier : string) (number : Z) : jsval :=
  JObj [("carrierCode", JStr carrier); ("flightNumber", JNum number)].

(** [x || null] on an optional text. *)
Definition text_or_null (x : option string) : jsval :=
  match x with
  | Some s => if String.eqb s "" then JNull else JStr s
  | None => JNull
  end.

Section WithEnvironment.

(** [new Date(text).getTime()], [None] for an invalid date;
    [date.toISOString()]; the provider's answer to a schedule request made
    at a given instant; the ids [collection.doc()] hands out. *)
Variable Date_parse : string -> option Z.
Variable toISOString : Z -> string.
Variable schedule : Z -> string -> string -> string -> ScheduleResponse.
Variable autoId : nat -> string.

(** [getFlightStatus(carrierCode, flightNumber, date)]: the status of the
    first flight of the answer, from its first and last points; [None]
    ([null]) when the request fails or the answer is unusable. *)
Definition getFlightStatus (now : Z) (carrier number day : string)
  : option jsval :=
  match schedule now carrier number day with
  | ScheduleFails => None
  | ScheduleData None => None
  | ScheduleData (Some []) => None
  | ScheduleData (Some (flight :: _)) =>
      match flightPoints flight with
      | Some (departurePoint :: second :: more) =>
          let arrivalPoint := List.last (second :: more) departurePoint in
          Some (flight_status (flightDesignator flight)
                  (point_iataCode departurePoint)
                  (point_iataCode arrivalPoint)
                  (or_ (departure_timing departurePoint) JNull)
                  (or_ (arrival_timing arrivalPoint) JNull)
                  (or_ (arrival_terminal arrivalPoint) JNull)
                  (or_ (arrival_gate arrivalPoint) JNull)
                  (toISOString now))
      | _ => None
      end
  end.

(** [new Date(v)] on a truthy value *)
Definition Date_of (v : jsval) : option Z :=
  match v with
  | JStr s => Date_parse s
  | JNum n => Some n
  | JBool true => Some 1
  | _ => None
  end.

(** [timeChangedSignificantly(time1, time2, minutesThreshold)] *)
Definition timeChangedSignificantly (time1 time2 : jsval)
    (minutesThreshold : Q) : bool :=
  if negb (truthy time1) || negb (truthy time2) then false
  else
    match Date_of time1, Date_of time2 with
    | Some date1, Some date2 =>
        let diffMinutes := Qabs (inject_Z (date1 - date2) / 60000) in
        Js.Qlt_bool minutesThreshold diffMinutes
    | _, _ => false
    end.

(** [daysSinceLastCheck(lastChecked)], [None] for [NaN] *)
Definition daysSinceLastCheck (lastChecked : jsval) (now : Z) : option Q :=
  if negb (truthy lastChecked) then Some 999%Q
  else
    match Date_of lastChecked with
    | Some lastCheck => Some (inject_Z (now - lastCheck) / 86400000)%Q
    | None => None
    end.

(** The array [significantChanges], entry by entry. *)
Definition significantChanges (lastStatus currentStatus : jsval) (now : Z)
  : result (list jsval) :=
  designator ← member currentStatus "flightDesignator";
  carrier ← member designator "carrierCode";
  lastDesignator ← member lastStatus "flightDesignator";
  number ← member designator "flightNumber";
  departureTime ← member currentStatus "scheduledDepartureTime";
  lastDepartureTime ← member lastStatus "scheduledDepartureTime";
  arrivalTime ← member currentStatus "scheduledArrivalTime";
  lastArrivalTime ← member lastStatus "scheduledArrivalTime";
  terminal ← member currentStatus "terminal";
  lastTerminal ← member lastStatus "terminal";
  gate ← member currentStatus "gate";
  lastGate ← member lastStatus "gate";
  status ← member currentStatus "status";
  lastSt ← member lastStatus "status";
  checked ← member lastStatus "checked";
  Ok [ JBool (negb (strict_eq carrier
                      (opt_member lastDesignator "carrierCode"))
              || negb (strict_eq number
                         (opt_member lastDesignator "flightNumber")));
       JBool (timeChangedSignificantly departureTime lastDepartureTime 10);
       JBool (timeChangedSignificantly arrivalTime lastArrivalTime 10);
       and_ (JBool (negb (strict_eq terminal lastTerminal)))
            (or_ terminal lastTerminal);
       and_ (JBool (negb (strict_eq gate lastGate))) (or_ gate lastGate);
       JBool (negb (strict_eq status lastSt));
       JBool (match daysSinceLastCheck checked now with
              | Some days => Qle_bool 1 days
              | None => false
              end) ].

(** The branch [shouldNotifyUser] takes. *)
Definition basis (track : FlightTrack) (currentStatus : jsval) (now : Z)
  : result Basis :=
  match last_status track with
  | NoStatus => Ok AbsentStatus
  | Unparsable _ => Ok ParseFailure
  | Json lastStatus =>
      changes ← significantChanges lastStatus currentStatus now;
      Ok (Comparison changes)
  end.

(** [shouldNotifyUser(track, currentStatus)] *)
Definition shouldNotifyUser (track : FlightTrack) (currentStatus : jsval)
    (now : Z) : result bool :=
  b ← basis track currentStatus now; Ok (verdict b).

(** [sendStatusUpdate(track, status)]: nothing is sent without a chat id or
    when building the text throws. *)
Definition sendStatusUpdate (owner : string) (track : FlightTrack)
    (status : jsval) (w : World) : World :=
  if String.eqb owner "" then w
  else
    match (designator ← member status "flightDesignator";
           _ ← member designator "carrierCode";
           member designator "flightNumber") with
    | Ok _ => emit (StatusUpdateSent owner (track_id track) status) w
    | Throw _ => w
    end.

(** [checkSingleFlightStatus(trackId)]; the call itself is logged. *)
Definition checkSingleFlightStatus (trackId : string) (w0 : World)
  : World :=
  let w := emit (StatusChecked trackId) w0 in
  match Database.getFlightTrack (store w) trackId with
  | None => w
  | Some (owner, track) =>
      if negb (active track) then w
      else
        match getFlightStatus (clock w) (carrier_code track)
                (flight_number track) (date track) with
        | None => w
        | Some currentStatus =>
            if negb (truthy currentStatus) then w
            else
              match shouldNotifyUser track currentStatus (clock w) with
              | Throw _ => w
              | Ok true =>
                  let w1 := sendStatusUpdate owner track currentStatus w in
                  set_store
                    (Database.updateFlightTrackStatus (store w1) trackId
                       currentStatus (toISOString (clock w1))).2 w1
              | Ok false =>
                  set_store
                    (Database.updateFlightTrackCheckTime (store w) trackId
                       (toISOString (clock w))).2 w
              end
        end
  end.

(** [await this.db.createFlightTrack(trackData)] with a freshly drawn id *)
Definition db_createFlightTrack (trackData : TrackData) (w : World)
  : string * World :=
  let '(trackId, db) :=
    Database.createFlightTrack (store w) (autoId (drawn w)) trackData
      (toISOString (clock w)) (clock w) in
  (trackId,
   emit (TrackCreated trackId trackData)
     (mkWorld db (events w) (clock w) (S (drawn w)))).

(** [new Date(segment.departure.at).toISOString().split('T')[0]] *)
Definition departure_day (segment : Segment) : result string :=
  match Date_parse (at_ (departure segment)) with
  | Some ms => Ok (before_T (toISOString ms))
  | None => Throw "RangeError: Invalid time value"
  end.

(** The [for] loop of the multi-segment branch, from index [i] on; [n] is
    [flightData.segments.length]. *)
Fixpoint track_segments (userId : string) (flightData : FlightData)
    (n i : nat) (remaining : list Segment) (w : World)
  : result (list string) * World :=
  match remaining with
  | [] => (Ok [], w)
  | segment :: rest =>
      match (if (i =? 0)%nat then Ok (fd_date flightData)
             else departure_day segment) with
      | Throw m => (Throw m, w)
      | Ok segmentDate =>
          let trackData :=
            mkTrackData userId userId (seg_carrierCode segment)
              (seg_flightNumber segment) segmentDate
              (Some (iataCode (departure segment)))
              (Some (iataCode (arrival segment)))
              true (Some i)
              (Some (interpolate (fd_origin flightData) ++ "-"
                     ++ interpolate (fd_destination flightData))) in
          let '(trackId, w1) := db_createFlightTrack trackData w in
          let w2 := checkSingleFlightStatus trackId w1 in
          let w3 := if (i <? n - 1)%nat then sleep 1500 w2 else w2 in
          let '(r, w4) := track_segments userId flightData n (S i) rest w3 in
          (trackIds ← r; Ok (trackId :: trackIds), w4)
      end
  end.

(** [flightData.origin || (segments && segments[0] ? ... : null)] *)
Definition origin_or_first (given : option string)
    (segs : option (list Segment)) (pick : Segment -> string)
  : option string :=
  match Database.or_null given with
  | Some s => Some s
  | None =>
      match segs with
      | Some (first :: _) => Some (pick first)
      | _ => None
      end
  end.

(** [createFlightTrack(chatId, userId, flightData)]: the id of the first
    track created ([trackIds[0]]), or the error thrown on the way. *)
Definition createFlightTrack (chatId userId : string)
    (flightData : FlightData) (w : World)
  : result (option string) * World :=
  match segments flightData with
  | Some (s0 :: s1 :: more) =>
      let segs := s0 :: s1 :: more in
      let w1 := emit (MessageSent chatId "multi-segment journey") w in
      let '(r, w2) :=
        track_segments userId flightData (length segs) 0 segs w1 in
      (trackIds ← r; Ok (head trackIds), w2)
  | segs =>
      let trackData :=
        mkTrackData userId userId (fd_carrierCode flightData)
          (fd_flightNumber flightData) (fd_date flightData)
          (origin_or_first (fd_origin flightData) segs
             (fun s => iataCode (departure s)))
          (origin_or_first (fd_destination flightData) segs
             (fun s => iataCode (arrival s)))
          false None None in
      let '(trackId, w1) := db_createFlightTrack trackData w in
      let w2 := emit (MessageSent chatId "single flight") w1 in
      (Ok (Some trackId), emit (CheckScheduled trackId 2000) w2)
  end.

(** The [for] loop of [checkAllTrackedFlights]: two seconds between a
    check and the next. *)
Fixpoint check_tracks (trackIds : list string) (w : World) : World :=
  match trackIds with
  | [] => w
  | trackId :: rest =>
      let w1 := checkSingleFlightStatus trackId w in
      match rest with
      | [] => w1
      | _ :: _ => check_tracks rest (sleep 2000 w1)
      end
  end.

(** [checkAllTrackedFlights()]: each track is asked for under the
    [track_id] it carries. *)
Definition checkAllTrackedFlights (w : World) : World :=
  check_tracks
    (map (fun p : string * FlightTrack => track_id p.2)
         (Database.getAllActiveFlightTracks Date_parse (store w)))
    w.

End WithEnvironment.

End FlightTracker.

(** ** Airline names ([findAirlineCode] in [index.js])

    Strings are sequences of one-byte characters; case mapping and
    white space are those of ASCII. *)

Module Airline.

Definition in_range (lo hi : nat) (c : ascii) : bool :=
  let n := nat_of_ascii c in ((lo <=? n) && (n <=? hi))%nat.

Definition lower_char (c : ascii) : ascii :=
  if in_range 65 90 c then ascii_of_nat (nat_of_ascii c + 32) else c.

Definition upper_char (c : ascii) : ascii :=
  if in_range 97 122 c then ascii_of_nat (nat_of_ascii c - 32) else c.

Fixpoint map_string (f : ascii -> ascii) (s : string) : string :=
  match s with
  | EmptyString => EmptyString
  | String c rest => String (f c) (map_string f rest)
  end.

Definition toLowerCase : string -> string := map_string lower_char.
Definition toUpperCase : string -> string := map_string upper_char.

(** Tab, line feed, vertical tab, form feed, carriage return, space. *)
Definition is_space (c : ascii) : bool :=
  in_range 9 13 c || in_range 32 32 c.

Fixpoint trimStart (s : string) : string :=
  match s with
  | EmptyString => EmptyString
  | String c rest => if is_space c then trimStart rest else s
  end.

Fixpoint trimEnd (s : string) : string :=
  match s with
  | EmptyString => EmptyString
  | String c rest =>
      match trimEnd rest with
      | EmptyString => if is_space c then EmptyString
                       else String c EmptyString
      | kept => String c kept
      end
  end.

Definition trim (s : string) : string := trimEnd (trimStart s).

(** [s.includes(part)] *)
Fixpoint includes (s part : string) : bool :=
  String.prefix part s ||
  match s with
  | EmptyString => false
  | String _ rest => includes rest part
  end.

Definition alphanumeric (c : ascii) : bool :=
  in_range 65 90 c || in_range 97 122 c || in_range 48 57 c.

(** [/^[A-Za-z0-9]{2}$/.test(s)] *)
Definition two_alphanumerics (s : string) : bool :=
  match s with
  | String a (String b EmptyString) => alphanumeric a && alphanumeric b
  | _ => false
  end.

(** The object literal [commonAirlines], in the order it is written. *)
Definition commonAirlines : list (string * string) :=
  [ ("american", "AA"); ("united", "UA"); ("delta", "DL");
    ("southwest", "WN"); ("lufthansa", "LH"); ("air france", "AF");
    ("british airways", "BA"); ("emirates", "EK"); ("qatar", "QR");
    ("singapore", "SQ"); ("air india", "AI"); ("indigo", "6E");
    ("vistara", "UK"); ("spicejet", "SG"); ("air canada", "AC");
    ("klm", "KL"); ("turkish", "TK"); ("jetblue", "B6") ].

(** What [findAirlineCode] resolves to: a string, or the object an
    inherited property of the table holds. *)
Inductive Resolved : Type :=
| Code (code : string)
| Builtin (property : string).

(** The lower-case property names every object literal inherits. *)
Definition inherited : list string := ["constructor"; "__proto__"].

Fixpoint own (table : list (string * string)) (key : string)
  : option string :=
  match table with
  | [] => None
  | (name, code) :: rest =>
      if String.eqb name key then Some code else own rest key
  end.

(** [commonAirlines[key]] when it is truthy *)
Definition property (key : string) : option Resolved :=
  match own commonAirlines key with
  | Some code => Some (Code code)
  | None =>
      if existsb (String.eqb key) inherited then Some (Builtin key)
      else None
  end.

(** The [for ... of Object.entries(commonAirlines)] loop of [index.js]. *)
Fixpoint partial_match (table : list (string * string))
    (normalizedName : string) : option string :=
  match table with
  | [] => None
  | (name, code) :: rest =>
      if includes name normalizedName
         && (2 <? String.length normalizedName)%nat
      then Some code
      else partial_match rest normalizedName
  end.

(** [findAirlineCode(airlineName)] of [index.js] *)
Definition findAirlineCode (airlineName : string) : Resolved :=
  let normalizedName := trim (toLowerCase airlineName) in
  if (String.length normalizedName =? 2)%nat
     && two_alphanumerics normalizedName
  then Code (toUpperCase normalizedName)
  else
    match property normalizedName with
    | Some found => found
    | None =>
        match partial_match commonAirlines normalizedName with
        | Some code => Code code
        | None => Code (toUpperCase airlineName)
        end
    end.

End Airline.

(** ** ISO-8601 instants

    [Date.parse] and [toISOString] on instants in UTC, written
    [YYYY-MM-DDTHH:MM:SSZ] or [YYYY-MM-DDTHH:MM:SS.sssZ], as milliseconds
    since the epoch.  The worked examples run on these. *)

Module Iso.
Local Open Scope Z_scope.

Definition digit (c : ascii) : option Z :=
  let n := nat_of_ascii c in
  if ((48 <=? n) && (n <=? 57))%nat then Some (Z.of_nat (n - 48)) else None.

Fixpoint number_from (acc : Z) (s : string) : option Z :=
  match s with
  | EmptyString => Some acc
  | String c rest => d ← digit c; number_from (10 * acc + d) rest
  end.

Definition field (from len : nat) (s : string) : option Z :=
  let part := String.substring from len s in
  if (String.length part =? len)%nat then number_from 0 part else None.

(** Days from 1970-01-01 to a date of the proleptic Gregorian calendar. *)
Definition days_from_civil (y m d : Z) : Z :=
  let y' := if m <=? 2 then y - 1 else y in
  let era := y' / 400 in
  let yoe := y' - era * 400 in
  let doy := (153 * (if 2 <? m then m - 3 else m + 9) + 2) / 5 + d - 1 in
  let doe := yoe * 365 + yoe / 4 - yoe / 100 + doy in
  era * 146097 + doe - 719468.

(** The date, as year, month and day, that many days after 1970-01-01. *)
Definition civil_from_days (days : Z) : Z * Z * Z :=
  let z := days + 719468 in
  let era := z / 146097 in
  let doe := z - era * 146097 in
  let yoe := (doe - doe / 1460 + doe / 36524 - doe / 146096) / 365 in
  let doy := doe - (365 * yoe + yoe / 4 - yoe / 100) in
  let mp := (5 * doy + 2) / 153 in
  let d := doy - (153 * mp + 2) / 5 + 1 in
  let m := if mp <? 10 then mp + 3 else mp - 9 in
  let y := yoe + era * 400 + (if m <=? 2 then 1 else 0) in
  (y, m, d).

Definition separators_ok (s : string) : bool :=
  String.eqb (String.substring 4 1 s) "-"
  && String.eqb (String.substring 7 1 s) "-"
  && String.eqb (String.substring 10 1 s) "T"
  && String.eqb (String.substring 13 1 s) ":"
  && String.eqb (String.substring 16 1 s) ":".

(** The part after the seconds: [Z], or [.sss] and [Z]. *)
Definition milliseconds (s : string) : option Z :=
  if String.eqb (String.substring 19 6 s) "Z" then Some 0
  else if String.eqb (String.substring 19 1 s) "."
          && String.eqb (String.substring 23 2 s) "Z"
  then field 20 3 s
  else None.

Definition parse (s : string) : option Z :=
  if separators_ok s then
    y ← field 0 4 s; m ← field 5 2 s; d ← field 8 2 s;
    h ← field 11 2 s; mi ← field 14 2 s; sec ← field 17 2 s;
    ms ← milliseconds s;
    if (1 <=? m) && (m <=? 12) && (1 <=? d) && (d <=? 31)
       && (h <=? 23) && (mi <=? 59) && (sec <=? 59)
    then Some ((((days_from_civil y m d * 24 + h) * 60 + mi) * 60 + sec)
               * 1000 + ms)
    else None
  else None.

(** [n] in decimal, with zeros in front up to [width] digits. *)
Definition padded (width : nat) (n : Z) : string :=
  let digits := pretty n in
  String.string_of_list_ascii
    (repeat "0"%char (width - String.length digits))
  ++ digits.

(** [new Date(ms).toISOString()], for the years 0 to 9999. *)
Definition toISOString (ms : Z) : string :=
  let days := ms / 86400000 in
  let rest := ms mod 86400000 in
  let '(y, m, d) := civil_from_days days in
  padded 4 y ++ "-" ++ padded 2 m ++ "-" ++ padded 2 d ++ "T"
  ++ padded 2 (rest / 3600000) ++ ":"
  ++ padded 2 (rest / 60000 mod 60) ++ ":"
  ++ padded 2 (rest / 1000 mod 60) ++ "."
  ++ padded 3 (rest mod 1000) ++ "Z".

(** The calendar day of an instant, [toISOString().split('T')[0]]. *)
Definition day_of (ms : Z) : string :=
  String.substring 0 10 (toISOString ms).

End Iso.

(** ** The flight-data client ([services/flightAPI.js]) *)

Module FlightAPI.
Import Airline.

(** [s.replace(/-/g, '')] *)
Fixpoint without_hyphens (s : string) : string :=
  match s with
  | EmptyString => EmptyString
  | String c rest =>
      if Ascii.eqb c "-" then without_hyphens rest
      else String c (without_hyphens rest)
  end.

Definition baseUrl : string := "https://www.skyscanner.com/transport/flights".

(** [generateBookingUrl(origin, destination, departureDate, returnDate)] *)
Definition generateBookingUrl (origin destination departureDate : string)
    (returnDate : option string) : string :=
  let dateStr := without_hyphens departureDate in
  match Database.or_null returnDate with
  | Some r =>
      baseUrl ++ "/" ++ origin ++ "/" ++ destination ++ "/" ++ dateStr
      ++ "/" ++ without_hyphens r
      ++ "/?adults=1&children=0&adultsv2=1&childrenv2=&infants=0&cabinclass=economy&rtn=1&preferdirects=false&outboundaltsenabled=false&inboundaltsenabled=false"
  | None =>
      baseUrl ++ "/" ++ origin ++ "/" ++ destination ++ "/" ++ dateStr
      ++ "/?adults=1&children=0&adultsv2=1&childrenv2=&infants=0&cabinclass=economy&rtn=0&preferdirects=false&outboundaltsenabled=false&inboundaltsenabled=false"
  end.

(** *** Airports of a city *)

(** The object literal of [data/airportCodes.js], in the order it is
    written. *)
Definition airportCodes : list (string * string) :=
  [ ("delhi", "DEL"); ("mumbai", "BOM"); ("bangalore", "BLR");
    ("chennai", "MAA"); ("kolkata", "CCU"); ("hyderabad", "HYD");
    ("ahmedabad", "AMD"); ("guwahati", "GAU"); ("cochin", "COK");
    ("pune", "PNQ"); ("london", "LHR"); ("london heathrow", "LHR");
    ("london gatwick", "LGW"); ("london city", "LCY");
    ("london stansted", "STN"); ("london luton", "LTN");
    ("new york", "JFK"); ("new york jfk", "JFK"); ("new york lga", "LGA");
    ("new york ewr", "EWR"); ("dubai", "DXB"); ("singapore", "SIN");
    ("bangkok", "BKK"); ("paris", "CDG"); ("amsterdam", "AMS");
    ("frankfurt", "FRA"); ("hong kong", "HKG"); ("sydney", "SYD") ].



(** [table[key]] when it is truthy; [table] lists the entries of the
    object as [Object.entries] does. *)
Definition entry (table : list (string * string)) (key : string)
  : option Resolved :=
  match own table key with
  | Some c => if String.eqb c "" then None else Some (Code c)
  | None =>
      if existsb (String.eqb key) inherited then Some (Builtin key)
      else None
  end.





(** *** The access token *)

(** What a request for a token does, and how long it takes. *)
Inductive TokenAnswer : Type :=
| TokenRefused (latency : Z) (message : string)
| TokenIssued (latency : Z) (access_token : string) (expires_in : Z).

(** The fields of the client the token logic reads and writes, the wall
    clock, and the number of token requests made so far. *)
Record Client : Type := mkClient {
  token : option string;
  tokenExpiry : option Z;
  time : Z;
  posts : nat
}.

Definition maxRetries : nat := 3.

Section WithTokenEndpoint.

(** The answer to the [n]-th token request. *)
Variable post : nat -> TokenAnswer.

(** The [while (retries < maxRetries)] loop; [left] is
    [maxRetries - retries]. *)
Fixpoint request_token (left : nat) (c : Client)
  : result (option string) * Client :=
  match left with
  | O => (Ok None, c)
  | S left' =>
      match post (posts c) with
      | TokenIssued latency access_token expires_in =>
          let now := time c + latency in
          (Ok (Some access_token),
           mkClient (Some access_token)
             (Some (now + (expires_in - 300) * 1000)) now (S (posts c)))
      | TokenRefused latency message =>
          let retries := (maxRetries - left')%nat in
          let c1 :=
            mkClient (token c) (tokenExpiry c) (time c + latency)
              (S (posts c)) in
          if (maxRetries <=? retries)%nat then (Throw message, c1)
          else
            let delay := 1000 * 2 ^ Z.of_nat retries in
            request_token left'
              (mkClient (token c1) (tokenExpiry c1) (time c1 + delay)
                 (posts c1))
      end
  end.

(** [this.token && this.tokenExpiry > Date.now()] *)
Definition token_valid (c : Client) : bool :=
  match token c, tokenExpiry c with
  | Some t, Some e => negb (String.eqb t "") && (time c <? e)%Z
  | _, _ => false
  end.

(** [getAccessToken()] *)
Definition getAccessToken (c : Client) : result (option string) * Client :=
  if token_valid c then (Ok (token c), c)
  else request_token maxRetries c.

End WithTokenEndpoint.

End FlightAPI.

(** ** Dates typed by the user ([index.js]) *)

Module Dates.
Import JsArray.

(** An element of the patterns used: [\d] or a character. *)
Inductive Token : Type :=
| Digit
| Lit (c : ascii).

Definition is_digit (c : ascii) : bool := Airline.in_range 48 57 c.

(** [/^...$/.test(s)] for a pattern that is a sequence of tokens *)
Fixpoint test (pattern : list Token) (s : string) : bool :=
  match pattern, s with
  | [], EmptyString => true
  | Digit :: p, String c rest => is_digit c && test p rest
  | Lit l :: p, String c rest => Ascii.eqb l c && test p rest
  | _, _ => false
  end.

(** [\d{4}-\d{2}-\d{2}], [\d{2}-\d{2}-\d{2}], [\d{2}-\d{2}-\d{4}] and
    [\d{2}\/\d{2}\/\d{4}] *)
Definition year_first : list Token :=
  [Digit; Digit; Digit; Digit; Lit "-"; Digit; Digit; Lit "-"; Digit; Digit].
Definition short_year : list Token :=
  [Digit; Digit; Lit "-"; Digit; Digit; Lit "-"; Digit; Digit].
Definition day_first : list Token :=
  [Digit; Digit; Lit "-"; Digit; Digit; Lit "-"; Digit; Digit; Digit; Digit].
Definition slashed : list Token :=
  [Digit; Digit; Lit "/"; Digit; Digit; Lit "/"; Digit; Digit; Digit; Digit].

(** [formatDate(dateStr)], [None] for [null] *)
Definition formatDate (dateStr : string) : option string :=
  if test year_first dateStr then Some dateStr
  else if test short_year dateStr then
    let parts := split "-" dateStr in
    Some ("20" ++ part parts 2 ++ "-" ++ part parts 1 ++ "-" ++ part parts 0)
  else if test day_first dateStr then
    let parts := split "-" dateStr in
    Some (part parts 2 ++ "-" ++ part parts 1 ++ "-" ++ part parts 0)
  else if test slashed dateStr then
    let parts := split "/" dateStr in
    Some (part parts 2 ++ "-" ++ part parts 1 ++ "-" ++ part parts 0)
  else None.

End Dates.

(** ** Buttons and what they carry back ([index.js]) *)

Module Callbacks.
Import JsArray.

(** The [callback_data] of the button under a search result. *)
Definition track_button (origin destination departure_date : string)
    (return_date : option string) : string :=
  "track_" ++ origin ++ "_" ++ destination ++ "_" ++ departure_date
  ++ match Database.or_null return_date with
     | Some r => "_" ++ r
     | None => ""
     end.

(** The [callback_data] of the buttons under an alert and under a tracked
    flight. *)
Definition history_button (alert_id : string) : string :=
  "history_" ++ alert_id.
Definition cancel_button (alert_id : string) : string :=
  "cancel_" ++ alert_id.
Definition cancel_flight_button (track_id : string) : string :=
  "cancel_flight_" ++ track_id.

(** Where the handler of [callback_query] sends a payload; an id that is
    [None] is [undefined]. *)
Inductive Route : Type :=
| CancelFlightTrack (trackId : option string)
| SendPriceHistory (alertId : option string)
| InvalidTrackingData
| SetupDirectTracking (origin destination departureDate : option string)
    (returnDate : option string)
| CancelAlert (alertId : option string)
| CopyShareLink
| Conversation (data : string).

(** The handler of [callback_query], up to the payloads that need the
    state of a conversation. *)
Definition route (data : string) : Route :=
  if String.prefix "cancel_flight_" data
  then CancelFlightTrack (split "cancel_flight_" data !! 1%nat)
  else if String.prefix "history_" data
  then SendPriceHistory (split "_" data !! 1%nat)
  else if String.prefix "track_" data
  then
    let parts := split "_" data in
    if (length parts <? 4)%nat then InvalidTrackingData
    else SetupDirectTracking (parts !! 1%nat) (parts !! 2%nat)
           (parts !! 3%nat)
           (if (4 <? length parts)%nat then parts !! 4%nat else None)
  else if String.prefix "cancel_" data
  then CancelAlert (split "_" data !! 1%nat)
  else if String.eqb data "copy_share_link" then CopyShareLink
  else Conversation data.

(** No [_] in a text: so it is with document ids, airport codes and
    dates. *)
Definition plain (s : string) : bool :=
  forallb (fun c => negb (Ascii.eqb c "_")) (list_ascii_of_string s).

End Callbacks.

(** ** Search results and tracking from a search result ([index.js]) *)

Module Bot.
Import JsArray.

(** [(a, b) => parseFloat(a.price) - parseFloat(b.price)], as
    [compare(a, b) <= 0] *)
Definition cheaper_first (a b : Offer) : bool :=
  Qle_bool (price a) (price b).

(** What [searchFlightsForUser] shows for the offers found. *)
Record SearchResults : Type := mkResults {
  found : nat;
  cheapestFlight : Offer;
  topFlights : list Offer;
  track_callback : string
}.

(** The part of [searchFlightsForUser] that follows the search: [None]
    when no flight was found. *)
Definition search_results (origin destination departure_date : string)
    (return_date : option string) (flights : list Offer)
  : option SearchResults :=
  match flights with
  | [] => None
  | first :: _ =>
      Some (mkResults (length flights)
              (PriceMonitor.cheapest first flights).1
              (slice0 5 (sort cheaper_first flights))
              (Callbacks.track_button origin destination departure_date
                 return_date))
  end.

(** What [setupDirectTracking] answers the button with. *)
Inductive TrackingReply : Type :=
| NoFlightsToTrack
| TrackingError
| TrackingEnabled (alertId : string) (cheapestPrice : Q).

Section WithServices.

Variable searchFlights :
  string -> string -> string -> option string -> SearchOutcome.
Variable autoId : nat -> string.

(** [setupDirectTracking(chatId, userId, origin, destination,
    departureDate, returnDate, callbackQueryId)]: an alert on any change
    of price, starting from the cheapest price found now, and a first check
    five seconds later. *)
Definition setupDirectTracking (chatId userId origin destination
    departureDate : string) (returnDate : option string) (w : World)
  : TrackingReply * World :=
  match searchFlights origin destination departureDate returnDate with
  | SearchThrows _ => (TrackingError, w)
  | SearchReturns None => (TrackingError, w)
  | SearchReturns (Some []) => (NoFlightsToTrack, w)
  | SearchReturns (Some (first :: rest)) =>
      let cheapestPrice :=
        (PriceMonitor.cheapest first (first :: rest)).2 in
      let bookingUrl :=
        FlightAPI.generateBookingUrl origin destination departureDate
          returnDate in
      let alertData :=
        Database.mkAlertData userId origin destination departureDate
          returnDate 0%Q (Some cheapestPrice) (Some bookingUrl) in
      let '(alertId, db) :=
        Database.createAlert (store w) (autoId (drawn w)) alertData
          (clock w) in
      let w1 := mkWorld db (events w) (clock w) (S (drawn w)) in
      let w2 := emit (MessageSent chatId "tracking enabled") w1 in
      (TrackingEnabled alertId cheapestPrice,
       emit (CheckScheduled alertId 5000) w2)
  end.

End WithServices.

End Bot.

(** ** The conversation started by [/track] ([index.js]) *)

Module Conversation.
Import Airline.













End Conversation.

(** ** The specification's wording

    The notification precedence of the price monitor as the specification
    words it, to be compared with [PriceMonitor.shouldNotifyUser]. *)

Module Spec.

(** The first rule of a list whose condition holds decides; with no rule
    matching there is no notification. *)
Inductive first_match : list (Prop * notification) -> notification -> Prop :=
| match_here (P : Prop) n rest : P -> first_match ((P, n) :: rest) n
| match_later (P : Prop) n rest d :
    ~ P -> first_match rest d -> first_match ((P, n) :: rest) d
| match_none : first_match [] no.

(** "A previous price exists", with its value: the field is set. *)
Definition stored (prev : option Q) (old : Q) : Prop := prev = Some old.

(** The five rules, in the order of the specification. *)
Definition price_rules (target : Q) (prev : option Q) (new : Q)
  : list (Prop * notification) :=
  [ (exists old, target == 0 /\ stored prev old /\ new < old,
     yes price_drop);
    (exists old, target == 0 /\ stored prev old /\ old < new,
     yes price_increase);
    (new <= target, yes target_reached);
    (exists old, stored prev old /\ new < old /\ 50 <= old - new
                 /\ 20 <= (old - new) / old * 100,
     yes significant_drop);
    (forall old, ~ stored prev old, yes first_check) ]%Q.

(** The previous price as the code sees it: a stored zero counts as no
    price at all. *)
Definition seen (prev : option Q) : option Q :=
  match prev with
  | Some old => if Qeq_bool old 0 then None else Some old
  | None => None
  end.



(** The alert invariant of the data model. *)
Definition lowest_le_current (a : PriceAlert) : Prop :=
  forall lowest current,
    lowest_price a = Some lowest -> current_price a = Some current ->
    (lowest <= current)%Q.

(** Every alert of the store satisfies [P]. *)
Definition every_alert (P : PriceAlert -> Prop) (db : Store) : Prop :=
  forall uid id a, Database.user_alert db uid id = Some a -> P a.

(** *** First check *)

(** [checkSingleAlert] on an alert without a stored price and a non-empty
    list of offers sends one notification on the cheapest offer, for a
    reason [expected] allows. *)
Definition first_check_sent (expected : Q -> Q -> reason -> Prop)
    (after before : World) (owner alertId : string) (alert : PriceAlert)
    (flights : list Offer) : Prop :=
  exists flight why,
    In flight flights
    /\ Forall (fun o => (price flight <= price o)%Q) flights
    /\ expected (min_price alert) (price flight) why
    /\ events after
       = (events before
          ++ [PriceAlertSent owner alertId (Some why) flight None])%list.

(** "Any new price triggers [first_check]". *)
Definition always_first_check (target new : Q) (why : reason) : Prop :=
  why = first_check.

(** [first_check] above the target, [target_reached] at or below it. *)
Definition first_check_above_target (target new : Q) (why : reason)
  : Prop :=
  ((new <= target)%Q -> why = target_reached)
  /\ ((target < new)%Q -> why = first_check).

(** *** Running minimum *)

(** "The minimum of the previously stored lowest price and the new price,
    or the new price when no lowest price was stored". *)
Definition running_minimum (lowest : option Q) (new : Q) : Q :=
  match lowest with
  | Some l => Qmin l new
  | None => new
  end.

(** After a successful check the alert holds the cheapest price as its
    current price and the running minimum as its lowest price. *)
Definition prices_recorded (after : World) (owner alertId : string)
    (alert : PriceAlert) (flights : list Offer) : Prop :=
  exists flight a',
    In flight flights
    /\ Forall (fun o => (price flight <= price o)%Q) flights
    /\ Database.user_alert (store after) owner alertId = Some a'
    /\ current_price a' = Some (price flight)
    /\ lowest_price a'
       = Some (running_minimum (lowest_price alert) (price flight)).

(** *** Failed search *)

(** The search threw, or returned nothing. *)
Definition search_failed (o : SearchOutcome) : Prop :=
  match o with
  | SearchThrows _ | SearchReturns None | SearchReturns (Some []) => True
  | SearchReturns (Some (_ :: _)) => False
  end.

(** Between [before] and [after] nothing happened but the stamping of
    [last_checked] on the alert [alertId] of [owner]. *)
Definition only_check_recorded (after before : World)
    (owner alertId : string) : Prop :=
  (exists a a',
      Database.user_alert (store before) owner alertId = Some a
      /\ Database.user_alert (store after) owner alertId = Some a'
      /\ a' = Database.with_last_checked (clock before) a
      /\ current_price a' = current_price a
      /\ lowest_price a' = lowest_price a
      /\ last_checked a' = Some (clock before))
  /\ (forall uid id, ~ (uid = owner /\ id = alertId) ->
        Database.user_alert (store after) uid id
        = Database.user_alert (store before) uid id)
  /\ (forall uid,
        price_history <$> store after !! uid
        = price_history <$> store before !! uid)
  /\ (forall uid,
        flight_tracks <$> store after !! uid
        = flight_tracks <$> store before !! uid)
  /\ events after = events before.

(** *** Reentrancy *)

(** The flag tells whether a cycle is in flight, and there is never more
    than one. *)
Definition single_flight (m : PriceMonitor.Monitor) : Prop :=
  (PriceMonitor.isRunning m = true
   /\ exists c, PriceMonitor.cycles m = [c])
  \/ (PriceMonitor.isRunning m = false /\ PriceMonitor.cycles m = []).

(** *** Connecting itineraries *)

(** What the claims say of a track: leg flag, segment index, parent
    route. *)
Abbreviation Leg := (bool * option nat * option string)%type.

Definition leg (t : FlightTrack) : Leg :=
  (is_segment t, segment_index t, parent_route t).

(** The legs of the tracks of user [uid], by track id. *)
Definition legs_of (db : Store) (uid : string) : gmap string Leg :=
  match db !! uid with
  | Some u => leg <$> flight_tracks u
  | None => ∅
  end.

(** The ids of the track documents of user [uid]. *)
Definition track_ids (db : Store) (uid : string) : gset string :=
  dom (legs_of db uid).

(** Creations and status checks, the calls whose order matters. *)
Inductive Mark : Type :=
| Created (trackId : string) (index : option nat) (route : option string)
| Checked (trackId : string).

Definition mark (e : Event) : option Mark :=
  match e with
  | TrackCreated trackId data =>
      Some (Created trackId (segmentIndex data) (parentRoute data))
  | StatusChecked trackId => Some (Checked trackId)
  | _ => None
  end.

Definition marks (es : list Event) : list Mark := omap mark es.

(** One creation per segment, index ascending from [i], each followed by
    the check of the track just created. *)
Fixpoint in_sequence (route : string) (i : nat) (ids : list string)
  : list Mark :=
  match ids with
  | [] => []
  | id :: rest =>
      Created id (Some i) (Some route) :: Checked id
      :: in_sequence route (S i) rest
  end.

(** The next [n] ids [collection.doc()] hands out after [d] draws. *)
Definition ids_from (autoId : nat -> string) (d n : nat) : list string :=
  map autoId (seq d n).

(** *** Airline names *)

(** [part] occurs in [s]. *)
Definition contained_in (part s : string) : Prop :=
  exists before after, s = before ++ part ++ after.


(** The resolution [index.js] makes, rule by rule.  [n] is the input in
    lower case without surrounding white space. *)
Inductive resolves (airlineName : string) : Airline.Resolved -> Prop :=
| as_code n :
    n = Airline.trim (Airline.toLowerCase airlineName) ->
    Airline.two_alphanumerics n = true ->
    resolves airlineName (Airline.Code (Airline.toUpperCase n))
| as_name n code :
    n = Airline.trim (Airline.toLowerCase airlineName) ->
    Airline.two_alphanumerics n = false ->
    In (n, code) Airline.commonAirlines ->
    resolves airlineName (Airline.Code code)
| as_inherited n :
    n = Airline.trim (Airline.toLowerCase airlineName) ->
    In n Airline.inherited ->
    resolves airlineName (Airline.Builtin n)
| as_part n earlier name code later :
    n = Airline.trim (Airline.toLowerCase airlineName) ->
    Airline.two_alphanumerics n = false ->
    (forall c, ~ In (n, c) Airline.commonAirlines) ->
    ~ In n Airline.inherited ->
    (2 < String.length n)%nat ->
    Airline.commonAirlines = (earlier ++ (name, code) :: later)%list ->
    contained_in n name ->
    (forall entry, In entry earlier -> ~ contained_in n entry.1) ->
    resolves airlineName (Airline.Code code)
| as_itself n :
    n = Airline.trim (Airline.toLowerCase airlineName) ->
    Airline.two_alphanumerics n = false ->
    (forall c, ~ In (n, c) Airline.commonAirlines) ->
    ~ In n Airline.inherited ->
    ((String.length n <= 2)%nat
     \/ forall entry, In entry Airline.commonAirlines ->
                      ~ contained_in n entry.1) ->
    resolves airlineName (Airline.Code (Airline.toUpperCase airlineName)).

End Spec.

(** ** Worked examples: concrete stores and providers *)

Module Examples.

(** One alert [a1] from JFK to LAX. *)
Definition alert1 (target : Q) (current lowest : option Q) : PriceAlert :=
  mkAlert "a1" "JFK" "LAX" "2030-01-15" None target current lowest true
    (Some 500) None.

(** User [7] owns [alert], user [8] owns nothing. *)
Definition world1 (alert : PriceAlert) : World :=
  mkWorld (<["7" := mkUser 0 {["a1" := alert]} ∅ []]>
             {["8" := mkUser 0 ∅ ∅ []]})
          [] 1000 0.

Definition offer (p : Q) : Offer := mkOffer p (Some "XX") None.

(** A provider that answers every search with [outcome]. *)
Definition provider (outcome : SearchOutcome)
  : string -> string -> string -> option string -> SearchOutcome :=
  fun _ _ _ _ => outcome.

Definition offers (prices : list Q) : SearchOutcome :=
  SearchReturns (Some (map offer prices)).

(** Flight LH400 as the provider reports it, leaving at [departs]. *)
Definition lh400 (departs checked : string) : jsval :=
  FlightTracker.flight_status (FlightTracker.designator "LH" 400)
    (JStr "FRA") (JStr "JFK") (JStr departs) (JStr "2024-12-25T18:30:00Z")
    (JStr "1") JNull checked.

(** A track of LH400 whose last stored status is [last]. *)
Definition track1 (last : stored_status) : FlightTrack :=
  mkTrack "t1" "LH" "400" "2024-12-25" (Some "FRA") (Some "JFK") last
    "2024-12-01T08:00:00Z" true false None None None None.

(** A provider that answers every schedule request with the same flight
    of two points. *)
Definition always_on_time (now : Z) (carrier number day : string)
  : FlightTracker.ScheduleResponse :=
  FlightTracker.ScheduleData
    (Some [ FlightTracker.mkScheduled
              (FlightTracker.designator "LH" 400)
              (Some [ FlightTracker.mkPoint (JStr "FRA")
                        (JStr "2024-12-25T10:00:00Z") JUndefined
                        JUndefined JUndefined;
                      FlightTracker.mkPoint (JStr "JFK") JUndefined
                        (JStr "2024-12-25T18:30:00Z") (JStr "1")
                        JUndefined ]) ]).

(** Document ids [doc-0], [doc-1], ... *)
Definition numbered (n : nat) : string := "doc-" ++ pretty n.

(** Frankfurt to Los Angeles over New York and Chicago. *)
Definition three_legs : FlightData :=
  mkFlightData "" "" "2024-12-25" (Some "FRA") (Some "LAX")
    (Some [ mkSegment "LH" "400" (mkEndpoint "FRA" "2024-12-25T10:00:00Z")
              (mkEndpoint "JFK" "2024-12-25T18:30:00Z");
            mkSegment "UA" "515" (mkEndpoint "JFK" "2024-12-25T20:00:00Z")
              (mkEndpoint "ORD" "2024-12-25T22:30:00Z");
            mkSegment "UA" "1212" (mkEndpoint "ORD" "2024-12-26T01:00:00Z")
              (mkEndpoint "LAX" "2024-12-26T05:30:00Z") ]).

(** User [7] owns alert [a1] and track [t1], user [8] owns nothing. *)
Definition db2 : Store :=
  <["7" := mkUser 0 {["a1" := alert1 400 (Some 450%Q) (Some 430%Q)]}
             {["t1" := track1 NoStatus]} []]>
    {["8" := mkUser 0 ∅ ∅ []]}.

(** The store [db2] on the evening of 24 December 2024. *)
Definition world2 : World := mkWorld db2 [] 1735063200000 0.

(** User [7] owns alert [a1], checked before at 450, and has two entries
    in the price history, one of them of another alert. *)
Definition world3 : World :=
  mkWorld
    (<["7" := mkUser 0 {["a1" := alert1 400 (Some 450%Q) (Some 430%Q)]} ∅
                [mkHistory "a1" 450 None None 900;
                 mkHistory "a0" 300 None None 950]]>
       {["8" := mkUser 0 ∅ ∅ []]})
    [] 1000 0.

(** User [8] asks for an alert from Delhi to Mumbai at 300. *)
Definition alert_request : Database.AlertData :=
  Database.mkAlertData "8" "DEL" "BOM" "2030-02-01" None 300 None None.

(** LH400 as stored after a check, arriving at terminal 1. *)
Definition lh400_stored : jsval :=
  lh400 "2024-12-25T10:00:00Z" "2024-12-24T12:00:00Z".

(** The same flight, now arriving at terminal 2, gate B7. *)
Definition lh400_moved : jsval :=
  FlightTracker.flight_status (FlightTracker.designator "LH" 400)
    (JStr "FRA") (JStr "JFK") (JStr "2024-12-25T10:00:00Z")
    (JStr "2024-12-25T18:30:00Z") (JStr "2") (JStr "B7")
    "2024-12-24T18:00:00Z".


End Examples.
(** * Properties *)

(** ** Numbers *)

Lemma Qlt_bool_iff a b : Js.Qlt_bool a b = true <-> (a < b)%Q.
Proof.
  unfold Js.Qlt_bool. rewrite negb_true_iff. split.
  - intros H. apply Qnot_le_lt. intros Hle.
    apply Qle_bool_iff in Hle. congruence.
  - intros H. destruct (Qle_bool b a) eqn:E; [|reflexivity].
    apply Qle_bool_iff in E. exfalso. eapply Qlt_not_le; eauto.
Qed.

Lemma Qlt_bool_false a b : Js.Qlt_bool a b = false <-> (b <= a)%Q.
Proof.
  unfold Js.Qlt_bool. rewrite negb_false_iff. apply Qle_bool_iff.
Qed.

Lemma Qle_bool_false a b : Qle_bool a b = false <-> (b < a)%Q.
Proof.
  rewrite <- Qlt_bool_iff. unfold Js.Qlt_bool.
  destruct (Qle_bool a b); simpl; intuition congruence.
Qed.

Lemma Qeq_bool_false a b : Qeq_bool a b = false <-> ~ (a == b)%Q.
Proof.
  split.
  - intros H E. apply Qeq_bool_iff in E. congruence.
  - intros H. destruct (Qeq_bool a b) eqn:E; [|reflexivity].
    apply Qeq_bool_iff in E. contradiction.
Qed.

Lemma Math_min_le_r a b : (Js.Math_min a b <= b)%Q.
Proof.
  unfold Js.Math_min. destruct (Qle_bool a b) eqn:E.
  - now apply Qle_bool_iff.
  - apply Qle_refl.
Qed.

Lemma Math_min_le_l a b : (Js.Math_min a b <= a)%Q.
Proof.
  unfold Js.Math_min. destruct (Qle_bool a b) eqn:E.
  - apply Qle_refl.
  - apply Qlt_le_weak, Qle_bool_false, E.
Qed.

(** Booleans of the code against the propositions of the specification. *)
Ltac reflect_Q :=
  repeat match goal with
  | H : Qeq_bool _ _ = true |- _ => apply Qeq_bool_iff in H
  | H : Qeq_bool _ _ = false |- _ => apply Qeq_bool_false in H
  | H : Qle_bool _ _ = true |- _ => apply Qle_bool_iff in H
  | H : Qle_bool _ _ = false |- _ => apply Qle_bool_false in H
  | H : Js.Qlt_bool _ _ = true |- _ => apply Qlt_bool_iff in H
  | H : Js.Qlt_bool _ _ = false |- _ => apply Qlt_bool_false in H
  end.

(** ** The price decision *)

Section PriceDecision.
Import Spec PriceMonitor.

(** With no stored price the rules that need one cannot fire. *)
Lemma no_stored_price {P : Q -> Prop} :
  ~ exists old, stored None old /\ P old.
Proof. intros (old & H & _). discriminate H. Qed.

(** The decision of the code is the one the five rules make, for every
    alert whose stored price, if any, is not zero. *)
Lemma shouldNotifyUser_follows alert new prev :
  (forall z, prev = Some z -> ~ (z == 0)%Q) ->
  first_match (price_rules (min_price alert) prev new)
    (shouldNotifyUser alert new prev).
Proof.
  intros Hnz. unfold shouldNotifyUser, price_rules.
  destruct prev as [old|]; simpl.
  - assert (Hold : Qeq_bool old 0 = false)
      by (apply Qeq_bool_false, Hnz; reflexivity).
    rewrite Hold. simpl. rewrite andb_true_r.
    destruct (Qeq_bool (min_price alert) 0) eqn:Ht;
      destruct (Qeq_bool new old) eqn:Hne; simpl;
      destruct (Js.Qlt_bool new old) eqn:Hlt; simpl; reflect_Q;
      try (exfalso; lra).
    all: try (apply match_here; exists old; unfold stored;
              repeat split; auto; lra).
    all: apply match_later;
      [intros (o & ? & Ho & ?); injection Ho as <-; lra|].
    all: try (apply match_here; exists old; unfold stored;
              repeat split; auto; lra).
    all: apply match_later;
      [intros (o & ? & Ho & ?); injection Ho as <-; lra|].
    all: destruct (Qle_bool new (min_price alert)) eqn:Hle; reflect_Q;
      [apply match_here; assumption | apply match_later; [lra|]].
    all: try (apply match_later;
              [intros (o & Ho & ? & ?); injection Ho as <-; lra|];
              apply match_later; [intros H; apply (H old); reflexivity|];
              apply match_none).
    all: set (pct := ((old - new) / old * 100)%Q).
    all: destruct (Qle_bool 50 (old - new)) eqn:H50;
         destruct (Qle_bool 20 pct) eqn:H20; simpl; reflect_Q.
    all: try (apply match_here; exists old; unfold stored; fold pct;
              repeat split; auto; lra).
    all: apply match_later;
      [intros (o & Ho & ? & ? & H20'); injection Ho as <-;
       fold pct in H20'; lra|];
      apply match_later; [intros H; apply (H old); reflexivity|];
      apply match_none.
  - rewrite andb_false_r. simpl.
    apply match_later; [intros (o & ? & Ho & ?); discriminate Ho|].
    apply match_later; [intros (o & ? & Ho & ?); discriminate Ho|].
    destruct (Qle_bool new (min_price alert)) eqn:Hle; reflect_Q.
    + apply match_here. assumption.
    + apply match_later; [lra|].
      apply match_later; [intros (o & Ho & ?); discriminate Ho|].
      apply match_here. intros o Ho. discriminate Ho.
Qed.

(** On every input the code decides as the rules do once a stored zero is
    read as no previous price. *)
Lemma shouldNotifyUser_zero_as_absent alert new prev :
  first_match (price_rules (min_price alert) (seen prev) new)
    (shouldNotifyUser alert new prev).
Proof.
  destruct prev as [old|]; simpl.
  - destruct (Qeq_bool old 0) eqn:E.
    + replace (shouldNotifyUser alert new (Some old))
        with (shouldNotifyUser alert new None).
      * apply shouldNotifyUser_follows. discriminate.
      * unfold shouldNotifyUser. simpl. rewrite E. simpl.
        now rewrite !andb_false_r.
    + apply shouldNotifyUser_follows. intros z [= <-].
      now apply Qeq_bool_false.
  - apply shouldNotifyUser_follows. discriminate.
Qed.

(** The examples of the specification. *)
Example any_change_drop :
  shouldNotifyUser (Examples.alert1 0 None None) 480 (Some 500%Q)
  = yes price_drop.
Proof. reflexivity. Qed.

Example any_change_increase :
  shouldNotifyUser (Examples.alert1 0 None None) 520 (Some 500%Q)
  = yes price_increase.
Proof. reflexivity. Qed.

Example any_change_unchanged :
  shouldNotifyUser (Examples.alert1 0 None None) 500 (Some 500%Q) = no.
Proof. reflexivity. Qed.

Example target_before_drop :
  shouldNotifyUser (Examples.alert1 400 None None) 395 (Some 450%Q)
  = yes target_reached.
Proof. reflexivity. Qed.

(** A drop of 60, one fifth of 300, above the target of 200; one unit
    less and the drop is below a fifth. *)
Example drop_of_a_fifth :
  shouldNotifyUser (Examples.alert1 200 None None) 240 (Some 300%Q)
  = yes significant_drop
  /\ shouldNotifyUser (Examples.alert1 200 None None) 241 (Some 300%Q) = no.
Proof. split; reflexivity. Qed.

End PriceDecision.

(** ** The store *)

Section StoreFacts.
Import Database.

Lemma first_owner_Some {A} (sub : UserDoc -> gmap string A) (db : Store)
    id uid a :
  first_owner sub db id = Some (uid, a) ->
  exists u, db !! uid = Some u /\ sub u !! id = Some a.
Proof.
  unfold first_owner. intros H. apply head_Some_elem_of in H.
  apply list_elem_of_omap in H as ([k u] & Hin & Hsome).
  apply elem_of_map_to_list in Hin. simpl in Hsome.
  destruct (sub u !! id) as [a'|] eqn:E; simpl in Hsome; [|discriminate].
  injection Hsome as <- <-. eauto.
Qed.

Lemma first_owner_None {A} (sub : UserDoc -> gmap string A) (db : Store)
    id uid u :
  first_owner sub db id = None -> db !! uid = Some u -> sub u !! id = None.
Proof.
  unfold first_owner. intros H Hu.
  apply head_None in H.
  destruct (sub u !! id) as [a|] eqn:E; [|reflexivity].
  assert (Hin : (uid, a) ∈ omap (fun p : string * UserDoc =>
             (fun a => (p.1, a)) <$> sub p.2 !! id) (map_to_list db)).
  { apply list_elem_of_omap. exists (uid, u). split.
    - now apply elem_of_map_to_list.
    - simpl. now rewrite E. }
  rewrite H in Hin. inversion Hin.
Qed.

(** The owner a query answers holds the document it answers. *)
Lemma getAlert_owner db id owner alert :
  getAlert db id None = Some (owner, alert) ->
  exists a, first_owner flight_alerts db id = Some (owner, a)
            /\ alert = with_alert_id id a
            /\ user_alert db owner id = Some a.
Proof.
  unfold getAlert. intros H.
  destruct (first_owner flight_alerts db id) as [[o a]|] eqn:E;
    simpl in H; [|discriminate].
  injection H as <- <-. exists a. repeat split.
  apply first_owner_Some in E as (u & Hu & Ha).
  unfold user_alert. rewrite Hu. exact Ha.
Qed.

Lemma user_alert_update_alert db uid id f uid' id' :
  user_alert (update_alert uid id f db) uid' id'
  = if decide (uid = uid' /\ id = id')
    then f <$> user_alert db uid' id'
    else user_alert db uid' id'.
Proof.
  unfold user_alert, update_alert.
  rewrite lookup_alter.
  destruct (decide (uid = uid')) as [->|Hu].
  - destruct (db !! uid') as [u|] eqn:Eu; simpl.
    + rewrite lookup_alter.
      destruct (decide (id = id')) as [->|Hi].
      * rewrite decide_True by auto. reflexivity.
      * rewrite decide_False by tauto. reflexivity.
    + now destruct (decide _).
  - rewrite decide_False by tauto. reflexivity.
Qed.

Lemma user_alert_addPriceHistory db uid id p al url now uid' id' :
  user_alert (addPriceHistory db uid id p al url now) uid' id'
  = user_alert db uid' id'.
Proof.
  unfold user_alert, addPriceHistory. rewrite lookup_alter.
  destruct (decide (uid = uid')) as [->|]; [|reflexivity].
  now destruct (db !! uid').
Qed.

Lemma user_track_update_track db uid id f uid' id' :
  user_track (update_track uid id f db) uid' id'
  = if decide (uid = uid' /\ id = id')
    then f <$> user_track db uid' id'
    else user_track db uid' id'.
Proof.
  unfold user_track, update_track.
  rewrite lookup_alter.
  destruct (decide (uid = uid')) as [->|Hu].
  - destruct (db !! uid') as [u|] eqn:Eu; simpl.
    + rewrite lookup_alter.
      destruct (decide (id = id')) as [->|Hi].
      * rewrite decide_True by auto. reflexivity.
      * rewrite decide_False by tauto. reflexivity.
    + now destruct (decide _).
  - rewrite decide_False by tauto. reflexivity.
Qed.

End StoreFacts.

(** ** The single-alert check *)

Section SingleAlert.
Import Spec PriceMonitor Database.

Variable searchFlights :
  string -> string -> string -> option string -> SearchOutcome.


(** The [forEach] keeps an offer of least price. *)
Lemma cheapest_fold flights best f p :
  best.2 = price best.1 ->
  fold_left
    (fun (b : Offer * Q) (flight : Offer) =>
       if Js.Qlt_bool (price flight) b.2 then (flight, price flight) else b)
    flights best = (f, p) ->
  p = price f /\ (f = best.1 \/ In f flights) /\ (p <= best.2)%Q
  /\ Forall (fun o => (p <= price o)%Q) flights.
Proof.
  revert best. induction flights as [|o rest IH]; intros best Hb; simpl.
  - intros ->. simpl in *. repeat split; auto. apply Qle_refl.
  - intros H. destruct (Js.Qlt_bool (price o) best.2) eqn:E; reflect_Q.
    + apply IH in H as (Hp & Hin & Hle & Hall); [|reflexivity].
      simpl in *. repeat split; auto.
      * destruct Hin as [->|]; auto.
      * lra.
    + apply IH in H as (Hp & Hin & Hle & Hall); [|assumption].
      repeat split; auto.
      * tauto.
      * constructor; [lra | assumption].
Qed.

Lemma cheapest_spec first rest f p :
  cheapest first (first :: rest) = (f, p) ->
  p = price f /\ In f (first :: rest)
  /\ Forall (fun o => (p <= price o)%Q) (first :: rest).
Proof.
  intros H. apply cheapest_fold in H as (Hp & Hin & _ & Hall);
    [|reflexivity].
  repeat split; auto. destruct Hin as [->|]; simpl in *; auto.
Qed.

(** A successful check, step by step. *)
Lemma checkSingleAlert_success w alertId owner alert first rest :
  getAlert (store w) alertId None = Some (owner, alert) ->
  searchFlights (origin alert) (destination alert) (departure_date alert)
    (return_date alert) = SearchReturns (Some (first :: rest)) ->
  exists flight,
    In flight (first :: rest)
    /\ Forall (fun o => (price flight <= price o)%Q) (first :: rest)
    /\ checkSingleAlert searchFlights alertId w
       = let d := shouldNotifyUser alert (price flight)
                    (current_price alert) in
         let w1 :=
           set_store
             (addPriceHistory
                (update_alert owner alertId
                   (with_prices (price flight)
                      (lowestPrice alert (price flight)) (clock w) None)
                   (store w))
                owner alertId (price flight) None None (clock w)) w in
         if notify d
         then sendPriceAlert owner alert flight (notify_reason d)
                (current_price alert) w1
         else w1.
Proof.
  intros Hget Hsearch. unfold checkSingleAlert.
  rewrite Hget, Hsearch.
  destruct (cheapest first (first :: rest)) as [f p] eqn:Hc.
  apply cheapest_spec in Hc as (-> & Hin & Hall).
  exists f. repeat split; auto.
  unfold updateAlertPrice. rewrite Hget. reflexivity.
Qed.

Lemma alert_id_getAlert db alertId owner alert :
  getAlert db alertId None = Some (owner, alert) -> alert_id alert = alertId.
Proof.
  intros H. apply getAlert_owner in H as (a & _ & -> & _). reflexivity.
Qed.

End SingleAlert.

Section PriceClaims.
Import Spec PriceMonitor Database.

Variable searchFlights :
  string -> string -> string -> option string -> SearchOutcome.


(** C6, as amended.  The first check of an alert (no stored current
    price) with offers found always notifies, on the cheapest offer: for
    [first_check] when that price is above the target, for
    [target_reached] when it is at or below it. *)
Theorem first_check_notifies w alertId owner alert first rest :
  getAlert (store w) alertId None = Some (owner, alert) ->
  searchFlights (origin alert) (destination alert) (departure_date alert)
    (return_date alert) = SearchReturns (Some (first :: rest)) ->
  current_price alert = None ->
  first_check_sent first_check_above_target
    (checkSingleAlert searchFlights alertId w) w owner alertId alert
    (first :: rest).
Proof.
  intros Hget Hsearch Hnone.
  destruct (checkSingleAlert_success searchFlights _ _ _ _ _ _ Hget Hsearch)
    as (flight & Hin & Hall & ->).
  rewrite Hnone. cbv zeta.
  unfold shouldNotifyUser, sendPriceAlert. simpl.
  rewrite andb_false_r. simpl.
  rewrite (alert_id_getAlert _ _ _ _ Hget).
  destruct (Qle_bool (price flight) (min_price alert)) eqn:Hle; reflect_Q.
  - exists flight, target_reached. repeat split; auto. intros ?. lra.
  - exists flight, first_check. repeat split; auto. intros ?. lra.
Qed.

Lemma Qmin_Math_min a b : Qmin a b = Js.Math_min a b.
Proof.
  unfold Js.Math_min.
  destruct (Qle_bool a b) eqn:E; reflect_Q.
  - unfold Qmin, GenericMinMax.gmin.
    destruct (a ?= b)%Q eqn:C; try reflexivity.
    apply Qgt_alt in C. lra.
  - unfold Qmin, GenericMinMax.gmin.
    destruct (a ?= b)%Q eqn:C; try reflexivity.
    + apply Qeq_alt in C. lra.
    + apply Qlt_alt in C. lra.
Qed.

(** What a successful check leaves in the alert. *)
Lemma checkSingleAlert_prices w alertId owner alert first rest :
  getAlert (store w) alertId None = Some (owner, alert) ->
  searchFlights (origin alert) (destination alert) (departure_date alert)
    (return_date alert) = SearchReturns (Some (first :: rest)) ->
  exists flight a,
    In flight (first :: rest)
    /\ Forall (fun o => (price flight <= price o)%Q) (first :: rest)
    /\ user_alert (store w) owner alertId = Some a
    /\ lowest_price a = lowest_price alert
    /\ store (checkSingleAlert searchFlights alertId w)
       = addPriceHistory
           (update_alert owner alertId
              (with_prices (price flight)
                 (lowestPrice alert (price flight)) (clock w) None)
              (store w))
           owner alertId (price flight) None None (clock w).
Proof.
  intros Hget Hsearch.
  destruct (checkSingleAlert_success searchFlights _ _ _ _ _ _ Hget Hsearch)
    as (flight & Hin & Hall & ->).
  apply getAlert_owner in Hget as (a & _ & -> & Ha).
  exists flight, a. repeat split; auto.
  cbv zeta. now destruct (notify _).
Qed.

(** Every way through [checkSingleAlert] rewrites at most the alert it
    was asked about, by stamping it or by recording a price. *)
Lemma checkSingleAlert_store w alertId :
  store (checkSingleAlert searchFlights alertId w) = store w
  \/ (exists owner,
        store (checkSingleAlert searchFlights alertId w)
        = update_alert owner alertId (with_last_checked (clock w)) (store w))
  \/ (exists owner p l,
        (l <= p)%Q
        /\ store (checkSingleAlert searchFlights alertId w)
           = addPriceHistory
               (update_alert owner alertId
                  (with_prices p l (clock w) None) (store w))
               owner alertId p None None (clock w)).
Proof.
  destruct (getAlert (store w) alertId None) as [[owner alert]|] eqn:Hget.
  2: { left. unfold checkSingleAlert. now rewrite Hget. }
  assert (Hfail : store (record_check_only alertId w) = store w
                  \/ exists owner, store (record_check_only alertId w)
                     = update_alert owner alertId
                         (with_last_checked (clock w)) (store w)).
  { unfold record_check_only, updateAlertCheck.
    destruct (collectionGroup_alert (store w) alertId) as [[o a]|];
      [right; exists o; reflexivity | left; reflexivity]. }
  destruct (searchFlights (origin alert) (destination alert)
              (departure_date alert) (return_date alert))
    as [m|[[|first rest]|]] eqn:Hsearch.
  1-2,4: unfold checkSingleAlert; rewrite Hget, Hsearch; tauto.
  right. right.
  destruct (checkSingleAlert_prices _ _ _ _ _ _ Hget Hsearch)
    as (flight & a & _ & _ & _ & _ & ->).
  exists owner, (price flight), (lowestPrice alert (price flight)).
  split; [|reflexivity].
  unfold lowestPrice. destruct (Js.truthy_price _).
  - apply Math_min_le_r.
  - apply Qle_refl.
Qed.

(** C3, as amended.  [lowest_price <= current_price], wherever both are
    set, is kept by every call of [checkSingleAlert]; a successful check
    stores the cheapest price as current price and, for an alert whose
    stored lowest price is not zero, the minimum of that and the new price
    as lowest price (the new price when none was stored). *)
Theorem checkSingleAlert_keeps_lowest_le_current w alertId :
  every_alert lowest_le_current (store w) ->
  every_alert lowest_le_current
    (store (checkSingleAlert searchFlights alertId w))
  /\ (forall owner alert first rest,
        getAlert (store w) alertId None = Some (owner, alert) ->
        searchFlights (origin alert) (destination alert)
          (departure_date alert) (return_date alert)
        = SearchReturns (Some (first :: rest)) ->
        (forall z, lowest_price alert = Some z -> ~ (z == 0)%Q) ->
        prices_recorded (checkSingleAlert searchFlights alertId w)
          owner alertId alert (first :: rest)).
Proof.
  intros Hinv. split.
  - intros uid id a.
    destruct (checkSingleAlert_store w alertId)
      as [-> | [(owner & ->) | (owner & p & l & Hle & ->)]].
    + apply Hinv.
    + rewrite user_alert_update_alert. destruct (decide _).
      * destruct (user_alert (store w) uid id) as [al|] eqn:E;
          simpl; [|discriminate].
        intros [= <-]. apply (Hinv _ _ _ E).
      * apply Hinv.
    + rewrite user_alert_addPriceHistory, user_alert_update_alert.
      destruct (decide _).
      * destruct (user_alert (store w) uid id) as [al|] eqn:E;
          simpl; [|discriminate].
        intros [= <-] lo cu [= <-] [= <-]. exact Hle.
      * apply Hinv.
  - intros owner alert first rest Hget Hsearch Hnz.
    destruct (checkSingleAlert_prices _ _ _ _ _ _ Hget Hsearch)
      as (flight & a & Hin & Hall & Ha & Hlow & Hstore).
    exists flight,
      (with_prices (price flight) (lowestPrice alert (price flight))
         (clock w) None a).
    repeat split; auto.
    + rewrite Hstore, user_alert_addPriceHistory,
        user_alert_update_alert, decide_True by auto.
      now rewrite Ha.
    + simpl. f_equal. unfold lowestPrice, running_minimum.
      destruct (lowest_price alert) as [l|] eqn:El; simpl; [|reflexivity].
      assert (Hl : Qeq_bool l 0 = false)
        by (apply Qeq_bool_false, Hnz; reflexivity).
      rewrite Hl. simpl. symmetry. apply Qmin_Math_min.
Qed.

(** C4.  When the search for a known alert throws or returns no offer,
    [checkSingleAlert] stamps [last_checked] on that alert and does
    nothing else: current and lowest price stay, no other alert changes,
    no price-history entry is added, no track changes, nothing is sent. *)
Theorem failed_search_records_check_only w alertId owner alert :
  getAlert (store w) alertId None = Some (owner, alert) ->
  search_failed (searchFlights (origin alert) (destination alert)
                   (departure_date alert) (return_date alert)) ->
  only_check_recorded (checkSingleAlert searchFlights alertId w) w
    owner alertId.
Proof.
  intros Hget Hfail.
  assert (Hcheck : checkSingleAlert searchFlights alertId w
                   = record_check_only alertId w).
  { unfold checkSingleAlert. rewrite Hget.
    destruct (searchFlights _ _ _ _) as [m|[[|first rest]|]];
      simpl in Hfail; try reflexivity. contradiction. }
  rewrite Hcheck. clear Hcheck.
  apply getAlert_owner in Hget as (a & Hfirst & _ & Ha).
  assert (Hst : store (record_check_only alertId w)
                = update_alert owner alertId (with_last_checked (clock w))
                    (store w)).
  { unfold record_check_only, updateAlertCheck, collectionGroup_alert.
    now rewrite Hfirst. }
  assert (Hev : events (record_check_only alertId w) = events w).
  { unfold record_check_only, updateAlertCheck, collectionGroup_alert.
    now rewrite Hfirst. }
  unfold only_check_recorded. rewrite Hst, Hev.
  split; [|split; [|split; [|split; [|reflexivity]]]].
  - exists a, (with_last_checked (clock w) a).
    rewrite user_alert_update_alert, decide_True by auto.
    rewrite Ha. repeat split; reflexivity.
  - intros uid id Hne.
    rewrite user_alert_update_alert, decide_False; [reflexivity|].
    intros [-> ->]. now apply Hne.
  - intros uid. unfold update_alert. rewrite lookup_alter.
    destruct (decide (owner = uid)) as [->|]; [|reflexivity].
    now destruct (store w !! uid).
  - intros uid. unfold update_alert. rewrite lookup_alter.
    destruct (decide (owner = uid)) as [->|]; [|reflexivity].
    now destruct (store w !! uid).
Qed.

End PriceClaims.

(** *** The price claims on concrete alerts *)

Section PriceExamples.
Import Spec PriceMonitor Database Examples.
Local Open Scope Q_scope.

Lemma getAlert_world1 alert :
  getAlert (store (world1 alert)) "a1" None
  = Some ("7", with_alert_id "a1" alert).
Proof. reflexivity. Qed.

Lemma user_alert_world1 alert uid id a :
  user_alert (store (world1 alert)) uid id = Some a ->
  uid = "7" /\ id = "a1" /\ a = alert.
Proof.
  unfold user_alert, world1. simpl.
  destruct (decide (uid = "7")) as [->|Hu].
  - rewrite lookup_insert_eq. simpl.
    destruct (decide (id = "a1")) as [->|Hi].
    + rewrite lookup_singleton_eq. intros [= <-]. auto.
    + rewrite lookup_singleton_ne by congruence. discriminate.
  - rewrite lookup_insert_ne by congruence.
    destruct (decide (uid = "8")) as [->|Hu'].
    + rewrite lookup_singleton_eq. simpl. rewrite lookup_empty. discriminate.
    + rewrite lookup_singleton_ne by congruence. discriminate.
Qed.

Lemma every_alert_world1 (P : PriceAlert -> Prop) alert :
  P alert -> every_alert P (store (world1 alert)).
Proof.
  intros HP uid id a H.
  apply user_alert_world1 in H as (_ & _ & ->). exact HP.
Qed.



(** No stored price, target 400, offers at 520 and 480: [first_check]. *)
Lemma first_check_notifies_witness :
  getAlert (store (world1 (alert1 400 None None))) "a1" None
  = Some ("7", alert1 400 None None)
  /\ provider (offers [520; 480]) "JFK" "LAX" "2030-01-15" None
     = SearchReturns (Some [offer 520; offer 480])
  /\ current_price (alert1 400 None None) = None
  /\ first_check_sent first_check_above_target
       (checkSingleAlert (provider (offers [520; 480])) "a1"
          (world1 (alert1 400 None None)))
       (world1 (alert1 400 None None))
       "7" "a1" (alert1 400 None None) [offer 520; offer 480].
Proof.
  split; [reflexivity | split; [reflexivity | split; [reflexivity |]]].
  apply (first_check_notifies (provider (offers [520; 480]))
           (world1 (alert1 400 None None)) "a1" "7"
           (alert1 400 None None) (offer 520) [offer 480]);
    reflexivity.
Defined.

(** Counterexample to C6 as stated.  No stored price, target 400, one
    offer at 395: the notification goes out for [target_reached], not for
    [first_check]. *)
Lemma first_check_reason_counterexample :
  ~ (forall owner alert first rest,
       getAlert (store (world1 (alert1 400 None None))) "a1" None
       = Some (owner, alert) ->
       provider (offers [395]) (origin alert) (destination alert)
         (departure_date alert) (return_date alert)
       = SearchReturns (Some (first :: rest)) ->
       current_price alert = None ->
       first_check_sent always_first_check
         (checkSingleAlert (provider (offers [395])) "a1"
            (world1 (alert1 400 None None)))
         (world1 (alert1 400 None None))
         owner "a1" alert (first :: rest)).
Proof.
  intros H.
  specialize (H "7" (alert1 400 None None) (offer 395) []
                eq_refl eq_refl eq_refl).
  destruct H as (flight & why & Hin & _ & Hwhy & Hev).
  destruct Hin as [<-|[]]. unfold always_first_check in Hwhy. subst why.
  vm_compute in Hev. discriminate Hev.
Qed.

(** Stored prices 450 and 430, offers at 420 and 395: the invariant holds
    before and after, and 395 becomes both current and lowest price. *)
Lemma checkSingleAlert_keeps_lowest_le_current_witness :
  every_alert lowest_le_current
    (store (world1 (alert1 400 (Some 450) (Some 430))))
  /\ every_alert lowest_le_current
       (store (checkSingleAlert (provider (offers [420; 395])) "a1"
                 (world1 (alert1 400 (Some 450) (Some 430)))))
  /\ prices_recorded
       (checkSingleAlert (provider (offers [420; 395])) "a1"
          (world1 (alert1 400 (Some 450) (Some 430))))
       "7" "a1" (alert1 400 (Some 450) (Some 430)) [offer 420; offer 395].
Proof.
  assert (Hinv : every_alert lowest_le_current
                   (store (world1 (alert1 400 (Some 450) (Some 430))))).
  { apply every_alert_world1. intros l c [= <-] [= <-].
    vm_compute. discriminate. }
  destruct (checkSingleAlert_keeps_lowest_le_current
              (provider (offers [420; 395]))
              (world1 (alert1 400 (Some 450) (Some 430))) "a1" Hinv)
    as [Hafter Hrec].
  split; [exact Hinv | split; [exact Hafter |]].
  apply (Hrec "7" (alert1 400 (Some 450) (Some 430)) (offer 420) [offer 395]);
    [reflexivity | reflexivity |].
  intros z [= <-] H. vm_compute in H. discriminate H.
Defined.

(** Counterexample to C3 as stated.  A stored lowest price of 0 under a
    current price of 120, one offer at 100: the minimum of the stored
    lowest price and the new price is 0, the code stores 100. *)
Lemma running_minimum_counterexample :
  ~ (every_alert lowest_le_current
       (store (world1 (alert1 1000 (Some 120) (Some 0)))) ->
     every_alert lowest_le_current
       (store (checkSingleAlert (provider (offers [100])) "a1"
                 (world1 (alert1 1000 (Some 120) (Some 0)))))
     /\ (forall owner alert first rest,
           getAlert (store (world1 (alert1 1000 (Some 120) (Some 0))))
             "a1" None = Some (owner, alert) ->
           provider (offers [100]) (origin alert) (destination alert)
             (departure_date alert) (return_date alert)
           = SearchReturns (Some (first :: rest)) ->
           prices_recorded
             (checkSingleAlert (provider (offers [100])) "a1"
                (world1 (alert1 1000 (Some 120) (Some 0))))
             owner "a1" alert (first :: rest))).
Proof.
  intros H. destruct H as [_ H].
  { apply every_alert_world1. intros l c [= <-] [= <-].
    vm_compute. discriminate. }
  specialize (H "7" (alert1 1000 (Some 120) (Some 0)) (offer 100) []
                eq_refl eq_refl).
  destruct H as (flight & a' & Hin & _ & Ha & _ & Hlow).
  destruct Hin as [<-|[]].
  vm_compute in Ha. injection Ha as <-.
  vm_compute in Hlow. discriminate Hlow.
Qed.

(** The provider times out on the alert with prices 450 and 430. *)
Lemma failed_search_records_check_only_witness :
  getAlert (store (world1 (alert1 400 (Some 450) (Some 430)))) "a1" None
  = Some ("7", alert1 400 (Some 450) (Some 430))
  /\ search_failed (provider (SearchThrows "timeout")
                      "JFK" "LAX" "2030-01-15" None)
  /\ only_check_recorded
       (checkSingleAlert (provider (SearchThrows "timeout")) "a1"
          (world1 (alert1 400 (Some 450) (Some 430))))
       (world1 (alert1 400 (Some 450) (Some 430))) "7" "a1".
Proof.
  split; [reflexivity | split; [exact I |]].
  apply (failed_search_records_check_only
           (provider (SearchThrows "timeout"))
           (world1 (alert1 400 (Some 450) (Some 430))) "a1" "7"
           (alert1 400 (Some 450) (Some 430)) eq_refl I).
Defined.

End PriceExamples.

(** ** Cancellation *)

Section Cancellation.
Import Database.

Lemma collectionGroup_track_owner db id owner t :
  collectionGroup_track db id = Some (owner, t) ->
  user_track db owner id = Some t.
Proof.
  intros H. apply first_owner_Some in H as (u & Hu & Ht).
  unfold user_track. rewrite Hu. exact Ht.
Qed.

Lemma collectionGroup_alert_owner db id owner a :
  collectionGroup_alert db id = Some (owner, a) ->
  user_alert db owner id = Some a.
Proof.
  intros H. apply first_owner_Some in H as (u & Hu & Ha).
  unfold user_alert. rewrite Hu. exact Ha.
Qed.

(** C7.  A user in whose collection the track (the alert) is not found is
    refused -- [cancelFlightTrack] answers [false], [cancelAlert] throws --
    and the store stays as it was.  For its owner the document is kept,
    its active flag is set to false (a track is also stamped
    [cancelled_at]), and no other document changes. *)
Theorem cancellation_respects_ownership db trackId alertId user now :
  (user_track db user trackId = None ->
   cancelFlightTrack db trackId user now = (false, db))
  /\ (user_alert db user alertId = None ->
      exists message, cancelAlert db alertId user = (Throw message, db))
  /\ (forall t, user_track db user trackId = Some t ->
      exists db',
        cancelFlightTrack db trackId user now = (true, db')
        /\ user_track db' user trackId = Some (with_cancelled now t)
        /\ active (with_cancelled now t) = false
        /\ (forall uid id, ~ (uid = user /\ id = trackId) ->
              user_track db' uid id = user_track db uid id)
        /\ (forall uid, flight_alerts <$> db' !! uid
                        = flight_alerts <$> db !! uid))
  /\ (forall a, user_alert db user alertId = Some a ->
      exists db',
        cancelAlert db alertId user = (Ok tt, db')
        /\ user_alert db' user alertId = Some (with_is_active false a)
        /\ is_active (with_is_active false a) = false
        /\ (forall uid id, ~ (uid = user /\ id = alertId) ->
              user_alert db' uid id = user_alert db uid id)
        /\ (forall uid, flight_tracks <$> db' !! uid
                        = flight_tracks <$> db !! uid)).
Proof.
  repeat apply conj.
  - intros Hnone. unfold cancelFlightTrack. rewrite Hnone.
    destruct (collectionGroup_track db trackId) as [[owner t]|] eqn:E;
      [|reflexivity].
    apply collectionGroup_track_owner in E.
    destruct (String.eqb_spec owner user) as [->|Hne]; [|reflexivity].
    congruence.
  - intros Hnone. unfold cancelAlert. rewrite Hnone.
    destruct (collectionGroup_alert db alertId) as [[owner a]|] eqn:E;
      [|eauto].
    apply collectionGroup_alert_owner in E.
    destruct (String.eqb_spec owner user) as [->|Hne]; [|simpl; eauto].
    congruence.
  - intros t Ht. unfold cancelFlightTrack. rewrite Ht.
    eexists. split; [reflexivity|]. repeat apply conj.
    + rewrite user_track_update_track, decide_True by auto. now rewrite Ht.
    + reflexivity.
    + intros uid id Hne.
      rewrite user_track_update_track, decide_False; [reflexivity|].
      intros [-> ->]. now apply Hne.
    + intros uid. unfold update_track. rewrite lookup_alter.
      destruct (decide (user = uid)) as [->|]; [|reflexivity].
      now destruct (db !! uid).
  - intros a Ha. unfold cancelAlert. rewrite Ha.
    eexists. split; [reflexivity|]. repeat apply conj.
    + rewrite user_alert_update_alert, decide_True by auto. now rewrite Ha.
    + reflexivity.
    + intros uid id Hne.
      rewrite user_alert_update_alert, decide_False; [reflexivity|].
      intros [-> ->]. now apply Hne.
    + intros uid. unfold update_alert. rewrite lookup_alter.
      destruct (decide (user = uid)) as [->|]; [|reflexivity].
      now destruct (db !! uid).
Qed.

(** User 8 asks to cancel the track and the alert of user 7, then user 7
    does. *)
Lemma cancellation_respects_ownership_witness :
  (user_track Examples.db2 "8" "t1" = None
   /\ cancelFlightTrack Examples.db2 "t1" "8" "2024-12-20T09:00:00Z"
      = (false, Examples.db2))
  /\ (user_alert Examples.db2 "8" "a1" = None
      /\ exists message,
           cancelAlert Examples.db2 "a1" "8" = (Throw message, Examples.db2))
  /\ (user_track Examples.db2 "7" "t1" = Some (Examples.track1 NoStatus)
      /\ exists db',
           cancelFlightTrack Examples.db2 "t1" "7" "2024-12-20T09:00:00Z"
           = (true, db')
           /\ (active <$> user_track db' "7" "t1") = Some false).
Proof.
  pose proof (cancellation_respects_ownership Examples.db2 "t1" "a1" "8"
                "2024-12-20T09:00:00Z") as (H1 & H2 & _ & _).
  pose proof (cancellation_respects_ownership Examples.db2 "t1" "a1" "7"
                "2024-12-20T09:00:00Z") as (_ & _ & H3 & _).
  split; [split; [reflexivity | apply H1; reflexivity]|].
  split; [split; [reflexivity | apply H2; reflexivity]|].
  split; [reflexivity|].
  destruct (H3 (Examples.track1 NoStatus) eq_refl) as (db' & Hc & Ht & _).
  exists db'. split; [exact Hc|]. now rewrite Ht.
Defined.

End Cancellation.

(** ** The flight tracker's decision *)

Section TrackerDecision.
Import Json FlightTracker Database.

Variable Date_parse : string -> option Z.

Lemma minutes_over (z : Z) :
  Js.Qlt_bool 10 (Qabs (inject_Z z / 60000))
  = bool_decide (600000 < Z.abs z).
Proof.
  destruct (bool_decide_reflect (600000 < Z.abs z)) as [H|H].
  - apply Qlt_bool_iff. unfold Qlt, Qabs, Qdiv, Qmult, Qinv, inject_Z.
    simpl. lia.
  - apply Qlt_bool_false. unfold Qle, Qabs, Qdiv, Qmult, Qinv, inject_Z.
    simpl. lia.
Qed.

Lemma truthy_text s : s <> "" -> truthy (JStr s) = true.
Proof.
  intros H. simpl. apply negb_true_iff. now apply String.eqb_neq.
Qed.

Lemma timeChanged_parsed s s' d d' :
  s <> "" -> s' <> "" ->
  Date_parse s = Some d -> Date_parse s' = Some d' ->
  timeChangedSignificantly Date_parse (JStr s') (JStr s) 10
  = bool_decide (600000 < Z.abs (d' - d)).
Proof.
  intros Hs Hs' Hd Hd'. unfold timeChangedSignificantly.
  rewrite !truthy_text by assumption. simpl. rewrite Hd, Hd'.
  apply minutes_over.
Qed.

Lemma heartbeat_not_due checked c now :
  checked <> "" -> Date_parse checked = Some c -> now - c < 86400000 ->
  match daysSinceLastCheck Date_parse (JStr checked) now with
  | Some days => Qle_bool 1 days
  | None => false
  end = false.
Proof.
  intros Hne Hc Hlt. unfold daysSinceLastCheck.
  rewrite truthy_text by assumption. simpl. rewrite Hc.
  apply Qle_bool_false. unfold Qlt, Qdiv, Qmult, Qinv, inject_Z.
  simpl. lia.
Qed.

Lemma text_or_null_cases x :
  text_or_null x = JNull \/ exists s, text_or_null x = JStr s.
Proof.
  destruct x as [s|]; simpl; [|auto].
  destruct (String.eqb s ""); eauto.
Qed.

(** C2.  A track whose stored status is an earlier answer of the provider,
    checked less than a day ago, against a new answer that differs from it
    in the scheduled departure and arrival times only: the user is
    notified exactly when one of the two times moved by more than ten
    minutes (600000 ms); a move of ten minutes or less is passed over. *)
Theorem schedule_shift_threshold track carrier number depA arrA
    dep dep' arr arr' terminal gate checked checked' now d d' a a' c :
  last_status track
  = Json (roundtrip (flight_status (designator carrier number)
                       (JStr depA) (JStr arrA) (JStr dep) (JStr arr)
                       (text_or_null terminal) (text_or_null gate)
                       checked)) ->
  dep <> "" -> dep' <> "" -> arr <> "" -> arr' <> "" -> checked <> "" ->
  Date_parse dep = Some d -> Date_parse dep' = Some d' ->
  Date_parse arr = Some a -> Date_parse arr' = Some a' ->
  Date_parse checked = Some c -> now - c < 86400000 ->
  shouldNotifyUser Date_parse track
    (flight_status (designator carrier number) (JStr depA) (JStr arrA)
       (JStr dep') (JStr arr') (text_or_null terminal) (text_or_null gate)
       checked') now
  = Ok (bool_decide (600000 < Z.abs (d' - d) \/ 600000 < Z.abs (a' - a))).
Proof.
  intros Hlast Hdep Hdep' Harr Harr' Hchecked Hd Hd' Ha Ha' Hc Hnow.
  unfold shouldNotifyUser, basis. rewrite Hlast.
  destruct (text_or_null_cases terminal) as [-> | (t & ->)];
    destruct (text_or_null_cases gate) as [-> | (g & ->)]; simpl.
  all: rewrite ?String.eqb_refl, ?Z.eqb_refl; simpl.
  all: rewrite (timeChanged_parsed dep dep' d d'),
         (timeChanged_parsed arr arr' a a'),
         (heartbeat_not_due checked c now) by assumption.
  all: f_equal; simpl.
  all: destruct (bool_decide_reflect (600000 < Z.abs (d' - d)));
       destruct (bool_decide_reflect (600000 < Z.abs (a' - a))); simpl.
  all: symmetry;
       first [ apply bool_decide_eq_true; tauto
             | apply bool_decide_eq_false; tauto ].
Qed.

End TrackerDecision.

(** The example of the specification: stored departure at 10:00, a new
    answer at 10:05 and one at 10:15, last check six hours before. *)
Lemma schedule_shift_threshold_witness :
  FlightTracker.shouldNotifyUser Iso.parse
    (Examples.track1
       (Json (Examples.lh400 "2024-12-25T10:00:00Z" "2024-12-24T12:00:00Z")))
    (Examples.lh400 "2024-12-25T10:05:00Z" "2024-12-24T18:00:00Z")
    1735063200000
  = Ok false
  /\ FlightTracker.shouldNotifyUser Iso.parse
       (Examples.track1
          (Json (Examples.lh400 "2024-12-25T10:00:00Z"
                   "2024-12-24T12:00:00Z")))
       (Examples.lh400 "2024-12-25T10:15:00Z" "2024-12-24T18:00:00Z")
       1735063200000
     = Ok true.
Proof.
  split.
  - apply (schedule_shift_threshold Iso.parse
             (Examples.track1
                (Json (Examples.lh400 "2024-12-25T10:00:00Z"
                         "2024-12-24T12:00:00Z")))
             "LH" 400 "FRA" "JFK"
             "2024-12-25T10:00:00Z" "2024-12-25T10:05:00Z"
             "2024-12-25T18:30:00Z" "2024-12-25T18:30:00Z"
             (Some "1") None "2024-12-24T12:00:00Z" "2024-12-24T18:00:00Z"
             1735063200000
             1735120800000 1735121100000 1735151400000 1735151400000
             1735041600000);
      first [reflexivity | discriminate | lia].
  - apply (schedule_shift_threshold Iso.parse
             (Examples.track1
                (Json (Examples.lh400 "2024-12-25T10:00:00Z"
                         "2024-12-24T12:00:00Z")))
             "LH" 400 "FRA" "JFK"
             "2024-12-25T10:00:00Z" "2024-12-25T10:15:00Z"
             "2024-12-25T18:30:00Z" "2024-12-25T18:30:00Z"
             (Some "1") None "2024-12-24T12:00:00Z" "2024-12-24T18:00:00Z"
             1735063200000
             1735120800000 1735121700000 1735151400000 1735151400000
             1735041600000);
      first [reflexivity | discriminate | lia].
Defined.

(** ** Newly created tracks *)

Section CreatedTracks.
Import Json FlightTracker Database.

(** The track document [createFlightTrack] writes. *)
Lemma createFlightTrack_writes db newId data now stamp :
  (createFlightTrack db newId data now stamp).1 = newId
  /\ exists t,
       user_track (createFlightTrack db newId data now stamp).2
         (userIdStr data) newId = Some t
       /\ track_id t = newId
       /\ last_status t = Json (default_status now)
       /\ active t = true
       /\ is_segment t = isSegment data
       /\ (isSegment data = true ->
           segment_index t = segmentIndex data
           /\ parent_route t = parentRoute data).
Proof.
  split; [reflexivity|].
  unfold createFlightTrack, user_track.
  set (owner := userIdStr data).
  simpl. rewrite !lookup_alter, !decide_True by reflexivity.
  destruct (db !! owner) as [u|] eqn:Eu.
  - rewrite Eu. simpl. rewrite lookup_insert_eq.
    eexists. split; [reflexivity|]. simpl.
    repeat split; try reflexivity;
      match goal with H : isSegment data = true |- _ => now rewrite H end.
  - rewrite lookup_insert_eq. simpl. rewrite lookup_insert_eq.
    eexists. split; [reflexivity|]. simpl.
    repeat split; try reflexivity;
      match goal with H : isSegment data = true |- _ => now rewrite H end.
Qed.

(** A comparison never comes out as the absent-status rule. *)
Lemma compared_not_absent Date_parse lastStatus currentStatus clock :
  (changes ← significantChanges Date_parse lastStatus currentStatus clock;
   Ok (Comparison changes)) <> Ok AbsentStatus.
Proof.
  destruct (significantChanges _ _ _ _); simpl; discriminate.
Qed.

(** C10.  The track [createFlightTrack] writes has a [last_status]: the
    serialised snapshot with status SCHEDULED, null departure and arrival
    times, null terminal and gate, and the creation time as [checked].
    [shouldNotifyUser] on it therefore never takes its no-previous-status
    branch; whatever it answers it answers by comparing the fetched status
    with that snapshot field by field. *)
Theorem created_track_has_default_status db newId data now stamp :
  exists t,
    user_track (createFlightTrack db newId data now stamp).2
      (userIdStr data) newId = Some t
    /\ last_status t = Json (default_status now)
    /\ (member (default_status now) "status" = Ok (JStr "SCHEDULED")
        /\ member (default_status now) "departureTime" = Ok JNull
        /\ member (default_status now) "arrivalTime" = Ok JNull
        /\ member (default_status now) "terminal" = Ok JNull
        /\ member (default_status now) "gate" = Ok JNull
        /\ member (default_status now) "checked" = Ok (JStr now))
    /\ forall Date_parse currentStatus clock,
         basis Date_parse t currentStatus clock
         = (changes ← significantChanges Date_parse (default_status now)
                        currentStatus clock;
            Ok (Comparison changes))
         /\ basis Date_parse t currentStatus clock <> Ok AbsentStatus
         /\ shouldNotifyUser Date_parse t currentStatus clock
            = (changes ← significantChanges Date_parse (default_status now)
                           currentStatus clock;
               Ok (some_true changes)).
Proof.
  destruct (createFlightTrack_writes db newId data now stamp)
    as (_ & t & Ht & _ & Hlast & _).
  exists t. split; [exact Ht|]. split; [exact Hlast|].
  split; [repeat split|].
  intros Date_parse currentStatus clock.
  unfold shouldNotifyUser, basis. rewrite Hlast.
  split; [reflexivity|]. split; [apply compared_not_absent|].
  destruct (significantChanges _ _ _ _); reflexivity.
Qed.

(** The default snapshot names no flight: any fetched status that carries
    a carrier code differs from it, so the first check of a new track
    notifies. *)
Lemma first_check_of_created_track Date_parse t now currentStatus clock
    designator carrier :
  last_status t = Json (default_status now) ->
  member currentStatus "flightDesignator" = Ok designator ->
  member designator "carrierCode" = Ok carrier ->
  carrier <> JUndefined ->
  shouldNotifyUser Date_parse t currentStatus clock = Ok true.
Proof.
  intros Hlast Hd Hc Hdef.
  unfold shouldNotifyUser, basis. rewrite Hlast.
  unfold significantChanges. rewrite Hd. simpl. rewrite Hc. simpl.
  assert (Hn : exists n, member designator "flightNumber" = Ok n).
  { destruct designator; try discriminate; simpl; eauto. }
  destruct Hn as (n & ->). simpl.
  assert (Hm : forall k, exists v, member currentStatus k = Ok v).
  { intros k. destruct currentStatus; try discriminate; simpl; eauto. }
  destruct (Hm "scheduledDepartureTime") as (v1 & ->).
  destruct (Hm "scheduledArrivalTime") as (v2 & ->).
  destruct (Hm "terminal") as (v3 & ->).
  destruct (Hm "gate") as (v4 & ->).
  destruct (Hm "status") as (v5 & ->). simpl.
  f_equal. unfold some_true. simpl.
  replace (strict_eq carrier JUndefined) with false
    by (destruct carrier; try reflexivity; contradiction).
  reflexivity.
Qed.

End CreatedTracks.

(** ** The reentrancy flag of the batch cycle *)

Section Reentrancy.
Import Spec PriceMonitor.

Variable searchFlights :
  string -> string -> string -> option string -> SearchOutcome.
Variable today_of : Z -> string.

Lemma single_flight_call m :
  single_flight m -> single_flight (checkAllAlerts m).
Proof.
  unfold checkAllAlerts. intros [[Hr Hc]|[Hr Hc]]; rewrite Hr.
  - now left.
  - left. simpl. rewrite Hc. eauto.
Qed.

Lemma single_flight_finish m c :
  cycles m = [c] -> single_flight (finish 0 m).
Proof. intros Hc. right. unfold finish. simpl. now rewrite Hc. Qed.

Lemma single_flight_suspend m c c' w :
  isRunning m = true -> cycles m = [c] ->
  single_flight (suspend 0 c' w m).
Proof.
  intros Hr Hc. left. unfold suspend. simpl. rewrite Hc. eauto.
Qed.

Lemma single_flight_next_alert m c alerts w :
  isRunning m = true -> cycles m = [c] ->
  single_flight (next_alert 0 alerts w m).
Proof.
  intros Hr Hc. destruct alerts as [|a rest]; simpl.
  - right. unfold finish. simpl. now rewrite Hc.
  - now apply (single_flight_suspend m c).
Qed.

Lemma single_flight_resume m i c ok :
  single_flight m -> cycles m !! i = Some c ->
  single_flight (resume searchFlights today_of ok i c m).
Proof.
  intros [[Hr (c0 & Hc)]|[Hr Hc]] Hi; rewrite Hc in Hi.
  2: { now rewrite lookup_nil in Hi. }
  destruct i as [|i]; [|now rewrite lookup_cons, lookup_nil in Hi].
  injection Hi as <-.
  destruct c0, ok; simpl;
    eauto using single_flight_finish, single_flight_suspend,
      single_flight_next_alert.
Qed.

Lemma single_flight_step m m' :
  single_flight m -> step searchFlights today_of m m' -> single_flight m'.
Proof.
  intros Hm Hs. destruct Hs.
  - now apply single_flight_call.
  - now apply single_flight_resume.
Qed.

Lemma single_flight_reachable w m :
  rtc (step searchFlights today_of) (initial w) m -> single_flight m.
Proof.
  intros H.
  revert m H. apply (rtc_ind_r (R := step searchFlights today_of)).
  - now right.
  - intros y z _ Hstep IH. eapply single_flight_step; eauto.
Qed.

(** C5.  In every state the process can reach: while a cycle has not
    completed the running flag is set, a call of [checkAllAlerts] then
    returns the state it found (no alert fetched, none checked, nothing
    changed, no second cycle started), and with no cycle in flight the flag
    is clear.  A cycle that fails at an awaited call on the store, or that
    runs out of alerts, leaves through [finally]: it is gone and the flag
    is clear. *)
Theorem checkAllAlerts_single_flight w m :
  rtc (step searchFlights today_of) (initial w) m ->
  (cycles m <> [] -> isRunning m = true /\ checkAllAlerts m = m)
  /\ (cycles m = [] -> isRunning m = false)
  /\ (length (cycles m) <= 1)%nat
  /\ (forall i c, cycles m !! i = Some c ->
        (c = AwaitCleanup \/ c = AwaitActiveAlerts \/ c = AwaitSleep []) ->
        isRunning (resume searchFlights today_of false i c m) = false
        /\ cycles (resume searchFlights today_of false i c m) = []).
Proof.
  intros Hreach. pose proof (single_flight_reachable w m Hreach) as Hm.
  repeat apply conj.
  - intros Hne. destruct Hm as [[Hr _]|[_ Hc]]; [|contradiction].
    split; [exact Hr|]. unfold checkAllAlerts. now rewrite Hr.
  - intros Hc. destruct Hm as [[_ (c & Hc')]|[Hr _]]; [congruence|exact Hr].
  - destruct Hm as [[_ (c & Hc)]|[_ Hc]]; rewrite Hc; simpl; lia.
  - intros i c Hi Hcase.
    destruct Hm as [[Hr (c0 & Hc)]|[Hr Hc]]; rewrite Hc in Hi.
    2: { now rewrite lookup_nil in Hi. }
    destruct i as [|i]; [|now rewrite lookup_cons, lookup_nil in Hi].
    injection Hi as <-.
    destruct Hcase as [-> | [-> | ->]]; simpl; unfold finish; simpl;
      rewrite Hc; auto.
Qed.

End Reentrancy.

(** The scheduler fires on a fresh monitor, then fires again while the
    first cycle waits for the clean-up. *)
Lemma checkAllAlerts_single_flight_witness :
  rtc (PriceMonitor.step
         (Examples.provider (Examples.offers [])) Iso.day_of)
      (PriceMonitor.initial (Examples.world1 (Examples.alert1 400 None None)))
      (PriceMonitor.checkAllAlerts
         (PriceMonitor.initial
            (Examples.world1 (Examples.alert1 400 None None))))
  /\ PriceMonitor.checkAllAlerts
       (PriceMonitor.checkAllAlerts
          (PriceMonitor.initial
             (Examples.world1 (Examples.alert1 400 None None))))
     = PriceMonitor.checkAllAlerts
         (PriceMonitor.initial
            (Examples.world1 (Examples.alert1 400 None None)))
  /\ PriceMonitor.isRunning
       (PriceMonitor.resume
          (Examples.provider (Examples.offers [])) Iso.day_of
          false 0 PriceMonitor.AwaitCleanup
          (PriceMonitor.checkAllAlerts
             (PriceMonitor.initial
                (Examples.world1 (Examples.alert1 400 None None)))))
     = false.
Proof.
  assert (Hreach :
    rtc (PriceMonitor.step
           (Examples.provider (Examples.offers [])) Iso.day_of)
        (PriceMonitor.initial
           (Examples.world1 (Examples.alert1 400 None None)))
        (PriceMonitor.checkAllAlerts
           (PriceMonitor.initial
              (Examples.world1 (Examples.alert1 400 None None))))).
  { apply rtc_once. apply PriceMonitor.step_call. }
  destruct (checkAllAlerts_single_flight _ _ _ _ Hreach)
    as (Hbusy & _ & _ & Hfail).
  split; [exact Hreach|]. split.
  - apply Hbusy. discriminate.
  - apply (Hfail 0%nat PriceMonitor.AwaitCleanup eq_refl). now left.
Defined.

(** ** Tracking a connecting itinerary *)

Section Itinerary.
Import Spec Json FlightTracker Database.
Local Open Scope list_scope.

Variable Date_parse : string -> option Z.
Variable toISOString : Z -> string.
Variable schedule : Z -> string -> string -> string -> ScheduleResponse.
Variable autoId : nat -> string.

Lemma legs_of_lookup db uid id :
  legs_of db uid !! id = leg <$> user_track db uid id.
Proof.
  unfold legs_of, user_track. destruct (db !! uid) as [u|]; simpl.
  - apply lookup_fmap.
  - apply lookup_empty.
Qed.

(** Rewriting a track without touching its leg fields keeps every leg. *)
Lemma legs_of_update_track db owner id f uid :
  (forall t, leg (f t) = leg t) ->
  legs_of (update_track owner id f db) uid = legs_of db uid.
Proof.
  intros Hf. apply map_eq. intros k.
  rewrite !legs_of_lookup, user_track_update_track.
  destruct (decide _); [|reflexivity].
  destruct (user_track db uid k); simpl; [|reflexivity].
  now rewrite Hf.
Qed.

Lemma legs_of_updateFlightTrackStatus db id status now uid :
  legs_of (updateFlightTrackStatus db id status now).2 uid = legs_of db uid.
Proof.
  unfold updateFlightTrackStatus.
  destruct (getFlightTrack db id) as [[owner t]|]; [|reflexivity].
  destruct (String.eqb owner ""); [reflexivity|]. simpl.
  now apply legs_of_update_track.
Qed.

Lemma legs_of_updateFlightTrackCheckTime db id now uid :
  legs_of (updateFlightTrackCheckTime db id now).2 uid = legs_of db uid.
Proof.
  unfold updateFlightTrackCheckTime.
  destruct (getFlightTrack db id) as [[owner t]|]; [|reflexivity].
  destruct (String.eqb owner ""); [reflexivity|]. simpl.
  now apply legs_of_update_track.
Qed.

(** A new track adds its leg under its user and nothing else. *)
Lemma legs_of_createFlightTrack db newId data now stamp uid :
  legs_of (createFlightTrack db newId data now stamp).2 uid
  = if decide (uid = userIdStr data)
    then <[newId := (isSegment data,
                     if isSegment data then segmentIndex data else None,
                     if isSegment data then parentRoute data else None)]>
           (legs_of db uid)
    else legs_of db uid.
Proof.
  unfold createFlightTrack, legs_of. simpl.
  rewrite !lookup_alter.
  destruct (decide (uid = userIdStr data)) as [->|Hne].
  - rewrite !decide_True by reflexivity.
    destruct (db !! userIdStr data) as [u|] eqn:Eu.
    + rewrite Eu. simpl. now rewrite fmap_insert.
    + rewrite lookup_insert_eq. simpl.
      now rewrite fmap_insert, fmap_empty.
  - rewrite !decide_False by congruence.
    destruct (db !! userIdStr data) as [u|] eqn:Eu; [reflexivity|].
    now rewrite lookup_insert_ne by congruence.
Qed.

Lemma marks_app es1 es2 : marks (es1 ++ es2) = marks es1 ++ marks es2.
Proof. apply omap_app. Qed.

(** A status check logs itself, may send one update, and leaves the legs,
    the clock and the id supply alone. *)
Lemma checkSingleFlightStatus_shape trackId w :
  let w' := checkSingleFlightStatus Date_parse toISOString schedule
              trackId w in
  marks (events w') = marks (events w) ++ [Checked trackId]
  /\ drawn w' = drawn w
  /\ clock w' = clock w
  /\ forall uid, legs_of (store w') uid = legs_of (store w) uid.
Proof.
  unfold checkSingleFlightStatus.
  set (w1 := emit (StatusChecked trackId) w).
  assert (H1 : marks (events w1) = marks (events w) ++ [Checked trackId]).
  { unfold w1, emit. simpl. now rewrite marks_app. }
  destruct (getFlightTrack (store w1) trackId) as [[owner track]|];
    [|now repeat split].
  destruct (active track); simpl; [|now repeat split].
  destruct (getFlightStatus _ _ _ _) as [currentStatus|];
    [|now repeat split].
  destruct (truthy currentStatus); simpl; [|now repeat split].
  destruct (shouldNotifyUser _ _ _ _) as [[|]|]; [| |now repeat split].
  - assert (H2 : marks (events (sendStatusUpdate owner track
                                  currentStatus w1))
                 = marks (events w1)
               /\ drawn (sendStatusUpdate owner track currentStatus w1)
                  = drawn w
               /\ clock (sendStatusUpdate owner track currentStatus w1)
                  = clock w
               /\ store (sendStatusUpdate owner track currentStatus w1)
                  = store w).
    { unfold sendStatusUpdate.
      destruct (String.eqb owner ""); [now repeat split|].
      destruct (_ ← _; _); [|now repeat split].
      unfold emit. simpl. rewrite marks_app. simpl.
      now rewrite app_nil_r. }
    destruct H2 as (Hm & Hd & Hc & Hs).
    repeat split; simpl; try congruence.
    intros uid. rewrite legs_of_updateFlightTrackStatus. now rewrite Hs.
  - repeat split; simpl; auto.
    intros uid. now rewrite legs_of_updateFlightTrackCheckTime.
Qed.

Lemma userIdStr_same u c n d o e s i r :
  userIdStr (mkTrackData u u c n d o e s i r) = u.
Proof.
  unfold userIdStr. simpl. now destruct (String.eqb_spec u "") as [->|].
Qed.

Lemma ids_from_cons d n :
  ids_from autoId d (S n) = autoId d :: ids_from autoId (S d) n.
Proof. reflexivity. Qed.

(** The loop over the segments, from any index on. *)
Lemma track_segments_spec userId flightData n remaining :
  forall i w,
    (forall k seg, remaining !! k = Some seg -> (i + k <> 0)%nat ->
                   is_Some (Date_parse (at_ (departure seg)))) ->
    NoDup (ids_from autoId (drawn w) (length remaining)) ->
    exists w',
      track_segments Date_parse toISOString schedule autoId
        userId flightData n i remaining w
      = (Ok (ids_from autoId (drawn w) (length remaining)), w')
      /\ marks (events w')
         = marks (events w)
           ++ in_sequence
                (interpolate (fd_origin flightData) ++ "-"
                 ++ interpolate (fd_destination flightData))%string
                i (ids_from autoId (drawn w) (length remaining))
      /\ (forall k id,
            ids_from autoId (drawn w) (length remaining) !! k = Some id ->
            legs_of (store w') userId !! id
            = Some (true, Some (i + k)%nat,
                    Some (interpolate (fd_origin flightData) ++ "-"
                          ++ interpolate (fd_destination flightData))%string))
      /\ (forall uid id,
            ~ (uid = userId
               /\ id ∈ ids_from autoId (drawn w) (length remaining)) ->
            legs_of (store w') uid !! id = legs_of (store w) uid !! id).
Proof.
  induction remaining as [|segment rest IH]; intros i w Hdates Hnodup.
  - exists w. simpl. repeat split; auto.
    + now rewrite app_nil_r.
    + intros k id Hk. cbn in Hk. discriminate Hk.
  - assert (Hday : exists day,
              (if (i =? 0)%nat then Ok (fd_date flightData)
               else departure_day Date_parse toISOString segment) = Ok day).
    { destruct i as [|i]; simpl; [eauto|].
      destruct (Hdates 0%nat segment eq_refl) as [ms Hms]; [lia|].
      unfold departure_day. rewrite Hms. eauto. }
    destruct Hday as (day & Hday).
    cbn [track_segments]. rewrite Hday.
    unfold db_createFlightTrack.
    set (route := (interpolate (fd_origin flightData) ++ "-"
                   ++ interpolate (fd_destination flightData))%string).
    set (data := mkTrackData userId userId (seg_carrierCode segment)
                   (seg_flightNumber segment) day
                   (Some (iataCode (departure segment)))
                   (Some (iataCode (arrival segment)))
                   true (Some i) (Some route)).
    destruct (createFlightTrack (store w) (autoId (drawn w)) data
                (toISOString (clock w)) (clock w)) as [trackId db1] eqn:Ec.
    assert (HtrackId : trackId = autoId (drawn w)).
    { change trackId with (trackId, db1).1. now rewrite <- Ec. }
    assert (Hdb1 : db1 = (createFlightTrack (store w) (autoId (drawn w))
                            data (toISOString (clock w)) (clock w)).2)
      by now rewrite Ec.
    subst trackId.
    set (w1 := emit (TrackCreated (autoId (drawn w)) data)
                 (mkWorld db1 (events w) (clock w) (S (drawn w)))).
    destruct (checkSingleFlightStatus_shape (autoId (drawn w)) w1)
      as (Hm2 & Hd2 & _ & Hl2).
    set (w2 := checkSingleFlightStatus Date_parse toISOString
                 schedule (autoId (drawn w)) w1) in *.
    set (w3 := if (i <? n - 1)%nat then sleep 1500 w2 else w2).
    assert (Hw3 : events w3 = events w2 /\ drawn w3 = drawn w2
                  /\ store w3 = store w2).
    { unfold w3. now destruct (i <? n - 1)%nat. }
    destruct Hw3 as (He3 & Hd3 & Hs3).
    assert (Hdrawn : drawn w3 = S (drawn w)) by (rewrite Hd3, Hd2; reflexivity).
    simpl length in Hnodup. rewrite ids_from_cons in Hnodup.
    apply NoDup_cons in Hnodup as [Hfresh Hnodup'].
    destruct (IH (S i) w3) as (w' & Hrun & Hmarks & Hlegs & Hframe).
    { intros k seg Hk _. apply (Hdates (S k) seg Hk). lia. }
    { now rewrite Hdrawn. }
    rewrite Hdrawn in *.
    exists w'. rewrite Hrun. simpl length. rewrite ids_from_cons.
    assert (Hinsert : forall uid,
              legs_of (store w3) uid
              = if decide (uid = userId)
                then <[autoId (drawn w) := (true, Some i, Some route)]>
                       (legs_of (store w) uid)
                else legs_of (store w) uid).
    { intros uid. rewrite Hs3, Hl2. unfold w1. simpl. rewrite Hdb1.
      rewrite legs_of_createFlightTrack.
      assert (Hu : userIdStr data = userId) by apply userIdStr_same.
      now rewrite Hu. }
    repeat split.
    + rewrite Hmarks, He3, Hm2. unfold w1, emit. simpl.
      rewrite marks_app. simpl. now rewrite <- !app_assoc.
    + intros k id Hk. destruct k as [|k]; simpl in Hk.
      * injection Hk as <-.
        rewrite Hframe by (intros [_ Hin]; contradiction).
        rewrite Hinsert, decide_True by reflexivity.
        rewrite lookup_insert_eq. now rewrite Nat.add_0_r.
      * rewrite (Hlegs k id Hk).
        now replace (i + S k)%nat with (S i + k)%nat by lia.
    + intros uid id Hout. rewrite Hframe.
      * rewrite Hinsert. destruct (decide (uid = userId)) as [->|];
          [|reflexivity].
        apply lookup_insert_ne. intros <-. apply Hout.
        split; [reflexivity | apply list_elem_of_here].
      * intros [-> Hin]. apply Hout.
        split; [reflexivity | now apply list_elem_of_further].
Qed.

(** C8.  An itinerary of [n >= 2] segments whose later legs carry a
    readable departure time, with [n] fresh ids to draw: the call creates
    one track per segment in ascending index order and checks the status
    of each before it creates the next; the [n] tracks carry the indices
    [0 .. n-1] and the one route key [origin-destination]; the user's
    collection grows by exactly these [n] documents and nobody else's
    changes. *)
Theorem connecting_itinerary_tracks chatId userId flightData segs w :
  segments flightData = Some segs ->
  (2 <= length segs)%nat ->
  Forall (fun seg => is_Some (Date_parse (at_ (departure seg)))) (tail segs) ->
  NoDup (ids_from autoId (drawn w) (length segs)) ->
  (forall id, id ∈ ids_from autoId (drawn w) (length segs) ->
              id ∉ track_ids (store w) userId) ->
  exists w',
    FlightTracker.createFlightTrack Date_parse toISOString schedule
      autoId chatId userId flightData w
    = (Ok (head (ids_from autoId (drawn w) (length segs))), w')
    /\ marks (events w')
       = marks (events w)
         ++ in_sequence
              (interpolate (fd_origin flightData) ++ "-"
               ++ interpolate (fd_destination flightData))%string
              0 (ids_from autoId (drawn w) (length segs))
    /\ (forall i id,
          ids_from autoId (drawn w) (length segs) !! i = Some id ->
          exists t,
            user_track (store w') userId id = Some t
            /\ is_segment t = true
            /\ segment_index t = Some i
            /\ parent_route t
               = Some (interpolate (fd_origin flightData) ++ "-"
                       ++ interpolate (fd_destination flightData))%string)
    /\ track_ids (store w') userId
       = track_ids (store w) userId
         ∪ list_to_set (ids_from autoId (drawn w) (length segs))
    /\ size (track_ids (store w') userId)
       = (size (track_ids (store w) userId) + length segs)%nat
    /\ (forall uid, uid <> userId ->
          track_ids (store w') uid = track_ids (store w) uid).
Proof.
  intros Hsegs Hlen Hdates Hnodup Hfresh.
  unfold FlightTracker.createFlightTrack. rewrite Hsegs.
  destruct segs as [|s0 [|s1 more]]; simpl in Hlen; try lia.
  set (segs := s0 :: s1 :: more) in *.
  set (w1 := emit (MessageSent chatId "multi-segment journey") w).
  destruct (track_segments_spec userId flightData (length segs) segs 0%nat w1)
    as (w' & Hrun & Hmarks & Hlegs & Hframe).
  { intros k seg Hk Hpos. destruct k as [|k]; [lia|].
    rewrite Forall_forall in Hdates. apply Hdates.
    apply (list_elem_of_lookup_2 _ k). exact Hk. }
  { exact Hnodup. }
  change (drawn w1) with (drawn w) in *.
  change (store w1) with (store w) in *.
  set (ids := ids_from autoId (drawn w) (length segs)) in *.
  exists w'. rewrite Hrun.
  assert (Hdom : forall uid,
            track_ids (store w') uid
            = track_ids (store w) uid
              ∪ (if decide (uid = userId) then list_to_set ids else ∅)).
  { intros uid. unfold track_ids. apply set_eq. intros id.
    rewrite elem_of_union, !elem_of_dom.
    destruct (decide (uid = userId /\ id ∈ ids)) as [[-> Hin]|Hout].
    - rewrite decide_True by reflexivity.
      apply list_elem_of_lookup in Hin as (k & Hk).
      rewrite (Hlegs k id Hk). rewrite elem_of_list_to_set.
      split; [right; eapply list_elem_of_lookup_2; eauto | eauto].
    - rewrite (Hframe uid id Hout).
      destruct (decide (uid = userId)) as [->|].
      + rewrite elem_of_list_to_set. tauto.
      + rewrite elem_of_empty. tauto. }
  repeat apply conj.
  - reflexivity.
  - rewrite Hmarks. unfold w1, emit. simpl. rewrite marks_app. simpl.
    now rewrite app_nil_r.
  - intros i id Hi. specialize (Hlegs i id Hi).
    rewrite legs_of_lookup in Hlegs.
    destruct (user_track (store w') userId id) as [t|]; [|discriminate].
    exists t. simpl in Hlegs. injection Hlegs as H1 H2 H3. auto.
  - rewrite Hdom. now rewrite decide_True.
  - rewrite Hdom, decide_True by reflexivity.
    rewrite size_union.
    + rewrite size_list_to_set by exact Hnodup.
      unfold ids, ids_from. now rewrite length_map, length_seq.
    + intros id Hin1 Hin2. apply elem_of_list_to_set in Hin2.
      now apply (Hfresh id).
  - intros uid Hne. rewrite Hdom, decide_False by exact Hne.
    apply union_empty_r_L.
Qed.

End Itinerary.

(** Frankfurt to Los Angeles in three legs, tracked by user 7. *)
Lemma connecting_itinerary_tracks_witness :
  exists w',
    FlightTracker.createFlightTrack Iso.parse Iso.toISOString
      Examples.always_on_time Examples.numbered "chat-7" "7"
      Examples.three_legs (mkWorld Examples.db2 [] 1735063200000 0)
    = (Ok (Some "doc-0"), w')
    /\ Spec.marks (events w')
       = [ Spec.Created "doc-0" (Some 0%nat) (Some "FRA-LAX");
           Spec.Checked "doc-0";
           Spec.Created "doc-1" (Some 1%nat) (Some "FRA-LAX");
           Spec.Checked "doc-1";
           Spec.Created "doc-2" (Some 2%nat) (Some "FRA-LAX");
           Spec.Checked "doc-2" ]
    /\ size (Spec.track_ids (store w') "7") = 4%nat.
Proof.
  destruct (connecting_itinerary_tracks Iso.parse Iso.toISOString
              Examples.always_on_time Examples.numbered "chat-7" "7"
              Examples.three_legs
              [ mkSegment "LH" "400"
                  (mkEndpoint "FRA" "2024-12-25T10:00:00Z")
                  (mkEndpoint "JFK" "2024-12-25T18:30:00Z");
                mkSegment "UA" "515"
                  (mkEndpoint "JFK" "2024-12-25T20:00:00Z")
                  (mkEndpoint "ORD" "2024-12-25T22:30:00Z");
                mkSegment "UA" "1212"
                  (mkEndpoint "ORD" "2024-12-26T01:00:00Z")
                  (mkEndpoint "LAX" "2024-12-26T05:30:00Z") ]
              (mkWorld Examples.db2 [] 1735063200000 0))
    as (w' & Hrun & Hmarks & _ & _ & Hsize & _).
  - reflexivity.
  - simpl. lia.
  - repeat constructor; eexists; reflexivity.
  - vm_compute. repeat constructor; rewrite ?list_elem_of_In; simpl;
      intuition discriminate.
  - intros id Hin. vm_compute in Hin.
    unfold Spec.track_ids. rewrite elem_of_dom, legs_of_lookup.
    apply list_elem_of_In in Hin. simpl in Hin.
    destruct Hin as [<-|[<-|[<-|[]]]]; vm_compute; intros [x Hx];
      discriminate Hx.
  - exists w'. split; [exact Hrun|]. split; [exact Hmarks|].
    rewrite Hsize. reflexivity.
Defined.

(** ** Airline names *)

Section AirlineNames.
Import Spec Airline.

Lemma prefix_spec p s :
  String.prefix p s = true <-> exists rest, s = p ++ rest.
Proof.
  revert p. induction s as [|b s IH]; intros [|a p]; simpl.
  - split; [intros _; now exists "" | reflexivity].
  - split; [discriminate | intros (rest & H); discriminate H].
  - split; [intros _; now exists (String b s) | reflexivity].
  - destruct (ascii_dec a b) as [->|Hne].
    + rewrite IH. split; intros (rest & H); exists rest.
      * now rewrite H.
      * now injection H.
    + split; [discriminate|]. intros (rest & H). injection H as H _.
      congruence.
Qed.

(** [includes] decides containment. *)
Lemma includes_spec s part :
  includes s part = true <-> contained_in part s.
Proof.
  unfold contained_in. split.
  - induction s as [|c s IH]; cbn [includes]; rewrite orb_true_iff.
    + intros [H|H]; [|discriminate].
      apply prefix_spec in H as (rest & ->). now exists "", rest.
    + intros [H|H].
      * apply prefix_spec in H as (rest & ->). now exists "", rest.
      * destruct (IH H) as (before & after & ->).
        now exists (String c before), after.
  - intros (before & after & ->).
    induction before as [|c before IH].
    + assert (H : String.prefix part (part ++ after) = true)
        by (apply prefix_spec; eauto).
      change ("" ++ part ++ after) with (part ++ after).
      destruct (part ++ after); cbn [includes]; now rewrite H.
    + change (String c before ++ part ++ after)
        with (String c (before ++ part ++ after)).
      cbn [includes]. rewrite IH. apply orb_true_r.
Qed.

Lemma includes_false s part :
  includes s part = false <-> ~ contained_in part s.
Proof.
  rewrite <- includes_spec. destruct (includes s part); intuition congruence.
Qed.

Lemma own_In table key code :
  own table key = Some code -> In (key, code) table.
Proof.
  induction table as [|[name c] rest IH]; simpl; [discriminate|].
  destruct (String.eqb_spec name key) as [->|Hne].
  - intros [= ->]. now left.
  - intros H. right. now apply IH.
Qed.




Lemma two_alphanumerics_length n :
  two_alphanumerics n = true -> String.length n = 2%nat.
Proof.
  destruct n as [|a [|b [|c n]]]; simpl; try discriminate. reflexivity.
Qed.


Lemma In_own table key code :
  NoDup (map fst table) -> In (key, code) table ->
  own table key = Some code.
Proof.
  induction table as [|[name c] rest IH]; simpl; [tauto|].
  intros Hnd [[= -> ->]|Hin].
  - now rewrite String.eqb_refl.
  - apply NoDup_cons in Hnd as [Hfresh Hnd].
    destruct (String.eqb_spec name key) as [->|Hne]; [|now apply IH].
    exfalso. apply Hfresh. apply list_elem_of_In.
    change key with (fst (key, code)). now apply in_map.
Qed.

Lemma own_absent table key :
  (forall c, ~ In (key, c) table) -> own table key = None.
Proof.
  intros H. destruct (own table key) as [c|] eqn:E; [|reflexivity].
  apply own_In in E. now apply H in E.
Qed.

Lemma partial_match_first earlier name code later n :
  (2 < String.length n)%nat ->
  contained_in n name ->
  (forall entry, In entry earlier -> ~ contained_in n entry.1) ->
  partial_match (earlier ++ (name, code) :: later)%list n = Some code.
Proof.
  intros Hlen Hc He. apply Nat.ltb_lt in Hlen.
  induction earlier as [|[nm c] earlier IH]; simpl.
  - apply includes_spec in Hc. now rewrite Hc, Hlen.
  - assert (Hnm : includes nm n = false).
    { apply includes_false. apply (He (nm, c)). now left. }
    rewrite Hnm. simpl. apply IH. intros entry Hin. apply He. now right.
Qed.

Lemma partial_match_nowhere table n :
  ((String.length n <= 2)%nat
   \/ forall entry, In entry table -> ~ contained_in n entry.1) ->
  partial_match table n = None.
Proof.
  intros H. induction table as [|[nm c] rest IH]; simpl; [reflexivity|].
  destruct H as [Hlen|Hnone].
  - pose proof Hlen as Hl. apply Nat.ltb_ge in Hl.
    rewrite Hl, andb_false_r. apply IH. now left.
  - assert (Hnm : includes nm n = false).
    { apply includes_false. apply (Hnone (nm, c)). now left. }
    rewrite Hnm. simpl. apply IH. right. intros entry Hin.
    apply Hnone. now right.
Qed.

Lemma commonAirlines_names_differ : NoDup (map fst commonAirlines).
Proof.
  simpl. repeat (apply NoDup_cons; split;
                 [rewrite list_elem_of_In; simpl; intuition discriminate|]).
  apply NoDup_nil_2.
Qed.

(** The rules leave one answer only: the relation is the function. *)
Lemma resolves_sound airlineName r :
  resolves airlineName r -> r = findAirlineCode airlineName.
Proof.
  intros H. unfold findAirlineCode.
  destruct H as [n -> Htwo | n code -> Htwo Hin | n -> Hinh
                | n earlier name code later -> Htwo Hnot Hninh Hlen
                    Htable Hc He
                | n -> Htwo Hnot Hninh Hnone].
  - rewrite Htwo, (two_alphanumerics_length _ Htwo). reflexivity.
  - rewrite Htwo, andb_false_r. unfold property.
    now rewrite (In_own _ _ _ commonAirlines_names_differ Hin).
  - destruct Hinh as [<-|[<-|[]]]; reflexivity.
  - rewrite Htwo, andb_false_r. unfold property.
    rewrite (own_absent _ _ Hnot).
    replace (existsb _ inherited) with false.
    + rewrite Htable. now rewrite (partial_match_first _ _ _ _ _ Hlen Hc He).
    + symmetry. apply not_true_is_false. intros Hex.
      apply existsb_exists in Hex as (x & Hx & Heq).
      apply String.eqb_eq in Heq. now subst x.
  - rewrite Htwo, andb_false_r. unfold property.
    rewrite (own_absent _ _ Hnot).
    replace (existsb _ inherited) with false.
    + now rewrite (partial_match_nowhere _ _ Hnone).
    + symmetry. apply not_true_is_false. intros Hex.
      apply existsb_exists in Hex as (x & Hx & Heq).
      apply String.eqb_eq in Heq. now subst x.
Qed.


End AirlineNames.

(** ** Arrays: sorting and slicing *)

Section ArrayFacts.
Import JsArray.
Local Open Scope list_scope.
Context {A : Type}.
Variable before : A -> A -> bool.

Lemma insert_sorted_Permutation x l : insert_sorted before x l ≡ₚ x :: l.
Proof.
  induction l as [|y l IH]; simpl; [reflexivity|].
  destruct (before x y); [reflexivity|].
  rewrite IH. apply Permutation_swap.
Qed.

Lemma sort_Permutation l : sort before l ≡ₚ l.
Proof.
  induction l as [|x l IH]; simpl; [reflexivity|].
  now rewrite insert_sorted_Permutation, IH.
Qed.

Lemma elem_of_sort x l : x ∈ sort before l <-> x ∈ l.
Proof. now rewrite sort_Permutation. Qed.

Hypothesis before_total : forall a b, before a b = true \/ before b a = true.
Hypothesis before_trans :
  forall a b c, before a b = true -> before b c = true -> before a c = true.

Lemma insert_sorted_StronglySorted x l :
  StronglySorted (fun a b => before a b = true) l ->
  StronglySorted (fun a b => before a b = true) (insert_sorted before x l).
Proof.
  induction 1 as [|y l Hl IH Hy]; simpl.
  - repeat constructor.
  - destruct (before x y) eqn:E.
    + constructor; [now constructor|].
      constructor; [exact E|].
      eapply Forall_impl; [exact Hy|]. simpl. eauto.
    + constructor; [exact IH|].
      rewrite insert_sorted_Permutation. constructor; [|exact Hy].
      destruct (before_total x y); congruence.
Qed.

Lemma sort_StronglySorted l :
  StronglySorted (fun a b => before a b = true) (sort before l).
Proof.
  induction l as [|x l IH]; simpl; [constructor|].
  now apply insert_sorted_StronglySorted.
Qed.

End ArrayFacts.

Section ArrayFacts2.
Import JsArray.
Local Open Scope list_scope.
Context {A : Type}.
Variable before : A -> A -> bool.

(** An element that comes strictly before all others ends up in front,
    wherever it stood. *)
Lemma sort_snoc_first e l :
  (forall y, y ∈ l -> before y e = false) ->
  sort before (l ++ [e]) = e :: sort before l.
Proof.
  induction l as [|x l IH]; intros H; simpl; [reflexivity|].
  rewrite IH by (intros y Hy; apply H; now right).
  simpl. rewrite (H x) by now left. reflexivity.
Qed.

Lemma StronglySorted_weaken (R S : A -> A -> Prop) (l : list A) :
  (forall a b, R a b -> S a b) -> StronglySorted R l -> StronglySorted S l.
Proof.
  intros HRS. induction 1 as [|x l Hl IH Hx]; constructor; [exact IH|].
  eapply Forall_impl; [exact Hx | exact (HRS x)].
Qed.

Lemma slice0_take (limit : Z) (l : list A) :
  exists n, slice0 limit l = take n l
            /\ ((0 <= limit)%Z -> n = Z.to_nat limit).
Proof.
  unfold slice0. destruct (limit <? 0)%Z eqn:E.
  - eexists. split; [reflexivity|]. lia.
  - eexists. split; [reflexivity|]. reflexivity.
Qed.

Lemma slice0_cons (limit : Z) x (l : list A) :
  (0 < limit)%Z -> slice0 limit (x :: l) = x :: slice0 (limit - 1) l.
Proof.
  intros H. unfold slice0.
  destruct (limit <? 0)%Z eqn:E; [lia|].
  destruct (limit - 1 <? 0)%Z eqn:E'; [lia|].
  replace (Z.to_nat limit) with (S (Z.to_nat (limit - 1))) by lia.
  reflexivity.
Qed.

End ArrayFacts2.

(** ** Strings *)

Lemma append_nil_r (s : string) : s ++ "" = s.
Proof.
  induction s as [|c s IH]; [reflexivity|].
  change (String c (s ++ "") = String c s). now f_equal.
Qed.

Lemma append_assoc (a b c : string) : (a ++ b) ++ c = a ++ (b ++ c).
Proof.
  induction a as [|x a IH]; [reflexivity|].
  change (String x ((a ++ b) ++ c) = String x (a ++ b ++ c)). now f_equal.
Qed.

(** ** The store: creation, clean-up and reports *)

Section StoreReports.
Import Database.
Local Open Scope list_scope.

(** The only holder of a document is the owner every query finds. *)
Lemma first_owner_unique {A} (sub : UserDoc -> gmap string A) (db : Store)
    id uid u a :
  db !! uid = Some u -> sub u !! id = Some a ->
  (forall uid' u', uid' <> uid -> db !! uid' = Some u' ->
                   sub u' !! id = None) ->
  first_owner sub db id = Some (uid, a).
Proof.
  intros Hu Ha Hothers.
  destruct (first_owner sub db id) as [[o a']|] eqn:E.
  - apply first_owner_Some in E as (u0 & Hu0 & Ha0).
    destruct (decide (o = uid)) as [->|Hne].
    + congruence.
    + rewrite (Hothers _ _ Hne Hu0) in Ha0. discriminate.
  - apply first_owner_None with (uid := uid) (u := u) in E; congruence.
Qed.

Lemma user_alert_createAlert db newId data stamp uid id :
  user_alert (createAlert db newId data stamp).2 uid id
  = if decide (uid = ad_userId data /\ id = newId)
    then Some (mkAlert newId (ad_origin data) (ad_destination data)
                 (ad_departure_date data) (ad_return_date data)
                 (ad_min_price data)
                 (price_or_null (ad_current_price data))
                 None true None (or_null (ad_bookingUrl data)))
    else user_alert db uid id.
Proof.
  unfold createAlert, user_alert. simpl.
  rewrite !lookup_alter.
  destruct (decide (uid = ad_userId data)) as [->|Hne].
  - rewrite !decide_True by reflexivity.
    destruct (db !! ad_userId data) as [u|] eqn:Eu.
    + rewrite Eu. simpl.
      destruct (decide (id = newId)) as [->|Hi].
      * rewrite decide_True by auto. apply lookup_insert_eq.
      * rewrite decide_False by tauto. now apply lookup_insert_ne.
    + rewrite lookup_insert_eq. simpl.
      destruct (decide (id = newId)) as [->|Hi].
      * rewrite decide_True by auto. apply lookup_insert_eq.
      * rewrite decide_False by tauto.
        rewrite lookup_insert_ne by congruence. apply lookup_empty.
  - rewrite !decide_False by congruence.
    rewrite decide_False by tauto.
    destruct (db !! ad_userId data) as [u|] eqn:Eu; [reflexivity|].
    now rewrite lookup_insert_ne by congruence.
Qed.

(** The new alert is found under its id, with its creator as owner. *)
Lemma getAlert_createAlert db newId data stamp :
  (forall uid, user_alert db uid newId = None) ->
  getAlert (createAlert db newId data stamp).2 newId None
  = Some (ad_userId data,
          mkAlert newId (ad_origin data) (ad_destination data)
            (ad_departure_date data) (ad_return_date data)
            (ad_min_price data)
            (price_or_null (ad_current_price data))
            None true None (or_null (ad_bookingUrl data))).
Proof.
  intros Hfresh. set (db' := (createAlert db newId data stamp).2).
  assert (Hnew : user_alert db' (ad_userId data) newId
                 = Some (mkAlert newId (ad_origin data)
                           (ad_destination data) (ad_departure_date data)
                           (ad_return_date data) (ad_min_price data)
                           (price_or_null (ad_current_price data))
                           None true None (or_null (ad_bookingUrl data)))).
  { unfold db'. rewrite user_alert_createAlert.
    now rewrite decide_True by auto. }
  unfold user_alert in Hnew.
  destruct (db' !! ad_userId data) as [u|] eqn:Eu; [|discriminate].
  simpl in Hnew. unfold getAlert.
  rewrite (first_owner_unique flight_alerts db' newId _ _ _ Eu Hnew).
  - reflexivity.
  - intros uid' u' Hne Hu'.
    assert (H := user_alert_createAlert db newId data stamp uid' newId).
    fold db' in H. rewrite decide_False in H by tauto.
    rewrite Hfresh in H. unfold user_alert in H.
    now rewrite Hu' in H.
Qed.

(** X1.  An alert created under an id no document carries yet is what
    [getAlert] answers for that id, with the creating user as owner: it is
    active, holds the given route, dates and target, has the given current
    price unless that is missing or zero, and has neither a lowest price
    nor a check time.  Every other alert, every track and every price
    history is as before. *)
Theorem createAlert_then_getAlert db newId data stamp :
  (forall uid, user_alert db uid newId = None) ->
  let db' := (createAlert db newId data stamp).2 in
  (createAlert db newId data stamp).1 = newId
  /\ getAlert db' newId None
     = Some (ad_userId data,
             mkAlert newId (ad_origin data) (ad_destination data)
               (ad_departure_date data) (ad_return_date data)
               (ad_min_price data)
               (if Js.truthy_price (ad_current_price data)
                then ad_current_price data else None)
               None true None (or_null (ad_bookingUrl data)))
  /\ (forall uid id, id <> newId ->
        user_alert db' uid id = user_alert db uid id)
  /\ (forall uid id, user_track db' uid id = user_track db uid id)
  /\ (forall uid u, db !! uid = Some u ->
        price_history <$> db' !! uid = Some (price_history u)).
Proof.
  intros Hfresh db'. repeat apply conj.
  - reflexivity.
  - exact (getAlert_createAlert db newId data stamp Hfresh).
  - intros uid id Hne. unfold db'. rewrite user_alert_createAlert.
    now rewrite decide_False by tauto.
  - intros uid id. unfold db', createAlert, user_track. simpl.
    rewrite !lookup_alter.
    destruct (decide (uid = ad_userId data)) as [->|Hne].
    + rewrite !decide_True by reflexivity.
      destruct (db !! ad_userId data) as [u|] eqn:Eu.
      * now rewrite Eu.
      * rewrite lookup_insert_eq. simpl. now rewrite lookup_empty.
    + rewrite !decide_False by congruence.
      destruct (db !! ad_userId data) as [u|] eqn:Eu; [reflexivity|].
      now rewrite lookup_insert_ne by congruence.
  - intros uid u Hu. unfold db', createAlert. simpl.
    rewrite !lookup_alter.
    destruct (decide (uid = ad_userId data)) as [->|Hne].
    + rewrite !decide_True by reflexivity. now rewrite Hu, Hu.
    + rewrite !decide_False by congruence.
      destruct (db !! ad_userId data) as [u0|] eqn:Eu.
      * now rewrite Hu.
      * rewrite lookup_insert_ne by congruence. now rewrite Hu.
Qed.

End StoreReports.

(** ** Cleaning up expired alerts *)

Section Cleanup.
Import Database.
Local Open Scope list_scope.

(** The alerts a collection-group query lists are the documents of the
    users' sub-collections, each under its document id. *)
Lemma elem_of_all_alerts db uid a :
  (uid, a) ∈ all_alerts db
  <-> exists id a0, user_alert db uid id = Some a0 /\ a = with_alert_id id a0.
Proof.
  unfold all_alerts. rewrite list_elem_of_In, in_flat_map. split.
  - intros ([k u] & Hin & Ha). simpl in Ha.
    apply list_elem_of_In, elem_of_map_to_list in Hin.
    apply in_map_iff in Ha as ([id a0] & Heq & Hin').
    apply list_elem_of_In, elem_of_map_to_list in Hin'.
    simpl in Heq. injection Heq as <- <-.
    exists id, a0. split; [|reflexivity].
    unfold user_alert. now rewrite Hin.
  - intros (id & a0 & Hget & ->). unfold user_alert in Hget.
    destruct (db !! uid) as [u|] eqn:Eu; [|discriminate]. simpl in Hget.
    exists (uid, u). split.
    + now apply list_elem_of_In, elem_of_map_to_list.
    + simpl. apply in_map_iff. exists (id, a0). split; [reflexivity|].
      now apply list_elem_of_In, elem_of_map_to_list.
Qed.

Lemma user_alert_cleanupOldAlerts db today uid id :
  user_alert (cleanupOldAlerts db today).2 uid id
  = (fun a => if (is_active a && String.ltb (departure_date a) today) then with_is_active false a else a)
    <$> user_alert db uid id.
Proof.
  unfold cleanupOldAlerts, user_alert. simpl.
  rewrite lookup_fmap. destruct (db !! uid) as [u|]; simpl; [|reflexivity].
  now rewrite lookup_fmap.
Qed.

(** X2.  [cleanupOldAlerts] switches off exactly the active alerts whose
    departure date is before today and counts them: afterwards no active
    alert has a departure date before today, an alert that was not due
    is unchanged, one that was due changed in its active flag only, tracks
    and price histories are untouched, and a second run on the same day
    finds nothing to do. *)
Theorem cleanupOldAlerts_switches_off_the_expired db today :
  let count := (cleanupOldAlerts db today).1 in
  let db' := (cleanupOldAlerts db today).2 in
  (forall uid id a', user_alert db' uid id = Some a' ->
     is_active a' = true -> String.ltb (departure_date a') today = false)
  /\ (forall uid id a, user_alert db uid id = Some a ->
        user_alert db' uid id
        = Some (if is_active a && String.ltb (departure_date a) today
                then with_is_active false a else a))
  /\ (forall uid id, user_alert db uid id = None ->
        user_alert db' uid id = None)
  /\ count = length (filter (fun p : string * PriceAlert =>
                               is_active p.2 = true
                               /\ String.ltb (departure_date p.2) today
                                  = true)
                            (all_alerts db))
  /\ (forall uid id, user_track db' uid id = user_track db uid id)
  /\ (forall uid, price_history <$> db' !! uid
                  = price_history <$> db !! uid)
  /\ cleanupOldAlerts db' today = (0%nat, db').
Proof.
  intros count db'.
  assert (Hclean : forall uid id a', user_alert db' uid id = Some a' ->
            (is_active a' && String.ltb (departure_date a') today) = false).
  { intros uid id a' H. unfold db' in H.
    rewrite user_alert_cleanupOldAlerts in H.
    destruct (user_alert db uid id) as [a|]; [|discriminate].
    simpl in H. injection H as <-.
    destruct (is_active a && String.ltb (departure_date a) today) eqn:E;
      [reflexivity | exact E]. }
  repeat apply conj.
  - intros uid id a' H Hact. apply Hclean in H. cbv beta in H.
    now rewrite Hact in H.
  - intros uid id a H. unfold db'.
    now rewrite user_alert_cleanupOldAlerts, H.
  - intros uid id H. unfold db'.
    now rewrite user_alert_cleanupOldAlerts, H.
  - unfold count, cleanupOldAlerts. simpl. f_equal.
    apply list_filter_iff. intros [uid a]. simpl.
    rewrite andb_true_iff. tauto.
  - intros uid id. unfold db', cleanupOldAlerts, user_track. simpl.
    rewrite lookup_fmap. now destruct (db !! uid).
  - intros uid. unfold db', cleanupOldAlerts. simpl.
    rewrite lookup_fmap. now destruct (db !! uid).
  - unfold cleanupOldAlerts at 1. f_equal.
    + apply length_zero_iff_nil.
      destruct (filter _ (all_alerts db')) as [|[uid a] rest] eqn:E;
        [reflexivity|].
      assert (Hin : (uid, a) ∈ filter
                (fun p : string * PriceAlert =>
                   (is_active p.2 && String.ltb (departure_date p.2) today)
                   = true) (all_alerts db')).
      { rewrite E. now left. }
      apply list_elem_of_filter in Hin as (Hexp & Hin). simpl in Hexp.
      apply elem_of_all_alerts in Hin as (id & a0 & Hget & ->).
      apply Hclean in Hget. cbv beta in Hget. simpl in Hexp.
      congruence.
    + apply map_eq. intros uid. rewrite lookup_fmap.
      destruct (db' !! uid) as [u|] eqn:Eu; simpl; [|reflexivity].
      f_equal. destruct u as [la fa ft ph]. unfold on_alerts. simpl.
      f_equal. apply map_eq. intros id. rewrite lookup_fmap.
      destruct (fa !! id) as [a|] eqn:Ea; simpl; [|reflexivity].
      assert (Hget : user_alert db' uid id = Some a).
      { unfold user_alert. rewrite Eu. exact Ea. }
      apply Hclean in Hget. cbv beta in Hget. now rewrite Hget.
Qed.

End Cleanup.

(** ** Price history *)

Section PriceHistory.
Import Database PriceMonitor.
Local Open Scope list_scope.

Variable searchFlights :
  string -> string -> string -> option string -> SearchOutcome.

Lemma newer_first_total a b :
  newer_first a b = true \/ newer_first b a = true.
Proof. unfold newer_first. lia. Qed.

Lemma newer_first_trans a b c :
  newer_first a b = true -> newer_first b c = true ->
  newer_first a c = true.
Proof. unfold newer_first. lia. Qed.

Lemma getPriceHistory_at_most_ten db userId alertId :
  (length (getPriceHistory db userId alertId 10) <= 10)%nat.
Proof.
  unfold getPriceHistory, JsArray.slice0. simpl.
  rewrite length_take. lia.
Qed.

(** X3.  [getPriceHistory] answers with entries recorded for that alert
    under that user only, the newest first, at most [limit] of them (all of
    them when there are fewer), and whatever it leaves out is no newer than
    anything it shows. *)
Theorem getPriceHistory_newest_first db userId alertId limit :
  let recorded :=
    filter (fun h => history_alert_id h = alertId)
           (default [] (price_history <$> db !! userId)) in
  let shown := getPriceHistory db userId alertId limit in
  (forall h, h ∈ shown -> h ∈ recorded)
  /\ StronglySorted
       (fun a b => (history_timestamp b <= history_timestamp a)%Z) shown
  /\ ((0 <= limit)%Z ->
      length shown = Nat.min (Z.to_nat limit) (length recorded))
  /\ (exists rest,
        shown ++ rest ≡ₚ recorded
        /\ forall h s, h ∈ rest -> s ∈ shown ->
             (history_timestamp h <= history_timestamp s)%Z).
Proof.
  intros recorded shown.
  assert (Hrec : shown
                 = JsArray.slice0 limit (JsArray.sort newer_first recorded)).
  { unfold shown, getPriceHistory, recorded.
    now destruct (db !! userId). }
  destruct (slice0_take limit (JsArray.sort newer_first recorded))
    as (n & Hn & Hlimit).
  rewrite Hn in Hrec.
  assert (Hsorted : StronglySorted
            (fun a b => (history_timestamp b <= history_timestamp a)%Z)
            (JsArray.sort newer_first recorded)).
  { eapply StronglySorted_weaken;
      [|apply sort_StronglySorted;
        [apply newer_first_total | apply newer_first_trans]].
    intros a b H. unfold newer_first in H. simpl in H. lia. }
  rewrite <- (take_drop n (JsArray.sort newer_first recorded)) in Hsorted.
  apply StronglySorted_app in Hsorted as (Hcut & Hshown & _).
  rewrite Hrec. repeat apply conj.
  - intros h Hh. apply elem_of_take in Hh as (i & Hi & _).
    apply list_elem_of_lookup_2 in Hi. now apply elem_of_sort in Hi.
  - exact Hshown.
  - intros Hpos. rewrite length_take, (Hlimit Hpos).
    now rewrite (Permutation_length (sort_Permutation newer_first recorded)).
  - exists (drop n (JsArray.sort newer_first recorded)). split.
    + rewrite take_drop. apply sort_Permutation.
    + intros h s Hh Hs. now apply Hcut.
Qed.

(** X4.  After a successful check the price just found heads the alert's
    history, in front of what was shown before, provided the earlier
    entries of the alert were recorded before this check; the histories
    of other alerts and other users read as before. *)
Theorem checked_price_heads_the_history w alertId owner alert first rest
    limit :
  getAlert (store w) alertId None = Some (owner, alert) ->
  searchFlights (origin alert) (destination alert) (departure_date alert)
    (return_date alert) = SearchReturns (Some (first :: rest)) ->
  (forall u h, store w !! owner = Some u -> h ∈ price_history u ->
     history_alert_id h = alertId -> (history_timestamp h < clock w)%Z) ->
  (0 < limit)%Z ->
  let w' := checkSingleAlert searchFlights alertId w in
  exists flight,
    In flight (first :: rest)
    /\ Forall (fun o => (price flight <= price o)%Q) (first :: rest)
    /\ getPriceHistory (store w') owner alertId limit
       = mkHistory alertId (price flight) None None (clock w)
         :: getPriceHistory (store w) owner alertId (limit - 1)
    /\ (forall uid id n, ~ (uid = owner /\ id = alertId) ->
          getPriceHistory (store w') uid id n
          = getPriceHistory (store w) uid id n).
Proof.
  intros Hget Hsearch Hold Hlimit w'.
  destruct (checkSingleAlert_prices searchFlights _ _ _ _ _ _ Hget Hsearch)
    as (flight & a & Hin & Hall & Ha & _ & Hstore).
  exists flight. split; [exact Hin|]. split; [exact Hall|].
  assert (Hu : exists u, store w !! owner = Some u).
  { unfold user_alert in Ha. destruct (store w !! owner); [eauto|].
    discriminate. }
  destruct Hu as (u & Hu).
  assert (Hhist : forall uid,
            default [] (price_history <$> store w' !! uid)
            = if decide (uid = owner)
              then price_history u
                   ++ [mkHistory alertId (price flight) None None (clock w)]
              else default [] (price_history <$> store w !! uid)).
  { intros uid. unfold w'. rewrite Hstore.
    unfold addPriceHistory, update_alert. rewrite !lookup_alter.
    destruct (decide (owner = uid)) as [<-|Hne].
    - rewrite !decide_True by reflexivity. now rewrite Hu.
    - rewrite !decide_False by congruence. reflexivity. }
  assert (Hread : forall db uid id n,
            getPriceHistory db uid id n
            = JsArray.slice0 n
                (JsArray.sort newer_first
                   (filter (fun h => history_alert_id h = id)
                      (default [] (price_history <$> db !! uid))))).
  { intros db uid id n. unfold getPriceHistory.
    now destruct (db !! uid). }
  split.
  - rewrite !Hread, Hhist, decide_True by reflexivity.
    rewrite Hu. simpl. rewrite filter_app.
    change (filter (fun h => history_alert_id h = alertId)
              [mkHistory alertId (price flight) None None (clock w)])
      with (if decide (alertId = alertId)
            then [mkHistory alertId (price flight) None None (clock w)]
            else []).
    rewrite decide_True by reflexivity.
    rewrite sort_snoc_first.
    + now apply slice0_cons.
    + intros y Hy. apply list_elem_of_filter in Hy as (Hid & Hy).
      specialize (Hold u y Hu Hy Hid). unfold newer_first. simpl. lia.
  - intros uid id n Hne. rewrite !Hread, Hhist.
    destruct (decide (uid = owner)) as [->|Hu']; [|reflexivity].
    rewrite Hu. simpl. rewrite filter_app.
    change (filter (fun h => history_alert_id h = id)
              [mkHistory alertId (price flight) None None (clock w)])
      with (if decide (alertId = id)
            then [mkHistory alertId (price flight) None None (clock w)]
            else []).
    rewrite decide_False by (intros ->; tauto).
    now rewrite app_nil_r.
Qed.

End PriceHistory.

(** ** Reports on the users' alerts *)

Section Reports.
Import Database.
Local Open Scope list_scope.

(** Collecting into a [Set]: nothing is met twice, nothing is lost. *)
Lemma collect_once {B} (key : B -> string) (l : list B) :
  forall acc,
    NoDup acc ->
    let r := fold_left
               (fun (ids : list string) (p : B) =>
                  if bool_decide (key p ∈ ids) then ids
                  else ids ++ [key p]) l acc in
    NoDup r /\ forall x, x ∈ r <-> x ∈ acc \/ exists p, p ∈ l /\ key p = x.
Proof.
  induction l as [|p l IH]; intros acc Hacc; simpl.
  - split; [exact Hacc|]. intros x. split; [auto|].
    intros [H|(p & Hp & _)]; [exact H | inversion Hp].
  - destruct (bool_decide_reflect (key p ∈ acc)) as [Hin|Hout].
    + destruct (IH acc Hacc) as (Hnd & Hiff). split; [exact Hnd|].
      intros x. rewrite Hiff. split.
      * intros [H|(q & Hq & Hk)]; [auto|].
        right. exists q. split; [now right | exact Hk].
      * intros [H|(q & Hq & Hk)]; [auto|].
        apply elem_of_cons in Hq as [-> | Hq]; [left; congruence|].
        right. eauto.
    + assert (Hacc' : NoDup (acc ++ [key p])).
      { apply NoDup_app. repeat split; [exact Hacc| |apply NoDup_singleton].
        intros x Hx Hx'. apply list_elem_of_singleton in Hx'. congruence. }
      destruct (IH _ Hacc') as (Hnd & Hiff). split; [exact Hnd|].
      intros x. rewrite Hiff, elem_of_app, list_elem_of_singleton. split.
      * intros [[H | ->] | (q & Hq & Hk)]; [auto| |].
        -- right. exists p. split; [now left | reflexivity].
        -- right. exists q. split; [now right | exact Hk].
      * intros [H|(q & Hq & Hk)]; [auto|].
        apply elem_of_cons in Hq as [-> | Hq]; [auto|].
        right. eauto.
Qed.

(** X5.  [getUsersWithActiveAlerts] lists a user exactly when one of the
    user's alerts is active, and lists nobody twice. *)
Theorem getUsersWithActiveAlerts_each_once db :
  NoDup (getUsersWithActiveAlerts db)
  /\ forall uid,
       uid ∈ getUsersWithActiveAlerts db
       <-> exists id a, user_alert db uid id = Some a /\ is_active a = true.
Proof.
  destruct (collect_once (fun p : string * PriceAlert => p.1)
              (filter (fun p : string * PriceAlert => is_active p.2 = true)
                      (all_alerts db)) [] (NoDup_nil_2 (A := string))) as (Hnd & Hiff).
  split; [exact Hnd|]. intros uid.
  unfold getUsersWithActiveAlerts. rewrite Hiff. split.
  - intros [H|([o a] & Hin & Hk)]; [inversion H|]. simpl in Hk. subst o.
    apply list_elem_of_filter in Hin as (Hact & Hin). simpl in Hact.
    apply elem_of_all_alerts in Hin as (id & a0 & Hget & ->).
    exists id, a0. split; [exact Hget | exact Hact].
  - intros (id & a & Hget & Hact). right.
    exists (uid, with_alert_id id a). split; [|reflexivity].
    apply list_elem_of_filter. split; [exact Hact|].
    apply elem_of_all_alerts. eauto.
Qed.

(** The counters of [getUserStats] after any number of documents. *)
Lemma count_alert_fold docs :
  forall total active sum priced best,
    (best <= MAX_VALUE)%Q ->
    let '(total', active', sum', priced', best') :=
      fold_left count_alert docs (total, active, sum, priced, best) in
    total' = (total + length docs)%nat
    /\ active'
       = (active + length (filter (fun a => is_active a = true) docs))%nat
    /\ priced'
       = (priced
          + length (filter (fun a => Js.truthy_price (current_price a)
                                     = true) docs))%nat
    /\ (best' <= best)%Q
    /\ (best' = best
        \/ exists a, a ∈ docs /\ lowest_price a = Some best'
                     /\ Js.truthy_price (lowest_price a) = true)
    /\ (forall a l, a ∈ docs -> lowest_price a = Some l ->
          Js.truthy_price (lowest_price a) = true -> (best' <= l)%Q).
Proof.
  induction docs as [|d docs IH]; intros total active sum priced best Hbest.
  - simpl. repeat split; try lia; try apply Qle_refl; auto.
    intros a l Ha. inversion Ha.
  - cbn [fold_left]. unfold count_alert at 2.
    set (best1 := if Js.truthy_price (lowest_price d)
                     && Js.Qlt_bool (Js.ToNumber (lowest_price d)) best
                  then Js.ToNumber (lowest_price d) else best).
    assert (H1 : (best1 <= best)%Q
                 /\ (best1 = best
                     \/ (lowest_price d = Some best1
                         /\ Js.truthy_price (lowest_price d) = true))
                 /\ (forall l, lowest_price d = Some l ->
                       Js.truthy_price (lowest_price d) = true ->
                       (best1 <= l)%Q)).
    { unfold best1.
      destruct (Js.truthy_price (lowest_price d)) eqn:Et; simpl.
      - destruct (lowest_price d) as [l|] eqn:El; [|discriminate]. simpl.
        destruct (Js.Qlt_bool l best) eqn:E; reflect_Q.
        + repeat split; [lra | auto |].
          intros l' [= <-] _. apply Qle_refl.
        + repeat split; [apply Qle_refl | auto |].
          intros l' [= <-] _. exact E.
      - repeat split; [apply Qle_refl | auto |]. intros l _ H.
        discriminate. }
    destruct H1 as (Hle1 & Hfrom1 & Hmin1).
    assert (Hbest1 : (best1 <= MAX_VALUE)%Q) by (eapply Qle_trans; eauto).
    specialize (IH (S total)
                  (if is_active d then S active else active)
                  (if Js.truthy_price (current_price d)
                   then (sum + Js.ToNumber (current_price d))%Q else sum)
                  (if Js.truthy_price (current_price d)
                   then S priced else priced)
                  best1 Hbest1).
    destruct (fold_left count_alert docs _)
      as [[[[total' active'] sum'] priced'] best'].
    destruct IH as (Ht & Ha & Hp & Hle & Hfrom & Hmin).
    rewrite !filter_cons.
    repeat split.
    + simpl. lia.
    + destruct (is_active d); simpl; lia.
    + destruct (Js.truthy_price (current_price d)); simpl; lia.
    + eapply Qle_trans; eauto.
    + destruct Hfrom as [-> | (a & Hin & Hl & Htr)].
      * destruct Hfrom1 as [-> | (Hl & Htr)]; [auto|].
        right. exists d. split; [now left | auto].
      * right. exists a. split; [now right | auto].
    + intros a l Hin Hl Htr. apply elem_of_cons in Hin as [-> | Hin].
      * eapply Qle_trans; [exact Hle|]. now apply Hmin1.
      * now apply (Hmin a).
Qed.

(** X6.  [getUserStats] counts the user's alerts and the active ones among
    them; the best deal it reports is the least non-zero lowest price of
    any of the alerts, and it reports none only when no alert has a
    non-zero lowest price below [Number.MAX_VALUE]; it reports an average
    exactly when some alert has a non-zero current price. *)
Theorem getUserStats_counts_and_best_deal db telegramId :
  let alerts :=
    default [] ((fun u => map snd (map_to_list (flight_alerts u)))
                <$> db !! telegramId) in
  let stats := getUserStats db telegramId in
  total_alerts stats = default 0%nat
                         ((fun u => size (flight_alerts u))
                          <$> db !! telegramId)
  /\ active_alerts stats
     = length (filter (fun a => is_active a = true) alerts)
  /\ (active_alerts stats <= total_alerts stats)%nat
  /\ (forall a, a ∈ alerts
        <-> exists id, user_alert db telegramId id = Some a)
  /\ (forall m, best_deal_saved stats = Some m ->
        (exists a, a ∈ alerts /\ lowest_price a = Some m)
        /\ forall a l, a ∈ alerts -> lowest_price a = Some l ->
             ~ (l == 0)%Q -> (m <= l)%Q)
  /\ (best_deal_saved stats = None ->
      forall a l, a ∈ alerts -> lowest_price a = Some l ->
        ~ (l == 0)%Q -> (MAX_VALUE <= l)%Q)
  /\ (is_Some (avg_current_price stats)
      <-> exists a c, a ∈ alerts /\ current_price a = Some c
                      /\ ~ (c == 0)%Q).
Proof.
  intros alerts stats.
  assert (Hdocs : match db !! telegramId with
                  | Some u => map snd (map_to_list (flight_alerts u))
                  | None => []
                  end = alerts).
  { unfold alerts. now destruct (db !! telegramId). }
  assert (Htruthy : forall p l, p = Some l ->
            (Js.truthy_price p = true <-> ~ (l == 0)%Q)).
  { intros p l ->. simpl. rewrite negb_true_iff. split.
    - intros H Heq. apply Qeq_bool_iff in Heq. congruence.
    - intros H. now apply Qeq_bool_false. }
  unfold stats, getUserStats. rewrite Hdocs.
  pose proof (count_alert_fold alerts 0%nat 0%nat 0%Q 0%nat MAX_VALUE
                (Qle_refl _)) as H.
  destruct (fold_left count_alert alerts _)
    as [[[[total' active'] sum'] priced'] best'].
  destruct H as (Ht & Ha & Hp & Hle & Hfrom & Hmin). simpl.
  repeat apply conj.
  - rewrite Ht. unfold alerts.
    destruct (db !! telegramId) as [u|]; simpl; [|reflexivity].
    now rewrite length_map, length_map_to_list.
  - exact Ha.
  - rewrite Ha, Ht. simpl. apply length_filter.
  - intros a. unfold alerts, user_alert.
    destruct (db !! telegramId) as [u|]; simpl.
    + rewrite list_elem_of_In, in_map_iff. split.
      * intros ([id a'] & <- & Hin).
        apply list_elem_of_In, elem_of_map_to_list in Hin. eauto.
      * intros (id & Hid). exists (id, a). split; [reflexivity|].
        now apply list_elem_of_In, elem_of_map_to_list.
    + split; [intros H; inversion H | intros (id & H); discriminate].
  - intros m Hm.
    destruct (Qeq_bool best' MAX_VALUE) eqn:E; [discriminate|].
    simpl in Hm. injection Hm as <-. split.
    + destruct Hfrom as [-> | (a & Hin & Hl & _)]; [|eauto].
      rewrite Qeq_bool_refl in E. discriminate.
    + intros a l Hin Hl Hnz. apply (Hmin a l Hin Hl).
      now apply (Htruthy _ l Hl).
  - intros Hnone a l Hin Hl Hnz.
    destruct (Qeq_bool best' MAX_VALUE) eqn:E; [|discriminate].
    apply Qeq_bool_iff in E. rewrite <- E.
    apply (Hmin a l Hin Hl). now apply (Htruthy _ l Hl).
  - rewrite Hp. intros Hsome.
    destruct (filter (fun a => Js.truthy_price (current_price a) = true)
                alerts) as [|a rest] eqn:Ef.
    + simpl in Hsome. destruct Hsome as (x & Hx). discriminate.
    + assert (Hin : a ∈ filter
                (fun a => Js.truthy_price (current_price a) = true)
                alerts) by (rewrite Ef; now left).
      apply list_elem_of_filter in Hin as (Htr & Hin).
      destruct (current_price a) as [c|] eqn:Ec; [|discriminate].
      exists a, c. repeat split; auto.
      now apply (Htruthy (Some c) c eq_refl).
  - rewrite Hp. intros (a & c & Hin & Hc & Hnz).
    assert (Hin' : a ∈ filter
              (fun a => Js.truthy_price (current_price a) = true) alerts).
    { apply list_elem_of_filter. split; [|exact Hin].
      now apply (Htruthy _ c Hc). }
    destruct (filter (fun a => Js.truthy_price (current_price a) = true)
                alerts) as [|a' rest]; [inversion Hin'|].
    simpl. eauto.
Qed.

End Reports.

(** ** Subscriptions *)

Section Subscriptions.
Import Subscription.

(** X7.  A premium subscription written with an expiry date makes the user
    premium exactly up to that date.  One written without an expiry date
    keeps the date stored before: the user is premium only as long as that
    older date allows, and for good when there was none.  A user without a
    document is never premium and cannot be upgraded. *)
Theorem premium_lasts_until_expiry db telegramId e now later :
  (forall account db',
     db !! telegramId = Some account ->
     updateUserSubscription db telegramId "premium" (Some e) now = Ok db' ->
     isUserPremium db' telegramId later = bool_decide (later < e)%Z)
  /\ (forall account db',
        db !! telegramId = Some account ->
        updateUserSubscription db telegramId "premium" None now = Ok db' ->
        isUserPremium db' telegramId later
        = match subscription_expiry account with
          | Some old => bool_decide (later < old)%Z
          | None => true
          end)
  /\ (forall account tier expiryDate,
        db !! telegramId = Some account ->
        exists db',
          updateUserSubscription db telegramId tier expiryDate now = Ok db'
          /\ forall other, other <> telegramId ->
               db' !! other = db !! other)
  /\ (db !! telegramId = None ->
      isUserPremium db telegramId later = false
      /\ forall tier expiryDate,
           exists message,
             updateUserSubscription db telegramId tier expiryDate now
             = Throw message).
Proof.
  repeat apply conj.
  - intros account db' Hacc. unfold updateUserSubscription. rewrite Hacc.
    intros [= <-]. unfold isUserPremium, getUserSubscription.
    rewrite lookup_insert_eq. simpl.
    destruct (bool_decide_reflect (later < e)%Z); lia.
  - intros account db' Hacc. unfold updateUserSubscription. rewrite Hacc.
    intros [= <-]. unfold isUserPremium, getUserSubscription.
    rewrite lookup_insert_eq. simpl.
    destruct (subscription_expiry account) as [old|]; [|reflexivity].
    destruct (bool_decide_reflect (later < old)%Z); lia.
  - intros account tier expiryDate Hacc.
    unfold updateUserSubscription. rewrite Hacc.
    eexists. split; [reflexivity|].
    intros other Hne. now rewrite lookup_insert_ne by congruence.
  - intros Hnone. split.
    + unfold isUserPremium, getUserSubscription. now rewrite Hnone.
    + intros tier expiryDate. unfold updateUserSubscription.
      rewrite Hnone. eauto.
Qed.

End Subscriptions.

(** ** The periodic status check *)

Section StatusChecks.
Import Json FlightTracker Database.
Local Open Scope list_scope.

Variable Date_parse : string -> option Z.
Variable toISOString : Z -> string.
Variable schedule : Z -> string -> string -> string -> ScheduleResponse.

Lemma getFlightTrack_first db id :
  getFlightTrack db id = first_owner flight_tracks db id.
Proof.
  unfold getFlightTrack, collectionGroup_track.
  now destruct (first_owner flight_tracks db id).
Qed.

Lemma getFlightTrack_Some db id owner t :
  getFlightTrack db id = Some (owner, t) -> user_track db owner id = Some t.
Proof.
  rewrite getFlightTrack_first. intros H.
  apply first_owner_Some in H as (u & Hu & Ht).
  unfold user_track. rewrite Hu. exact Ht.
Qed.

Lemma getFlightTrack_None db id uid :
  getFlightTrack db id = None -> user_track db uid id = None.
Proof.
  rewrite getFlightTrack_first. intros H. unfold user_track.
  destruct (db !! uid) as [u|] eqn:Eu; [|reflexivity]. simpl.
  exact (first_owner_None flight_tracks db id uid u H Eu).
Qed.

Lemma getFlightTrack_unique db id owner t :
  user_track db owner id = Some t ->
  (forall uid, uid <> owner -> user_track db uid id = None) ->
  getFlightTrack db id = Some (owner, t).
Proof.
  intros Ht Hothers. rewrite getFlightTrack_first.
  unfold user_track in Ht.
  destruct (db !! owner) as [u|] eqn:Eu; [|discriminate]. simpl in Ht.
  apply (first_owner_unique flight_tracks db id owner u t Eu Ht).
  intros uid' u' Hne Hu'. specialize (Hothers uid' Hne).
  unfold user_track in Hothers. now rewrite Hu' in Hothers.
Qed.

(** Every way through [checkSingleFlightStatus]: the call is logged; for
    an active track with a status at hand, either an update goes to the
    owner and the status is stored, or the check time alone is stamped. *)
Lemma checkSingleFlightStatus_cases trackId w :
  let w' := checkSingleFlightStatus Date_parse toISOString schedule
              trackId w in
  w' = emit (StatusChecked trackId) w
  \/ exists owner track st,
       user_track (store w) owner trackId = Some track
       /\ active track = true
       /\ getFlightStatus toISOString schedule (clock w)
            (carrier_code track) (flight_number track) (date track)
          = Some st
       /\ ((shouldNotifyUser Date_parse track st (clock w) = Ok true
            /\ owner <> ""
            /\ exists sent,
                 (sent = [] \/ sent = [StatusUpdateSent owner
                                         (track_id track) st])
                 /\ w' = mkWorld
                           (update_track owner trackId
                              (with_status (Json (roundtrip st))
                                 (toISOString (clock w))) (store w))
                           (events w ++ StatusChecked trackId :: sent)
                           (clock w) (drawn w))
           \/ (shouldNotifyUser Date_parse track st (clock w) = Ok false
               /\ owner <> ""
               /\ w' = mkWorld
                         (update_track owner trackId
                            (with_check_time (toISOString (clock w)))
                            (store w))
                         (events w ++ [StatusChecked trackId])
                         (clock w) (drawn w))).
Proof.
  unfold checkSingleFlightStatus.
  set (w1 := emit (StatusChecked trackId) w).
  change (store w1) with (store w). change (clock w1) with (clock w).
  destruct (getFlightTrack (store w) trackId) as [[owner track]|] eqn:Hget;
    [|now left].
  apply getFlightTrack_Some in Hget as Htrack.
  destruct (active track) eqn:Hact; simpl; [|now left].
  destruct (getFlightStatus _ _ _ _ _ _) as [st|] eqn:Hst; [|now left].
  destruct (truthy st); simpl; [|now left].
  destruct (shouldNotifyUser _ _ _ _) as [[|]|] eqn:Hdec; [| |now left].
  - unfold sendStatusUpdate, updateFlightTrackStatus.
    destruct (String.eqb_spec owner "") as [->|Hne].
    + left. change (store w1) with (store w). rewrite Hget. simpl.
      now destruct w.
    + destruct (_ ← member st "flightDesignator"; _) eqn:Hm.
      * right. exists owner, track, st.
        split; [exact Htrack|]. split; [exact Hact|]. split; [exact Hst|].
        left. split; [exact Hdec|]. split; [exact Hne|].
        exists [StatusUpdateSent owner (track_id track) st].
        split; [now right|]. simpl. rewrite Hget.
        destruct (String.eqb_spec owner ""); [contradiction|].
        unfold set_store. simpl. now rewrite <- app_assoc.
      * right. exists owner, track, st.
        split; [exact Htrack|]. split; [exact Hact|]. split; [exact Hst|].
        left. split; [exact Hdec|]. split; [exact Hne|].
        exists []. split; [now left|].
        change (store w1) with (store w). rewrite Hget.
        destruct (String.eqb_spec owner ""); [contradiction|].
        reflexivity.
  - unfold updateFlightTrackCheckTime. rewrite Hget.
    destruct (String.eqb_spec owner "") as [->|Hne].
    + left. simpl. now destruct w.
    + right. exists owner, track, st.
      split; [exact Htrack|]. split; [exact Hact|]. split; [exact Hst|].
      right. split; [exact Hdec|]. split; [exact Hne|]. reflexivity.
Qed.

(** X8.  A status check of a track that no user holds, of a track that is
    switched off, or of a flight for which the provider has no usable
    answer, does nothing beyond being logged: the store is as before --
    not even the check time is stamped -- and no message is sent. *)
Theorem check_without_status_changes_nothing trackId w :
  let w' := checkSingleFlightStatus Date_parse toISOString schedule
              trackId w in
  ((forall uid, user_track (store w) uid trackId = None) ->
   store w' = store w /\ events w' = events w ++ [StatusChecked trackId])
  /\ (forall owner track,
        getFlightTrack (store w) trackId = Some (owner, track) ->
        active track = false
        \/ getFlightStatus toISOString schedule (clock w)
             (carrier_code track) (flight_number track) (date track)
           = None ->
        store w' = store w
        /\ events w' = events w ++ [StatusChecked trackId]).
Proof.
  intros w'. split.
  - intros Hnone.
    destruct (checkSingleFlightStatus_cases trackId w)
      as [H | (owner & track & st & Htrack & _)].
    + fold w' in H. rewrite H. now split.
    + rewrite Hnone in Htrack. discriminate.
  - intros owner track Hget Hwhy. unfold w', checkSingleFlightStatus.
    change (store (emit (StatusChecked trackId) w)) with (store w).
    change (clock (emit (StatusChecked trackId) w)) with (clock w).
    rewrite Hget. destruct Hwhy as [Hoff | Hno].
    + rewrite Hoff. now split.
    + destruct (active track); simpl; [|now split].
      rewrite Hno. now split.
Qed.

(** The loop of the periodic check, for any list of track ids: a track
    keeps everything but its stored status and check time, a track that
    is switched off keeps these too, and updates go to owners of active
    tracks only. *)
Lemma check_tracks_effect trackIds :
  forall w,
    let w' := check_tracks Date_parse toISOString schedule trackIds w in
    (forall uid id,
       match user_track (store w) uid id with
       | None => user_track (store w') uid id = None
       | Some t =>
           user_track (store w') uid id = Some t
           \/ (active t = true
               /\ exists s now,
                    user_track (store w') uid id
                    = Some (with_status s now t))
       end)
    /\ (forall uid, flight_alerts <$> store w' !! uid
                    = flight_alerts <$> store w !! uid)
    /\ (forall uid, price_history <$> store w' !! uid
                    = price_history <$> store w !! uid)
    /\ exists new,
         events w' = events w ++ new
         /\ (forall e, e ∈ new ->
               (exists trackId, trackId ∈ trackIds
                                /\ e = StatusChecked trackId)
               \/ exists owner id t st,
                    e = StatusUpdateSent owner (track_id t) st
                    /\ user_track (store w) owner id = Some t
                    /\ active t = true)
         /\ (forall trackId, trackId ∈ trackIds ->
               StatusChecked trackId ∈ new).
Proof.
  assert (Hone : forall trackId w,
            let w' := checkSingleFlightStatus Date_parse toISOString
                        schedule trackId w in
            (forall uid id,
               match user_track (store w) uid id with
               | None => user_track (store w') uid id = None
               | Some t =>
                   user_track (store w') uid id = Some t
                   \/ (active t = true
                       /\ exists s now,
                            user_track (store w') uid id
                            = Some (with_status s now t))
               end)
            /\ (forall uid, flight_alerts <$> store w' !! uid
                            = flight_alerts <$> store w !! uid)
            /\ (forall uid, price_history <$> store w' !! uid
                            = price_history <$> store w !! uid)
            /\ exists sent,
                 events w' = events w ++ StatusChecked trackId :: sent
                 /\ forall e, e ∈ sent ->
                      exists owner t st,
                        e = StatusUpdateSent owner (track_id t) st
                        /\ user_track (store w) owner trackId = Some t
                        /\ active t = true).
  { intros trackId w w'.
    assert (Hsame : forall db : Store,
              forall uid id,
                match user_track db uid id with
                | None => user_track db uid id = None
                | Some t =>
                    user_track db uid id = Some t
                    \/ (active t = true
                        /\ exists s now,
                             user_track db uid id
                             = Some (with_status s now t))
                end).
    { intros db uid id. destruct (user_track db uid id); auto. }
    assert (Hupd : forall owner track f,
              user_track (store w) owner trackId = Some track ->
              active track = true ->
              (forall t, exists s now, f t = with_status s now t) ->
              (forall uid id,
                 match user_track (store w) uid id with
                 | None =>
                     user_track (update_track owner trackId f (store w))
                       uid id = None
                 | Some t =>
                     user_track (update_track owner trackId f (store w))
                       uid id = Some t
                     \/ (active t = true
                         /\ exists s now,
                              user_track
                                (update_track owner trackId f (store w))
                                uid id
                              = Some (with_status s now t))
                 end)
              /\ (forall uid,
                    flight_alerts
                    <$> update_track owner trackId f (store w) !! uid
                    = flight_alerts <$> store w !! uid)
              /\ (forall uid,
                    price_history
                    <$> update_track owner trackId f (store w) !! uid
                    = price_history <$> store w !! uid)).
    { intros owner track f Htrack Hact Hf. repeat apply conj.
      - intros uid id. rewrite user_track_update_track.
        destruct (decide (owner = uid /\ trackId = id)) as [[<- <-]|Hne].
        + rewrite Htrack. simpl. right. split; [exact Hact|].
          destruct (Hf track) as (s & now & ->). eauto.
        + destruct (user_track (store w) uid id); auto.
      - intros uid. unfold update_track. rewrite lookup_alter.
        destruct (decide (owner = uid)) as [<-|]; [|reflexivity].
        now destruct (store w !! owner).
      - intros uid. unfold update_track. rewrite lookup_alter.
        destruct (decide (owner = uid)) as [<-|]; [|reflexivity].
        now destruct (store w !! owner). }
    destruct (checkSingleFlightStatus_cases trackId w)
      as [H | (owner & track & st & Htrack & Hact & _
               & [(_ & _ & sent & Hsent & H) | (_ & _ & H)])];
      fold w' in H; rewrite H; simpl.
    - split; [apply Hsame|]. split; [reflexivity|]. split; [reflexivity|].
      exists []. split; [reflexivity|]. intros e He. inversion He.
    - destruct (Hupd owner track
                  (with_status (Json (roundtrip st))
                     (toISOString (clock w))) Htrack Hact)
        as (H1 & H2 & H3); [eauto|].
      split; [exact H1|]. split; [exact H2|]. split; [exact H3|].
      exists sent. split; [reflexivity|]. intros e He.
      destruct Hsent as [-> | ->]; [inversion He|].
      apply list_elem_of_singleton in He as ->.
      exists owner, track, st. auto.
    - destruct (Hupd owner track
                  (with_check_time (toISOString (clock w))) Htrack Hact)
        as (H1 & H2 & H3).
      { intros t. exists (last_status t), (toISOString (clock w)).
        reflexivity. }
      split; [exact H1|]. split; [exact H2|]. split; [exact H3|].
      exists []. split; [reflexivity|]. intros e He. inversion He. }
  assert (Hchain : forall (w w1 w2 : World),
            (forall uid id,
               match user_track (store w) uid id with
               | None => user_track (store w1) uid id = None
               | Some t =>
                   user_track (store w1) uid id = Some t
                   \/ (active t = true
                       /\ exists s now,
                            user_track (store w1) uid id
                            = Some (with_status s now t))
               end) ->
            (forall uid id,
               match user_track (store w1) uid id with
               | None => user_track (store w2) uid id = None
               | Some t =>
                   user_track (store w2) uid id = Some t
                   \/ (active t = true
                       /\ exists s now,
                            user_track (store w2) uid id
                            = Some (with_status s now t))
               end) ->
            forall uid id,
              match user_track (store w) uid id with
              | None => user_track (store w2) uid id = None
              | Some t =>
                  user_track (store w2) uid id = Some t
                  \/ (active t = true
                      /\ exists s now,
                           user_track (store w2) uid id
                           = Some (with_status s now t))
              end).
  { intros w w1 w2 H1 H2 uid id.
    specialize (H1 uid id). specialize (H2 uid id).
    destruct (user_track (store w) uid id) as [t|].
    - destruct H1 as [H1 | (Hact & s & now & H1)]; rewrite H1 in H2.
      + exact H2.
      + right. split; [exact Hact|].
        destruct H2 as [H2 | (_ & s2 & now2 & H2)]; rewrite H2; eauto.
    - now rewrite H1 in H2. }
  induction trackIds as [|trackId rest IH]; intros w w'.
  - unfold w'. simpl. split.
    + intros uid id. destruct (user_track (store w) uid id); auto.
    + split; [reflexivity|]. split; [reflexivity|].
      exists []. split; [now rewrite app_nil_r|].
      split; intros e He; inversion He.
  - destruct (Hone trackId w) as (Ht1 & Ha1 & Hh1 & sent & He1 & Hsent).
    set (w1 := checkSingleFlightStatus Date_parse toISOString schedule
                 trackId w) in *.
    assert (Hnew1 : forall e, e ∈ StatusChecked trackId :: sent ->
              (exists trackId', trackId' ∈ trackId :: rest
                                /\ e = StatusChecked trackId')
              \/ exists owner id t st,
                   e = StatusUpdateSent owner (track_id t) st
                   /\ user_track (store w) owner id = Some t
                   /\ active t = true).
    { intros e He. apply elem_of_cons in He as [-> | He].
      - left. exists trackId. split; [now left | reflexivity].
      - right. destruct (Hsent e He) as (owner & t & st & -> & Ht & Hact).
        eauto 10. }
    destruct rest as [|next rest'].
    + unfold w'. simpl. fold w1.
      split; [exact Ht1|]. split; [exact Ha1|]. split; [exact Hh1|].
      exists (StatusChecked trackId :: sent).
      split; [exact He1|]. split; [exact Hnew1|].
      intros t Ht. apply list_elem_of_singleton in Ht as ->. now left.
    + specialize (IH (sleep 2000 w1)).
      destruct IH as (Ht2 & Ha2 & Hh2 & new & He2 & Hnew2 & Hall2).
      change (check_tracks Date_parse toISOString schedule
                (trackId :: next :: rest') w)
        with (check_tracks Date_parse toISOString schedule
                (next :: rest') (sleep 2000 w1)) in w'.
      fold w' in Ht2, Ha2, Hh2, He2.
      change (store (sleep 2000 w1)) with (store w1) in *.
      change (events (sleep 2000 w1)) with (events w1) in *.
      split; [exact (Hchain w w1 w' Ht1 Ht2)|].
      split; [intros uid; now rewrite Ha2, Ha1|].
      split; [intros uid; now rewrite Hh2, Hh1|].
      exists ((StatusChecked trackId :: sent) ++ new).
      split; [rewrite He2, He1; now rewrite app_assoc|].
      split.
      * intros e He. apply elem_of_app in He as [He | He].
        -- now apply Hnew1.
        -- destruct (Hnew2 e He)
             as [(t & Ht & ->) | (owner & id & t & st & -> & Ht & Hact)].
           ++ left. exists t. split; [now right | reflexivity].
           ++ right. specialize (Ht1 owner id).
              destruct (user_track (store w) owner id) as [t0|] eqn:E0.
              ** destruct Ht1 as [Ht1 | (Hact0 & s & now & Ht1)];
                   rewrite Ht1 in Ht; injection Ht as <-;
                   exists owner, id, t0, st; auto.
              ** rewrite Ht1 in Ht. discriminate.
      * intros t Ht. apply elem_of_app.
        apply elem_of_cons in Ht as [-> | Ht].
        -- left. now left.
        -- right. now apply Hall2.
Qed.

Lemma elem_of_getAllActiveFlightTracks db uid t :
  (uid, t) ∈ getAllActiveFlightTracks Date_parse db
  <-> exists id, user_track db uid id = Some t /\ active t = true.
Proof.
  unfold getAllActiveFlightTracks.
  rewrite elem_of_sort, list_elem_of_In, in_flat_map. split.
  - intros ([k u] & Hin & Ht). simpl in Ht.
    apply list_elem_of_In, elem_of_map_to_list in Hin.
    apply in_map_iff in Ht as ([id t'] & Heq & Hin').
    simpl in Heq. injection Heq as <- <-.
    apply list_elem_of_In, list_elem_of_filter in Hin' as (Hact & Hin').
    apply elem_of_map_to_list in Hin'. simpl in Hact.
    exists id. split; [|exact Hact]. unfold user_track. now rewrite Hin.
  - intros (id & Hget & Hact). unfold user_track in Hget.
    destruct (db !! uid) as [u|] eqn:Eu; [|discriminate]. simpl in Hget.
    exists (uid, u). split.
    + now apply list_elem_of_In, elem_of_map_to_list.
    + simpl. apply in_map_iff. exists (id, t). split; [reflexivity|].
      apply list_elem_of_In, list_elem_of_filter. split; [exact Hact|].
      now apply elem_of_map_to_list.
Qed.

(** X9.  The periodic check of all tracked flights asks for every active
    track, under the id the track carries, and sends nothing but status
    updates, each to the owner of a track that was active when the check
    began.  A track that is switched off is left exactly as it is; an
    active one keeps everything but its stored status and check time.
    No track appears or disappears, and alerts and price histories are
    untouched. *)
Theorem periodic_check_spares_cancelled_tracks w :
  let w' := checkAllTrackedFlights Date_parse toISOString schedule w in
  (forall uid id t, user_track (store w) uid id = Some t ->
     active t = false -> user_track (store w') uid id = Some t)
  /\ (forall uid id t, user_track (store w) uid id = Some t ->
        user_track (store w') uid id = Some t
        \/ exists s now,
             user_track (store w') uid id = Some (with_status s now t))
  /\ (forall uid id, user_track (store w) uid id = None ->
        user_track (store w') uid id = None)
  /\ (forall uid, flight_alerts <$> store w' !! uid
                  = flight_alerts <$> store w !! uid)
  /\ (forall uid, price_history <$> store w' !! uid
                  = price_history <$> store w !! uid)
  /\ exists new,
       events w' = events w ++ new
       /\ (forall e, e ∈ new ->
             (exists trackId, e = StatusChecked trackId)
             \/ exists owner id t st,
                  e = StatusUpdateSent owner (track_id t) st
                  /\ user_track (store w) owner id = Some t
                  /\ active t = true)
       /\ (forall uid id t, user_track (store w) uid id = Some t ->
             active t = true -> StatusChecked (track_id t) ∈ new).
Proof.
  intros w'.
  destruct (check_tracks_effect
              (map (fun p : string * FlightTrack => track_id p.2)
                   (getAllActiveFlightTracks Date_parse (store w))) w)
    as (Ht & Ha & Hh & new & He & Hnew & Hall).
  fold (checkAllTrackedFlights Date_parse toISOString schedule w) in *.
  fold w' in Ht, Ha, Hh, He.
  repeat apply conj.
  - intros uid id t Hget Hoff. specialize (Ht uid id). rewrite Hget in Ht.
    destruct Ht as [Ht | (Hact & _)]; [exact Ht | congruence].
  - intros uid id t Hget. specialize (Ht uid id). rewrite Hget in Ht.
    destruct Ht as [Ht | (_ & Ht)]; auto.
  - intros uid id Hget. specialize (Ht uid id). now rewrite Hget in Ht.
  - exact Ha.
  - exact Hh.
  - exists new. split; [exact He|]. split.
    + intros e Hin.
      destruct (Hnew e Hin) as [(trackId & _ & ->) | H]; eauto.
    + intros uid id t Hget Hact. apply Hall.
      apply list_elem_of_fmap. exists (uid, t). split; [reflexivity|].
      apply elem_of_getAllActiveFlightTracks. eauto.
Qed.

End StatusChecks.

(** ** What a status comparison passes over *)

Section QuietChecks.
Import Json FlightTracker Database.
Local Open Scope list_scope.

Variable Date_parse : string -> option Z.
Variable toISOString : Z -> string.
Variable schedule : Z -> string -> string -> string -> ScheduleResponse.

(** Reading a property back after serialisation. *)
Lemma lookup_field_absent k fields :
  k ∉ map fst fields -> lookup_field k fields = JUndefined.
Proof.
  induction fields as [|[k' v] rest IH]; intros Hk; simpl; [reflexivity|].
  destruct (String.eqb_spec k k') as [->|Hne].
  - exfalso. apply Hk. now left.
  - apply IH. intros Hin. apply Hk. now right.
Qed.

Lemma roundtrip_keys fields k :
  match roundtrip (JObj fields) with
  | JObj kept => k ∈ map fst kept -> k ∈ map fst fields
  | _ => False
  end.
Proof.
  induction fields as [|[k' v] rest IH]; simpl; [auto|].
  simpl in IH.
  destruct v; simpl; intros Hin;
    try (apply elem_of_cons in Hin as [-> | Hin];
         [now left | right; now apply IH]).
  right. now apply IH.
Qed.

Lemma member_roundtrip fields k :
  NoDup (map fst fields) ->
  member (roundtrip (JObj fields)) k
  = Ok (roundtrip (lookup_field k fields)).
Proof.
  intros Hnd. simpl. f_equal.
  induction fields as [|[k' v] rest IH]; [reflexivity|].
  simpl in Hnd. apply NoDup_cons in Hnd as (Hk' & Hnd).
  specialize (IH Hnd).
  assert (Hgone : k = k' ->
            lookup_field k
              ((fix go (l : list (string * jsval)) :=
                  match l with
                  | [] => []
                  | (k0, JUndefined) :: rest0 => go rest0
                  | (k0, x) :: rest0 => (k0, roundtrip x) :: go rest0
                  end) rest) = JUndefined).
  { intros ->. apply lookup_field_absent. intros Hin. apply Hk'.
    exact (roundtrip_keys rest k' Hin). }
  cbn [lookup_field].
  destruct v; cbn [lookup_field];
    destruct (String.eqb_spec k k') as [Heq|Hne]; auto.
Qed.

Lemma truthy_roundtrip v : truthy (roundtrip v) = truthy v.
Proof. now destruct v. Qed.

Lemma Date_of_roundtrip v :
  Date_of Date_parse (roundtrip v) = Date_of Date_parse v.
Proof. now destruct v. Qed.

(** A time is never ten minutes away from itself. *)
Lemma timeChanged_same v :
  timeChangedSignificantly Date_parse v (roundtrip v) 10 = false.
Proof.
  unfold timeChangedSignificantly.
  rewrite truthy_roundtrip, Date_of_roundtrip.
  destruct (truthy v); cbn [negb orb]; [|reflexivity].
  destruct (Date_of Date_parse v) as [d|]; [|reflexivity].
  rewrite minutes_over. apply bool_decide_eq_false. lia.
Qed.

(** The entry of [significantChanges] for a terminal or a gate is [true]
    only if one of the two values is. *)
Lemma place_changed_not_true v last :
  v <> JBool true -> last <> JBool true ->
  strict_eq (and_ (JBool (negb (strict_eq v (roundtrip last))))
               (or_ v (roundtrip last))) (JBool true) = false.
Proof.
  intros Hv Hlast. unfold and_, or_.
  destruct v as [| |[|]| | |]; try contradiction;
    destruct last as [| |[|]| | |]; try contradiction; simpl;
    try reflexivity;
    repeat match goal with
           | |- context [(?a =? ?b)%Z] => destruct (a =? b)%Z eqn:?
           | |- context [String.eqb ?a ?b] => destruct (String.eqb a b) eqn:?
           end; simpl; try reflexivity.
Qed.

Lemma place_same_not_true v :
  strict_eq (and_ (JBool (negb (strict_eq v (roundtrip v))))
               (or_ v (roundtrip v))) (JBool true) = false.
Proof.
  unfold and_, or_. destruct v as [| |[|]|n|s|fields]; simpl;
    rewrite ?Z.eqb_refl, ?String.eqb_refl; reflexivity.
Qed.

Lemma flight_status_keys d a b dep arr t g checked :
  exists fields,
    flight_status d a b dep arr t g checked = JObj fields
    /\ NoDup (map fst fields)
    /\ lookup_field "flightDesignator" fields = d
    /\ lookup_field "scheduledDepartureTime" fields = dep
    /\ lookup_field "scheduledArrivalTime" fields = arr
    /\ lookup_field "terminal" fields = t
    /\ lookup_field "gate" fields = g
    /\ lookup_field "status" fields = JStr "SCHEDULED"
    /\ lookup_field "checked" fields = JStr checked.
Proof.
  eexists. split; [reflexivity|]. split; [|repeat split].
  simpl. repeat (apply NoDup_cons; split;
                 [rewrite list_elem_of_In; simpl; intuition discriminate|]).
  apply NoDup_nil_2.
Qed.

(** A comparison in which neither the flight, nor a time, nor the status
    differs, in which the terminal and gate entries are not [true], and
    whose stored status was checked less than a day ago, finds nothing. *)
Lemma comparison_finds_nothing track carrier number depA arrA depA' arrA'
    dep arr terminal gate terminal' gate' checked checked' c now :
  last_status track
  = Json (roundtrip (flight_status (designator carrier number) depA arrA
                       dep arr terminal gate checked)) ->
  checked <> "" -> Date_parse checked = Some c -> now - c < 86400000 ->
  strict_eq (and_ (JBool (negb (strict_eq terminal' (roundtrip terminal))))
               (or_ terminal' (roundtrip terminal))) (JBool true) = false ->
  strict_eq (and_ (JBool (negb (strict_eq gate' (roundtrip gate))))
               (or_ gate' (roundtrip gate))) (JBool true) = false ->
  shouldNotifyUser Date_parse track
    (flight_status (designator carrier number) depA' arrA' dep arr
       terminal' gate' checked') now
  = Ok false.
Proof.
  intros Hlast Hne Hc Hnow Hterminal Hgate.
  unfold shouldNotifyUser, basis. rewrite Hlast.
  destruct (flight_status_keys (designator carrier number) depA arrA
              dep arr terminal gate checked)
    as (fields & -> & Hnd & Hd & Hdep & Harr & Ht & Hg & Hs & Hch).
  unfold significantChanges.
  rewrite !(member_roundtrip fields) by exact Hnd.
  rewrite Hd, Hdep, Harr, Ht, Hg, Hs, Hch.
  simpl. rewrite String.eqb_refl, Z.eqb_refl. simpl.
  rewrite !timeChanged_same.
  rewrite (heartbeat_not_due Date_parse checked c now) by assumption.
  f_equal. unfold some_true. simpl.
  now rewrite Hterminal, Hgate.
Qed.

(** X10.  A change of terminal or gate alone never notifies: against a
    stored status checked less than a day ago, a new status for the same
    flight with the same scheduled times is passed over whatever its
    terminal and gate are (texts, objects or null), because the entries
    computed for them are never the boolean [true]. *)
Theorem terminal_or_gate_change_alone_is_passed_over track carrier number
    depA arrA depA' arrA' dep arr terminal gate terminal' gate'
    checked checked' c now :
  last_status track
  = Json (roundtrip (flight_status (designator carrier number) depA arrA
                       dep arr terminal gate checked)) ->
  terminal <> JBool true -> terminal' <> JBool true ->
  gate <> JBool true -> gate' <> JBool true ->
  checked <> "" -> Date_parse checked = Some c -> now - c < 86400000 ->
  shouldNotifyUser Date_parse track
    (flight_status (designator carrier number) depA' arrA' dep arr
       terminal' gate' checked') now
  = Ok false.
Proof.
  intros Hlast Ht Ht' Hg Hg' Hne Hc Hnow.
  apply (comparison_finds_nothing track carrier number depA arrA depA'
           arrA' dep arr terminal gate terminal' gate' checked checked'
           c now Hlast Hne Hc Hnow).
  - now apply place_changed_not_true.
  - now apply place_changed_not_true.
Qed.

(** The status [getFlightStatus] builds from an answer with at least two
    flight points. *)
Lemma getFlightStatus_answer now carrier number day flight more p0 p1 ps :
  schedule now carrier number day = ScheduleData (Some (flight :: more)) ->
  flightPoints flight = Some (p0 :: p1 :: ps) ->
  getFlightStatus toISOString schedule now carrier number day
  = Some (flight_status (flightDesignator flight) (point_iataCode p0)
            (point_iataCode (List.last (p1 :: ps) p0))
            (or_ (departure_timing p0) JNull)
            (or_ (arrival_timing (List.last (p1 :: ps) p0)) JNull)
            (or_ (arrival_terminal (List.last (p1 :: ps) p0)) JNull)
            (or_ (arrival_gate (List.last (p1 :: ps) p0)) JNull)
            (toISOString now)).
Proof.
  intros Hs Hp. unfold getFlightStatus. now rewrite Hs, Hp.
Qed.

(** X11.  No repeated alarm: when a check has notified the owner and
    stored the status it fetched, a second check less than a day later
    that gets the same answer from the provider sends nothing and leaves
    the stored status as it is; only the check time moves on. *)
Theorem second_check_with_same_answer_is_quiet w trackId owner track
    flight more more' p0 p1 ps carrier number dt :
  user_track (store w) owner trackId = Some track ->
  (forall uid, uid <> owner -> user_track (store w) uid trackId = None) ->
  owner <> "" -> active track = true ->
  schedule (clock w) (carrier_code track) (flight_number track) (date track)
  = ScheduleData (Some (flight :: more)) ->
  schedule (clock w + dt) (carrier_code track) (flight_number track)
    (date track)
  = ScheduleData (Some (flight :: more')) ->
  flightPoints flight = Some (p0 :: p1 :: ps) ->
  flightDesignator flight = designator carrier number ->
  (forall st,
     getFlightStatus toISOString schedule (clock w) (carrier_code track)
       (flight_number track) (date track) = Some st ->
     shouldNotifyUser Date_parse track st (clock w) = Ok true) ->
  toISOString (clock w) <> "" ->
  Date_parse (toISOString (clock w)) = Some (clock w) ->
  0 <= dt < 86400000 ->
  let w1 := checkSingleFlightStatus Date_parse toISOString schedule
              trackId w in
  let w2 := checkSingleFlightStatus Date_parse toISOString schedule
              trackId (sleep dt w1) in
  exists st,
    getFlightStatus toISOString schedule (clock w) (carrier_code track)
      (flight_number track) (date track) = Some st
    /\ events w1
       = events w ++ [StatusChecked trackId;
                      StatusUpdateSent owner (track_id track) st]
    /\ user_track (store w1) owner trackId
       = Some (with_status (Json (roundtrip st)) (toISOString (clock w))
                 track)
    /\ events w2 = events w1 ++ [StatusChecked trackId]
    /\ user_track (store w2) owner trackId
       = Some (with_check_time (toISOString (clock w + dt))
                 (with_status (Json (roundtrip st))
                    (toISOString (clock w)) track)).
Proof.
  intros Htrack Hothers Howner Hact Hs Hs' Hp Hd Hfirst Hstamp Hparse Hdt
    w1 w2.
  pose proof (getFlightStatus_answer _ _ _ _ _ _ _ _ _ Hs Hp) as Hst.
  pose proof (getFlightStatus_answer _ _ _ _ _ _ _ _ _ Hs' Hp) as Hst'.
  rewrite Hd in Hst, Hst'.
  set (st := flight_status (designator carrier number) (point_iataCode p0)
               (point_iataCode (List.last (p1 :: ps) p0))
               (or_ (departure_timing p0) JNull)
               (or_ (arrival_timing (List.last (p1 :: ps) p0)) JNull)
               (or_ (arrival_terminal (List.last (p1 :: ps) p0)) JNull)
               (or_ (arrival_gate (List.last (p1 :: ps) p0)) JNull)
               (toISOString (clock w))) in *.
  specialize (Hfirst st Hst).
  pose proof (getFlightTrack_unique _ _ _ _ Htrack Hothers) as Hget.
  set (track1 := with_status (Json (roundtrip st)) (toISOString (clock w))
                   track).
  assert (Hw1 : w1 = mkWorld
                  (update_track owner trackId
                     (with_status (Json (roundtrip st))
                        (toISOString (clock w))) (store w))
                  (events w ++ [StatusChecked trackId;
                                StatusUpdateSent owner (track_id track) st])
                  (clock w) (drawn w)).
  { unfold w1, checkSingleFlightStatus.
    change (store (emit (StatusChecked trackId) w)) with (store w).
    change (clock (emit (StatusChecked trackId) w)) with (clock w).
    rewrite Hget, Hact. cbn [negb]. rewrite Hst.
    change (truthy st) with true. cbn [negb]. rewrite Hfirst.
    unfold sendStatusUpdate.
    destruct (String.eqb_spec owner ""); [contradiction|].
    change (_ ← member st "flightDesignator"; _)
      with (Ok (A := jsval) (JNum number)).
    unfold updateFlightTrackStatus.
    change (store (emit _ (emit (StatusChecked trackId) w)))
      with (store w).
    rewrite Hget.
    destruct (String.eqb_spec owner ""); [contradiction|].
    unfold set_store, emit. cbn [store events clock drawn].
    now rewrite <- app_assoc. }
  assert (Htrack1 : user_track (store w1) owner trackId = Some track1).
  { rewrite Hw1. cbn [store]. rewrite user_track_update_track.
    rewrite decide_True by auto. now rewrite Htrack. }
  assert (Hothers1 : forall uid, uid <> owner ->
            user_track (store w1) uid trackId = None).
  { intros uid Hne. rewrite Hw1. cbn [store].
    rewrite user_track_update_track.
    rewrite decide_False by (intros [? _]; congruence).
    now apply Hothers. }
  pose proof (getFlightTrack_unique _ _ _ _ Htrack1 Hothers1) as Hget1.
  assert (Hquiet : shouldNotifyUser Date_parse track1
            (flight_status (designator carrier number) (point_iataCode p0)
               (point_iataCode (List.last (p1 :: ps) p0))
               (or_ (departure_timing p0) JNull)
               (or_ (arrival_timing (List.last (p1 :: ps) p0)) JNull)
               (or_ (arrival_terminal (List.last (p1 :: ps) p0)) JNull)
               (or_ (arrival_gate (List.last (p1 :: ps) p0)) JNull)
               (toISOString (clock w + dt))) (clock w + dt)
            = Ok false).
  { apply (comparison_finds_nothing track1 carrier number
             (point_iataCode p0)
             (point_iataCode (List.last (p1 :: ps) p0))
             (point_iataCode p0)
             (point_iataCode (List.last (p1 :: ps) p0))
             (or_ (departure_timing p0) JNull)
             (or_ (arrival_timing (List.last (p1 :: ps) p0)) JNull)
             (or_ (arrival_terminal (List.last (p1 :: ps) p0)) JNull)
             (or_ (arrival_gate (List.last (p1 :: ps) p0)) JNull)
             (or_ (arrival_terminal (List.last (p1 :: ps) p0)) JNull)
             (or_ (arrival_gate (List.last (p1 :: ps) p0)) JNull)
             (toISOString (clock w)) (toISOString (clock w + dt))
             (clock w) (clock w + dt));
      [reflexivity | exact Hstamp | exact Hparse | lia
      | apply place_same_not_true | apply place_same_not_true]. }
  exists st. split; [exact Hst|].
  split; [now rewrite Hw1|]. split; [exact Htrack1|].
  assert (Hw2 : w2 = mkWorld
                  (update_track owner trackId
                     (with_check_time (toISOString (clock w + dt)))
                     (store w1))
                  (events w1 ++ [StatusChecked trackId])
                  (clock w + dt) (drawn w)).
  { unfold w2, checkSingleFlightStatus.
    change (store (emit (StatusChecked trackId) (sleep dt w1)))
      with (store w1).
    change (clock (emit (StatusChecked trackId) (sleep dt w1)))
      with (clock w1 + dt).
    rewrite Hget1. change (active track1) with (active track).
    rewrite Hact. cbn [negb].
    change (carrier_code track1) with (carrier_code track).
    change (flight_number track1) with (flight_number track).
    change (date track1) with (date track).
    replace (clock w1) with (clock w) by now rewrite Hw1.
    rewrite Hst'. cbn [truthy flight_status negb]. rewrite Hquiet.
    unfold updateFlightTrackCheckTime. rewrite Hget1.
    destruct (String.eqb_spec owner ""); [contradiction|].
    unfold set_store, emit, sleep. cbn [store events clock drawn].
    replace (clock w1) with (clock w) by now rewrite Hw1.
    replace (drawn w1) with (drawn w) by now rewrite Hw1.
    reflexivity. }
  split; [now rewrite Hw2|].
  rewrite Hw2. cbn [store]. rewrite user_track_update_track.
  rewrite decide_True by auto. now rewrite Htrack1.
Qed.

End QuietChecks.

(** ** The flight-data client *)

Section Airports.
Import Airline FlightAPI.
Local Open Scope list_scope.






End Airports.

Section AccessToken.
Import FlightAPI.

Variable post : nat -> TokenAnswer.

(** A token that has not expired is answered as it is. *)
Lemma token_reused c t e :
  token c = Some t -> t <> "" -> tokenExpiry c = Some e -> time c < e ->
  getAccessToken post c = (Ok (Some t), c).
Proof.
  intros Ht Hne He Hlt. unfold getAccessToken, token_valid.
  rewrite Ht, He.
  destruct (String.eqb_spec t ""); [contradiction|].
  destruct (Z.ltb_spec (time c) e); [reflexivity | lia].
Qed.

(** The four ways through the retry loop. *)
Lemma request_token_outcome c :
  (exists l1 t1 e1,
     post (posts c) = TokenIssued l1 t1 e1
     /\ request_token post maxRetries c
        = (Ok (Some t1),
           mkClient (Some t1)
             (Some (time c + l1 + (e1 - 300) * 1000)) (time c + l1)
             (S (posts c))))
  \/ (exists l1 m1 l2 t2 e2,
        post (posts c) = TokenRefused l1 m1
        /\ post (S (posts c)) = TokenIssued l2 t2 e2
        /\ request_token post maxRetries c
           = (Ok (Some t2),
              mkClient (Some t2)
                (Some (time c + l1 + 2000 + l2 + (e2 - 300) * 1000))
                (time c + l1 + 2000 + l2) (S (S (posts c)))))
  \/ (exists l1 m1 l2 m2 l3 t3 e3,
        post (posts c) = TokenRefused l1 m1
        /\ post (S (posts c)) = TokenRefused l2 m2
        /\ post (S (S (posts c))) = TokenIssued l3 t3 e3
        /\ request_token post maxRetries c
           = (Ok (Some t3),
              mkClient (Some t3)
                (Some (time c + l1 + 2000 + l2 + 4000 + l3
                       + (e3 - 300) * 1000))
                (time c + l1 + 2000 + l2 + 4000 + l3)
                (S (S (S (posts c))))))
  \/ (exists l1 m1 l2 m2 l3 m3,
        post (posts c) = TokenRefused l1 m1
        /\ post (S (posts c)) = TokenRefused l2 m2
        /\ post (S (S (posts c))) = TokenRefused l3 m3
        /\ request_token post maxRetries c
           = (Throw m3,
              mkClient (token c) (tokenExpiry c)
                (time c + l1 + 2000 + l2 + 4000 + l3)
                (S (S (S (posts c)))))).
Proof.
  unfold maxRetries. cbn [request_token].
  destruct (post (posts c)) as [l1 m1 | l1 t1 e1] eqn:E1.
  2: { left. exists l1, t1, e1. split; reflexivity. }
  right. cbn [posts Nat.sub Nat.leb maxRetries].
  destruct (post (S (posts c))) as [l2 m2 | l2 t2 e2] eqn:E2.
  2: { left. exists l1, m1, l2, t2, e2. repeat split; reflexivity. }
  right. cbn [posts Nat.sub Nat.leb maxRetries].
  destruct (post (S (S (posts c)))) as [l3 m3 | l3 t3 e3] eqn:E3.
  2: { left. exists l1, m1, l2, m2, l3, t3, e3. repeat split; reflexivity. }
  right. exists l1, m1, l2, m2, l3, m3. repeat split; reflexivity.
Qed.

(** X13.  A call of [getAccessToken] with a token that has not expired
    makes no request and answers that token.  Otherwise it makes at most
    three requests and stops at the first that succeeds; it throws exactly
    when three requests in a row are refused, having waited two and then
    four seconds in between.  A token it obtains is kept until
    [expires_in - 300] seconds after the answer came: a later call before
    that instant makes no request. *)
Theorem getAccessToken_caches_and_retries c :
  let r := getAccessToken post c in
  (token_valid c = true -> r = (Ok (token c), c))
  /\ (posts r.2 <= posts c + 3)%nat
  /\ (token_valid c = false ->
      (forall l1 m1 l2 m2 l3 m3,
         post (posts c) = TokenRefused l1 m1 ->
         post (S (posts c)) = TokenRefused l2 m2 ->
         post (S (S (posts c))) = TokenRefused l3 m3 ->
         r = (Throw m3,
              mkClient (token c) (tokenExpiry c)
                (time c + l1 + 2000 + l2 + 4000 + l3)
                (S (S (S (posts c))))))
      /\ (forall message, r.1 = Throw message ->
            exists l1 m1 l2 m2 l3,
              post (posts c) = TokenRefused l1 m1
              /\ post (S (posts c)) = TokenRefused l2 m2
              /\ post (S (S (posts c))) = TokenRefused l3 message))
  /\ (forall t, r.1 = Ok (Some t) ->
        token r.2 = Some t
        /\ (token_valid c = false ->
            exists latency expires_in,
              post (Nat.pred (posts r.2))
              = TokenIssued latency t expires_in
              /\ tokenExpiry r.2
                 = Some (time r.2 + (expires_in - 300) * 1000))
        /\ forall later e,
             t <> "" -> tokenExpiry r.2 = Some e -> later < e ->
             getAccessToken post
               (mkClient (token r.2) (tokenExpiry r.2) later (posts r.2))
             = (Ok (Some t),
                mkClient (token r.2) (tokenExpiry r.2) later (posts r.2))).
Proof.
  intros r.
  assert (Hreuse : forall t, token r.2 = Some t ->
            forall later e,
              t <> "" -> tokenExpiry r.2 = Some e -> later < e ->
              getAccessToken post
                (mkClient (token r.2) (tokenExpiry r.2) later (posts r.2))
              = (Ok (Some t),
                 mkClient (token r.2) (tokenExpiry r.2) later (posts r.2))).
  { intros t Ht later e Hne He Hlt. now apply (token_reused _ t e). }
  assert (Hr : r = if token_valid c then (Ok (token c), c)
                   else request_token post maxRetries c) by reflexivity.
  clearbody r.
  destruct (token_valid c) eqn:Hvalid.
  - subst r. split; [reflexivity|]. split; [cbn [snd]; lia|].
    split; [discriminate|].
    intros t Ht. cbn [fst] in Ht. injection Ht as Ht.
    split; [exact Ht|]. split; [discriminate|].
    now apply Hreuse.
  - split; [discriminate|].
    destruct (request_token_outcome c)
      as [(l1 & t1 & e1 & E1 & Hout)
         | [(l1 & m1 & l2 & t2 & e2 & E1 & E2 & Hout)
           | [(l1 & m1 & l2 & m2 & l3 & t3 & e3 & E1 & E2 & E3 & Hout)
             | (l1 & m1 & l2 & m2 & l3 & m3 & E1 & E2 & E3 & Hout)]]];
      rewrite Hout in Hr; subst r; cbn [fst snd posts token tokenExpiry
                                         time Nat.pred] in *.
    + split; [lia|]. split.
      * intros _. split.
        -- intros ? ? ? ? ? ? E. rewrite E1 in E. discriminate E.
        -- discriminate.
      * intros t [= <-]. split; [reflexivity|]. split.
        -- intros _. exists l1, e1. now split.
        -- now apply Hreuse.
    + split; [lia|]. split.
      * intros _. split.
        -- intros ? ? ? ? ? ? _ E. rewrite E2 in E. discriminate E.
        -- discriminate.
      * intros t [= <-]. split; [reflexivity|]. split.
        -- intros _. exists l2, e2. now split.
        -- now apply Hreuse.
    + split; [lia|]. split.
      * intros _. split.
        -- intros ? ? ? ? ? ? _ _ E. rewrite E3 in E. discriminate E.
        -- discriminate.
      * intros t [= <-]. split; [reflexivity|]. split.
        -- intros _. exists l3, e3. now split.
        -- now apply Hreuse.
    + split; [lia|]. split.
      * intros _. split.
        -- intros l1' m1' l2' m2' l3' m3' E1' E2' E3'.
           rewrite E1 in E1'. rewrite E2 in E2'. rewrite E3 in E3'.
           injection E1' as <- <-. injection E2' as <- <-.
           injection E3' as <- <-. reflexivity.
        -- intros message [= <-]. exists l1, m1, l2, m2, l3. auto.
      * discriminate.
Qed.

End AccessToken.

(** ** Splitting texts *)

Section Splitting.
Import JsArray Callbacks.
Local Open Scope list_scope.

Lemma plain_app a b : plain (a ++ b)%string = plain a && plain b.
Proof.
  unfold plain. induction a as [|c a IH]; [reflexivity|].
  change (String c a ++ b)%string with (String c (a ++ b)%string).
  simpl. now rewrite IH, andb_assoc.
Qed.

(** A separator found in a plain text is plain. *)
Lemma prefix_plain p s :
  String.prefix p s = true -> plain s = true -> plain p = true.
Proof.
  intros Hp Hs. apply prefix_spec in Hp as (rest & ->).
  rewrite plain_app in Hs. now apply andb_true_iff in Hs.
Qed.

(** A text without [_] is one piece for any separator that has one. *)
Lemma split_from_plain sep s :
  plain sep = false -> plain s = true ->
  forall piece, split_from sep 0 piece s = [(piece ++ s)%string].
Proof.
  intros Hsep. induction s as [|c s IH]; intros Hs piece.
  - simpl. now rewrite append_nil_r.
  - cbn [split_from].
    destruct (String.prefix sep (String c s)) eqn:Hp.
    + apply prefix_plain in Hp; [congruence | exact Hs].
    + rewrite IH.
      * now rewrite append_assoc.
      * unfold plain in *. simpl in Hs. now apply andb_true_iff in Hs.
Qed.

(** Up to the first [_]. *)
Lemma split_from_underscore s rest :
  plain s = true ->
  forall piece,
    split_from "_" 0 piece (s ++ String "_" rest)%string
    = (piece ++ s)%string :: split_from "_" 0 "" rest.
Proof.
  induction s as [|c s IH]; intros Hs piece.
  - change ("" ++ String "_" rest)%string with (String "_" rest).
    cbn [split_from]. rewrite append_nil_r.
    assert (H : String.prefix "_" (String "_" rest) = true)
      by (apply prefix_spec; now exists rest).
    now rewrite H.
  - change (String c s ++ String "_" rest)%string
      with (String c (s ++ String "_" rest)%string).
    cbn [split_from].
    assert (Hc : c <> "_"%char /\ plain s = true).
    { unfold plain in *. simpl in Hs. apply andb_true_iff in Hs as (H1 & H2).
      split; [|exact H2]. intros ->. discriminate H1. }
    destruct Hc as (Hc & Hs').
    assert (H : String.prefix "_" (String c (s ++ String "_" rest)) = false).
    { destruct (String.prefix "_" (String c (s ++ String "_" rest)))
        eqn:E; [|reflexivity].
      apply prefix_spec in E as (rest' & E).
      change ("_" ++ rest')%string with (String "_" rest') in E.
      injection E as E _. congruence. }
    rewrite H, IH by exact Hs'. now rewrite append_assoc.
Qed.

Lemma split_plain sep s :
  plain sep = false -> plain s = true -> split sep s = [s].
Proof. intros Hsep Hs. unfold split. now rewrite split_from_plain. Qed.

Lemma split_underscore s rest :
  plain s = true ->
  split "_" (s ++ String "_" rest)%string = s :: split "_" rest.
Proof.
  intros Hs. unfold split. now rewrite split_from_underscore.
Qed.

End Splitting.

(** ** Buttons and their payloads *)

Section Payloads.
Import JsArray Callbacks.
Local Open Scope list_scope.

Lemma prefix_app p s : String.prefix p (p ++ s)%string = true.
Proof. apply prefix_spec. now exists s. Qed.

(** X14.  The payload of a button that carries a document id comes back
    to the handler it was made for, with the id it was made from: a
    [cancel_flight_] payload goes to the cancellation of a tracked flight
    and never to that of a price alert, a [cancel_] payload to the
    cancellation of an alert, a [history_] payload to the price history.
    This holds for ids without an underscore (as the ids the store hands
    out are). *)
Theorem id_buttons_round_trip id :
  plain id = true ->
  route (cancel_flight_button id) = CancelFlightTrack (Some id)
  /\ route (history_button id) = SendPriceHistory (Some id)
  /\ route (cancel_button id) = CancelAlert (Some id).
Proof.
  intros Hid. repeat apply conj.
  - unfold route, cancel_flight_button. rewrite prefix_app.
    f_equal. unfold split.
    assert (H : String.prefix "cancel_flight_"
                  (String "c" ("ancel_flight_" ++ id)%string) = true)
      by exact (prefix_app "cancel_flight_" id).
    change ("cancel_flight_" ++ id)%string
      with (String "c" ("ancel_flight_" ++ id)%string).
    cbn [split_from]. rewrite H.
    cbv [append String.length Nat.sub].
    cbn [split_from].
    now rewrite split_from_plain.
  - unfold route, history_button.
    change ("history_" ++ id)%string
      with (String "h" ("istory_" ++ id)%string) at 1.
    cbn [String.prefix]. rewrite prefix_app. f_equal.
    change ("history_" ++ id)%string
      with ("history" ++ String "_" id)%string.
    rewrite split_underscore by reflexivity.
    now rewrite split_plain.
  - unfold route, cancel_button.
    assert (H1 : String.prefix "cancel_flight_" ("cancel_" ++ id)%string
                 = false).
    { destruct (String.prefix "cancel_flight_" ("cancel_" ++ id)%string)
        eqn:E; [|reflexivity].
      apply prefix_spec in E as (rest & E).
      change ("cancel_flight_" ++ rest)%string
        with ("cancel_" ++ ("flight_" ++ rest))%string in E.
      apply String.app_inj in E. subst id.
      rewrite plain_app in Hid. discriminate Hid. }
    rewrite H1.
    change ("cancel_" ++ id)%string
      with (String "c" ("ancel_" ++ id)%string) at 1 2.
    cbn [String.prefix]. rewrite prefix_app. f_equal.
    change ("cancel_" ++ id)%string with ("cancel" ++ String "_" id)%string.
    rewrite split_underscore by reflexivity.
    now rewrite split_plain.
Qed.

(** X15.  The payload of the button under a search result comes back as
    the search it was made from: origin, destination, departure date, and
    the return date when there is one (a missing or empty return date
    comes back as none).  This holds when none of the four contains an
    underscore. *)
Theorem track_button_round_trip origin destination departure_date
    return_date :
  plain origin = true -> plain destination = true ->
  plain departure_date = true ->
  plain (default "" return_date) = true ->
  route (track_button origin destination departure_date return_date)
  = SetupDirectTracking (Some origin) (Some destination)
      (Some departure_date) (Database.or_null return_date).
Proof.
  intros Ho Hd Hdep Hret. unfold route, track_button.
  set (tail := match Database.or_null return_date with
               | Some r => ("_" ++ r)%string
               | None => ""
               end).
  assert (H1 : String.prefix "cancel_flight_"
                 ("track_" ++ origin ++ "_" ++ destination ++ "_"
                  ++ departure_date ++ tail)%string = false)
    by reflexivity.
  assert (H2 : String.prefix "history_"
                 ("track_" ++ origin ++ "_" ++ destination ++ "_"
                  ++ departure_date ++ tail)%string = false)
    by reflexivity.
  rewrite H1, H2, prefix_app.
  change ("track_" ++ origin ++ "_" ++ destination ++ "_"
          ++ departure_date ++ tail)%string
    with ("track" ++ String "_"
            (origin ++ String "_"
               (destination ++ String "_" (departure_date ++ tail))))%string.
  rewrite !split_underscore by (assumption || reflexivity).
  unfold tail, Database.or_null.
  destruct return_date as [r|]; simpl in Hret.
  - destruct (String.eqb_spec r "") as [->|Hne].
    + rewrite append_nil_r, split_plain by (assumption || reflexivity).
      reflexivity.
    + change (departure_date ++ "_" ++ r)%string
        with (departure_date ++ String "_" r)%string.
      rewrite split_underscore, split_plain
        by (assumption || reflexivity).
      reflexivity.
  - rewrite append_nil_r, split_plain by (assumption || reflexivity).
    reflexivity.
Qed.

End Payloads.

(** ** Dates typed by the user *)

Section TypedDates.
Import JsArray Dates.
Local Open Scope list_scope.

Lemma digit_not c l :
  is_digit c = true -> is_digit l = false -> c <> l.
Proof. intros Hc Hl ->. congruence. Qed.

(** A digit in front of a one-character separator is read into the
    piece. *)
Lemma split_from_digit sep piece c rest :
  is_digit c = true -> is_digit sep = false ->
  split_from (String sep "") 0 piece (String c rest)
  = split_from (String sep "") 0 (piece ++ String c "")%string rest.
Proof.
  intros Hc Hsep. cbn [split_from].
  destruct (String.prefix (String sep "") (String c rest)) eqn:E;
    [|reflexivity].
  apply prefix_spec in E as (rest' & E).
  change (String sep "" ++ rest')%string with (String sep rest') in E.
  injection E as E _. exfalso. now apply (digit_not c sep).
Qed.

Lemma split_from_separator sep piece rest :
  split_from (String sep "") 0 piece (String sep rest)
  = piece :: split_from (String sep "") 0 "" rest.
Proof.
  cbn [split_from].
  assert (H : String.prefix (String sep "") (String sep rest) = true)
    by (apply prefix_spec; now exists rest).
  now rewrite H.
Qed.

(** X16.  [formatDate] reads a date that starts with the day as day,
    month, year, whether written with hyphens or slashes, puts a
    two-digit year into the 2000s, and leaves a date that starts with a
    four-digit year as it is. *)
Theorem formatDate_reads_day_first d1 d2 m1 m2 y1 y2 y3 y4 :
  is_digit d1 = true -> is_digit d2 = true ->
  is_digit m1 = true -> is_digit m2 = true ->
  is_digit y1 = true -> is_digit y2 = true ->
  is_digit y3 = true -> is_digit y4 = true ->
  let iso :=
    string_of_list_ascii
      [y1; y2; y3; y4; "-"; m1; m2; "-"; d1; d2]%char in
  formatDate (string_of_list_ascii
                [d1; d2; "-"; m1; m2; "-"; y1; y2; y3; y4]%char)
  = Some iso
  /\ formatDate (string_of_list_ascii
                   [d1; d2; "/"; m1; m2; "/"; y1; y2; y3; y4]%char)
     = Some iso
  /\ formatDate (string_of_list_ascii
                   [d1; d2; "-"; m1; m2; "-"; y3; y4]%char)
     = Some (string_of_list_ascii
               ["2"; "0"; y3; y4; "-"; m1; m2; "-"; d1; d2]%char)
  /\ formatDate iso = Some iso.
Proof.
  intros Hd1 Hd2 Hm1 Hm2 Hy1 Hy2 Hy3 Hy4 iso.
  assert (Hh : forall c, is_digit c = true -> Ascii.eqb "-" c = false).
  { intros c Hc. apply Ascii.eqb_neq. intros <-. discriminate Hc. }
  assert (Hs : forall c, is_digit c = true -> Ascii.eqb "/" c = false).
  { intros c Hc. apply Ascii.eqb_neq. intros <-. discriminate Hc. }
  repeat apply conj; unfold formatDate, iso;
    cbn [string_of_list_ascii test year_first short_year day_first slashed];
    change (is_digit "-") with false; change (is_digit "/") with false;
    change (Ascii.eqb "-" "-") with true;
    change (Ascii.eqb "/" "/") with true;
    change (Ascii.eqb "-" "/") with false;
    rewrite ?Hd1, ?Hd2, ?Hm1, ?Hm2, ?Hy1, ?Hy2, ?Hy3, ?Hy4,
      ?(Hh m1 Hm1), ?(Hh y1 Hy1), ?(Hh y3 Hy3), ?(Hs m1 Hm1),
      ?(Hs y1 Hy1), ?(Hs y3 Hy3);
    cbn [andb]; unfold split;
    rewrite ?split_from_digit, ?split_from_separator
      by (assumption || reflexivity);
    rewrite ?split_from_digit, ?split_from_separator
      by (assumption || reflexivity);
    rewrite ?split_from_digit, ?split_from_separator
      by (assumption || reflexivity);
    reflexivity.
Qed.

Lemma test_digit_inv p s :
  test (Digit :: p) s = true ->
  exists c rest, s = String c rest /\ is_digit c = true
                 /\ test p rest = true.
Proof.
  destruct s as [|c rest]; simpl; [discriminate|].
  intros H. apply andb_true_iff in H as (H1 & H2). eauto.
Qed.

Lemma test_lit_inv l p s :
  test (Lit l :: p) s = true ->
  exists rest, s = String l rest /\ test p rest = true.
Proof.
  destruct s as [|c rest]; simpl; [discriminate|].
  intros H. apply andb_true_iff in H as (H1 & H2).
  apply Ascii.eqb_eq in H1 as <-. eauto.
Qed.

Lemma test_nil_inv s : test [] s = true -> s = "".
Proof. now destruct s. Qed.

(** X17.  Whatever [formatDate] accepts it turns into a date of the form
    [YYYY-MM-DD]: ten characters, digits but for the two hyphens.  Such a
    date is left as it is, so formatting twice changes nothing. *)
Theorem formatDate_gives_year_first dateStr formatted :
  formatDate dateStr = Some formatted ->
  test year_first formatted = true
  /\ String.length formatted = 10%nat
  /\ formatDate formatted = Some formatted.
Proof.
  intros H.
  assert (Hiso : test year_first formatted = true).
  { unfold formatDate in H.
    destruct (test year_first dateStr) eqn:E1; [now injection H as <-|].
    destruct (test short_year dateStr) eqn:E2;
      [|destruct (test day_first dateStr) eqn:E3;
        [|destruct (test slashed dateStr) eqn:E4; [|discriminate]]];
      injection H as <-;
      unfold short_year, day_first, slashed in *;
      repeat match goal with
             | E : test (Digit :: _) _ = true |- _ =>
                 let c := fresh "c" in
                 let rest := fresh "rest" in
                 let Hc := fresh "Hc" in
                 apply test_digit_inv in E as (c & rest & -> & Hc & E)
             | E : test (Lit _ :: _) _ = true |- _ =>
                 let rest := fresh "rest" in
                 apply test_lit_inv in E as (rest & -> & E)
             | E : test [] _ = true |- _ =>
                 apply test_nil_inv in E; subst
             end;
      unfold split;
      rewrite ?split_from_digit, ?split_from_separator
        by (assumption || reflexivity);
      rewrite ?split_from_digit, ?split_from_separator
        by (assumption || reflexivity);
      rewrite ?split_from_digit, ?split_from_separator
        by (assumption || reflexivity);
      cbn [split_from];
      cbv [part default lookup list_lookup append id];
      cbn [test year_first];
      change (is_digit "2") with true; change (is_digit "0") with true;
      change (Ascii.eqb "-" "-") with true;
      repeat match goal with
             | Hc : is_digit ?c = true |- context [is_digit ?c] =>
                 rewrite Hc
             end;
      reflexivity. }
  split; [exact Hiso|]. split.
  - unfold year_first in Hiso.
    repeat match goal with
           | E : test (Digit :: _) _ = true |- _ =>
               let c := fresh "c" in
               let rest := fresh "rest" in
               let Hc := fresh "Hc" in
               apply test_digit_inv in E as (c & rest & -> & Hc & E)
           | E : test (Lit _ :: _) _ = true |- _ =>
               let rest := fresh "rest" in
               apply test_lit_inv in E as (rest & -> & E)
           | E : test [] _ = true |- _ =>
               apply test_nil_inv in E; subst
           end.
    reflexivity.
  - unfold formatDate. now rewrite Hiso.
Qed.

End TypedDates.

(** ** Search results and tracking from a search result *)

Section SearchResults.
Import JsArray Database PriceMonitor Bot.
Local Open Scope list_scope.

Lemma cheaper_first_total a b :
  cheaper_first a b = true \/ cheaper_first b a = true.
Proof.
  unfold cheaper_first.
  destruct (Qle_bool (price a) (price b)) eqn:E; [auto|]. right.
  reflect_Q. apply Qle_bool_iff. lra.
Qed.

Lemma cheaper_first_trans a b c :
  cheaper_first a b = true -> cheaper_first b c = true ->
  cheaper_first a c = true.
Proof.
  unfold cheaper_first. rewrite !Qle_bool_iff. intros. lra.
Qed.

Lemma head_sort_cons x l :
  head (sort cheaper_first (x :: l))
  = Some match head (sort cheaper_first l) with
         | None => x
         | Some m => if Qle_bool (price x) (price m) then x else m
         end.
Proof.
  simpl. destruct (sort cheaper_first l) as [|m t]; simpl; [reflexivity|].
  unfold cheaper_first. now destruct (Qle_bool (price x) (price m)).
Qed.

(** The [forEach] and the sort agree on the cheapest offer: the first of
    least price. *)
Lemma cheapest_is_head_of_sort l :
  forall x,
    fold_left
      (fun (best : Offer * Q) (flight : Offer) =>
         if Js.Qlt_bool (price flight) best.2 then (flight, price flight)
         else best) l (x, price x)
    = let b := match head (sort cheaper_first l) with
               | None => x
               | Some m => if Qle_bool (price x) (price m) then x else m
               end in
      (b, price b).
Proof.
  induction l as [|y l IH]; intros x; [reflexivity|].
  cbn [fold_left]. rewrite head_sort_cons. cbn [snd].
  destruct (Js.Qlt_bool (price y) (price x)) eqn:E; rewrite IH; cbv zeta;
    destruct (head (sort cheaper_first l)) as [m|]; reflect_Q.
  - destruct (Qle_bool (price y) (price m)) eqn:E2; reflect_Q.
    + destruct (Qle_bool (price x) (price y)) eqn:E3; reflect_Q;
        [lra | reflexivity].
    + destruct (Qle_bool (price x) (price m)) eqn:E3; reflect_Q;
        [lra | reflexivity].
  - destruct (Qle_bool (price x) (price y)) eqn:E3; reflect_Q;
      [lra | reflexivity].
  - destruct (Qle_bool (price y) (price m)) eqn:E2; reflect_Q.
    + destruct (Qle_bool (price x) (price y)) eqn:E3; reflect_Q; [|lra].
      destruct (Qle_bool (price x) (price m)) eqn:E4; reflect_Q;
        [reflexivity | lra].
    + reflexivity.
  - destruct (Qle_bool (price x) (price y)) eqn:E3; reflect_Q;
      [reflexivity | lra].
Qed.

(** X18.  In the results of a search the offer named as the most
    affordable is the one that heads the list of the five cheapest; no
    offer found is cheaper; the list is in order of price, has five
    offers or all of them when fewer were found, and holds offers that
    were found only. *)
Theorem most_affordable_heads_the_top_five origin destination
    departure_date return_date first rest :
  exists results,
    search_results origin destination departure_date return_date
      (first :: rest) = Some results
    /\ found results = S (length rest)
    /\ head (topFlights results) = Some (cheapestFlight results)
    /\ Forall (fun f => (price (cheapestFlight results) <= price f)%Q)
         (first :: rest)
    /\ StronglySorted (fun a b => (price a <= price b)%Q)
         (topFlights results)
    /\ length (topFlights results) = Nat.min 5 (S (length rest))
    /\ (forall f, f ∈ topFlights results -> In f (first :: rest)).
Proof.
  eexists. split; [reflexivity|]. cbn [found cheapestFlight topFlights].
  split; [reflexivity|].
  assert (Hsorted : StronglySorted (fun a b => (price a <= price b)%Q)
                      (sort cheaper_first (first :: rest))).
  { eapply StronglySorted_weaken;
      [|apply sort_StronglySorted;
        [apply cheaper_first_total | apply cheaper_first_trans]].
    intros a b H. now apply Qle_bool_iff. }
  assert (Htake : slice0 5 (sort cheaper_first (first :: rest))
                  = take 5 (sort cheaper_first (first :: rest)))
    by reflexivity.
  rewrite Htake.
  repeat apply conj.
  - unfold cheapest. cbn [fold_left snd].
    replace (Js.Qlt_bool (price first) (price first)) with false
      by (symmetry; apply Qlt_bool_false; apply Qle_refl).
    rewrite cheapest_is_head_of_sort. cbv zeta. cbn [fst].
    rewrite <- head_sort_cons.
    destruct (sort cheaper_first (first :: rest)); reflexivity.
  - destruct (cheapest first (first :: rest)) as [f p] eqn:E.
    apply cheapest_spec in E as (-> & _ & Hall). exact Hall.
  - rewrite <- (take_drop 5 (sort cheaper_first (first :: rest)))
      in Hsorted.
    now apply StronglySorted_app in Hsorted as (_ & H & _).
  - rewrite length_take.
    rewrite (Permutation_length (sort_Permutation cheaper_first _)).
    reflexivity.
  - intros f Hf. apply elem_of_take in Hf as (i & Hi & _).
    apply list_elem_of_lookup_2 in Hi. apply elem_of_sort in Hi.
    now apply list_elem_of_In.
Qed.

End SearchResults.

Section DirectTracking.
Import Database PriceMonitor Bot.
Local Open Scope list_scope.

Variable searchFlights later :
  string -> string -> string -> option string -> SearchOutcome.
Variable autoId : nat -> string.

(** X19.  Tracking started from a search result reports every change of
    price: the alert it creates has target zero and the cheapest price
    found as its current price, so the check that follows sends a
    notification exactly when the cheapest price then differs from that
    one -- as a drop when it is lower, as an increase when it is higher.
    Prices are positive; the id drawn for the alert is not in use. *)
Theorem direct_tracking_reports_every_change chatId userId origin
    destination departureDate returnDate first rest first' rest' w :
  (forall uid, user_alert (store w) uid (autoId (drawn w)) = None) ->
  searchFlights origin destination departureDate returnDate
  = SearchReturns (Some (first :: rest)) ->
  later origin destination departureDate returnDate
  = SearchReturns (Some (first' :: rest')) ->
  Forall (fun f => (0 < price f)%Q) (first :: rest) ->
  Forall (fun f => (0 < price f)%Q) (first' :: rest') ->
  let alertId := autoId (drawn w) in
  let started :=
    setupDirectTracking searchFlights autoId chatId userId origin
      destination departureDate returnDate w in
  let w2 := checkSingleAlert later alertId started.2 in
  exists before flight,
    started.1 = TrackingEnabled alertId (price before)
    /\ In before (first :: rest)
    /\ Forall (fun f => (price before <= price f)%Q) (first :: rest)
    /\ events started.2
       = events w ++ [MessageSent chatId "tracking enabled";
                      CheckScheduled alertId 5000]
    /\ In flight (first' :: rest')
    /\ Forall (fun f => (price flight <= price f)%Q) (first' :: rest')
    /\ events w2
       = events started.2
         ++ (if Qeq_bool (price flight) (price before) then []
             else [PriceAlertSent userId alertId
                     (Some (if Js.Qlt_bool (price flight) (price before)
                            then price_drop else price_increase))
                     flight (Some (price before))]).
Proof.
  intros Hfresh Hsearch Hlater Hpos Hpos' alertId. subst alertId.
  cbv zeta. unfold setupDirectTracking. rewrite Hsearch.
  destruct (cheapest first (first :: rest)) as [before p0] eqn:Hc.
  apply cheapest_spec in Hc as (-> & Hin & Hall).
  cbn [snd] in *.
  set (data := mkAlertData userId origin destination departureDate
                 returnDate 0 (Some (price before))
                 (Some (FlightAPI.generateBookingUrl origin destination
                          departureDate returnDate))) in *.
  pose proof (getAlert_createAlert (store w) (autoId (drawn w)) data
                (clock w) Hfresh) as Hget.
  destruct (createAlert (store w) (autoId (drawn w)) data (clock w))
    as [id db] eqn:Hcreate.
  assert (Hid : id = autoId (drawn w)) by (now injection Hcreate as <- _).
  subst id. cbn [fst snd] in *.
  set (alertId := autoId (drawn w)) in *.
  assert (Hbefore : (0 < price before)%Q).
  { rewrite Forall_forall in Hpos. apply Hpos. now apply list_elem_of_In. }
  assert (E0 : Qeq_bool (price before) 0 = false)
    by (apply Qeq_bool_false; lra).
  assert (Hcur : price_or_null (Some (price before))
                 = Some (price before)).
  { unfold price_or_null. simpl. now rewrite E0. }
  unfold data in Hget. cbn [ad_userId ad_origin ad_destination
    ad_departure_date ad_return_date ad_min_price ad_current_price
    ad_bookingUrl] in Hget. rewrite Hcur in Hget.
  set (alert := mkAlert alertId origin destination departureDate
                  returnDate 0 (Some (price before)) None true None
                  (or_null (Some (FlightAPI.generateBookingUrl origin
                                    destination departureDate
                                    returnDate)))) in *.
  set (w1 := emit (CheckScheduled alertId 5000)
               (emit (MessageSent chatId "tracking enabled")
                  (mkWorld db (events w) (clock w) (S (drawn w))))) in *.
  assert (Hget1 : getAlert (store w1) alertId None = Some (userId, alert))
    by exact Hget.
  destruct (checkSingleAlert_success later w1 alertId userId alert
              first' rest' Hget1 Hlater) as (flight & Hin' & Hall' & Hw2).
  exists before, flight.
  split; [reflexivity|]. split; [exact Hin|]. split; [exact Hall|].
  split; [unfold w1, emit; simpl; now rewrite <- app_assoc|].
  split; [exact Hin'|]. split; [exact Hall'|].
  rewrite Hw2. cbv zeta.
  assert (Hflight : (0 < price flight)%Q).
  { rewrite Forall_forall in Hpos'. apply Hpos'.
    now apply list_elem_of_In. }
  unfold shouldNotifyUser. cbn [min_price current_price alert].
  unfold Js.truthy_price, Js.strict_neq, Js.ToNumber.
  rewrite E0. change (Qeq_bool 0 0) with true. cbn [andb negb].
  destruct (Qeq_bool (price flight) (price before)) eqn:E; cbn [negb].
  - apply Qeq_bool_iff in E.
    assert (E1 : Qle_bool (price flight) 0 = false)
      by (apply Qle_bool_false; lra).
    assert (E2 : Js.Qlt_bool (price flight) (price before) = false)
      by (apply Qlt_bool_false; lra).
    rewrite E1, E2. cbn [andb negb notify no]. now rewrite app_nil_r.
  - cbn [notify yes notify_reason]. unfold sendPriceAlert, emit.
    reflexivity.
Qed.

End DirectTracking.

(** ** Showing the price history *)

Section ShownHistory.
Import Database PriceMonitor.
Local Open Scope list_scope.

Lemma Math_min_fold l :
  forall x,
    let lo := fold_left Js.Math_min l x in
    (lo = x \/ In lo l) /\ (lo <= x)%Q /\ Forall (fun y => (lo <= y)%Q) l.
Proof.
  induction l as [|y l IH]; intros x; simpl.
  - split; [now left|]. split; [apply Qle_refl | constructor].
  - destruct (IH (Js.Math_min x y)) as (Hin & Hle & Hall).
    assert (Hm : (Js.Math_min x y = x \/ Js.Math_min x y = y)
                 /\ (Js.Math_min x y <= x)%Q /\ (Js.Math_min x y <= y)%Q).
    { unfold Js.Math_min. destruct (Qle_bool x y) eqn:E; reflect_Q.
      - split; [now left|]. split; [apply Qle_refl | exact E].
      - split; [now right|]. split; [lra | apply Qle_refl]. }
    destruct Hm as (Hor & Hx & Hy).
    split; [|split].
    + destruct Hin as [-> | Hin]; [|auto].
      destruct Hor as [-> | ->]; auto.
    + eapply Qle_trans; eauto.
    + constructor; [eapply Qle_trans; eauto | exact Hall].
Qed.

Lemma Math_max_fold l :
  forall x,
    let hi := fold_left Math_max l x in
    (hi = x \/ In hi l) /\ (x <= hi)%Q /\ Forall (fun y => (y <= hi)%Q) l.
Proof.
  induction l as [|y l IH]; intros x; simpl.
  - split; [now left|]. split; [apply Qle_refl | constructor].
  - destruct (IH (Math_max x y)) as (Hin & Hle & Hall).
    assert (Hm : (Math_max x y = x \/ Math_max x y = y)
                 /\ (x <= Math_max x y)%Q /\ (y <= Math_max x y)%Q).
    { unfold Math_max. destruct (Qle_bool x y) eqn:E; reflect_Q.
      - split; [now right|]. split; [exact E | apply Qle_refl].
      - split; [now left|]. split; [apply Qle_refl | lra]. }
    destruct Hm as (Hor & Hx & Hy).
    split; [|split].
    + destruct Hin as [-> | Hin]; [|auto].
      destruct Hor as [-> | ->]; auto.
    + eapply Qle_trans; eauto.
    + constructor; [eapply Qle_trans; eauto | exact Hall].
Qed.

(** X20.  The price history of an alert is shown only to a user who holds
    the alert: anybody else is told that access is denied.  What is shown
    are the entries [getPriceHistory] answers with for that user and
    alert, ten at most, with the lowest and the highest of their prices,
    each of them the price of an entry shown, and the alert's target. *)
Theorem price_history_goes_to_the_holder_only db alertId userId :
  (user_alert db userId alertId = None ->
   sendPriceHistory db alertId userId = AccessDenied)
  /\ match sendPriceHistory db alertId userId with
     | AccessDenied => True
     | NoHistoryYet =>
         is_Some (user_alert db userId alertId)
         /\ getPriceHistory db userId alertId 10 = []
     | PriceHistory entries minPrice maxPrice avgPrice target =>
         (exists a, user_alert db userId alertId = Some a
                    /\ min_price a = target)
         /\ entries = getPriceHistory db userId alertId 10
         /\ (0 < length entries <= 10)%nat
         /\ Forall (fun h => (minPrice <= history_price h <= maxPrice)%Q)
              entries
         /\ (exists h, h ∈ entries /\ history_price h = minPrice)
         /\ (exists h, h ∈ entries /\ history_price h = maxPrice)
     end.
Proof.
  unfold sendPriceHistory.
  destruct (getAlert db alertId None) as [[owner alert]|] eqn:Hget;
    [|split; [reflexivity | exact I]].
  apply getAlert_owner in Hget as (a & _ & -> & Ha).
  destruct (String.eqb_spec owner userId) as [->|Hne]; simpl.
  2: { split; [reflexivity | exact I]. }
  split; [intros Hnone; congruence|].
  destruct (getPriceHistory db userId alertId 10) as [|h more] eqn:Hh.
  - split; [eauto | reflexivity].
  - split; [exists a; now split|]. split; [reflexivity|].
    split.
    + pose proof (getPriceHistory_at_most_ten db userId alertId)
        as Hlen.
      rewrite Hh in Hlen. simpl in *. lia.
    + destruct (Math_min_fold (map history_price more) (history_price h))
        as (Hlo_in & Hlo_x & Hlo_all).
      destruct (Math_max_fold (map history_price more) (history_price h))
        as (Hhi_in & Hhi_x & Hhi_all).
      cbv zeta in *.
      set (lo := fold_left Js.Math_min (map history_price more)
                   (history_price h)) in *.
      set (hi := fold_left Math_max (map history_price more)
                   (history_price h)) in *.
      split; [|split].
      * constructor; [split; assumption|].
        rewrite Forall_forall in Hlo_all, Hhi_all. apply Forall_forall.
        intros x Hx. split.
        -- apply Hlo_all. apply list_elem_of_In, in_map.
           now apply list_elem_of_In.
        -- apply Hhi_all. apply list_elem_of_In, in_map.
           now apply list_elem_of_In.
      * destruct Hlo_in as [Heq | Hin].
        -- exists h. split; [now left | now rewrite Heq].
        -- apply in_map_iff in Hin as (x & Hx & Hin).
           exists x. split; [right; now apply list_elem_of_In | exact Hx].
      * destruct Hhi_in as [Heq | Hin].
        -- exists h. split; [now left | now rewrite Heq].
        -- apply in_map_iff in Hin as (x & Hx & Hin).
           exists x. split; [right; now apply list_elem_of_In | exact Hx].
Qed.

End ShownHistory.

(** ** The conversation started by [/track] *)

Section TrackConversation.
Import Database Dates Conversation.



End TrackConversation.

(** ** After a cancellation *)

Section AfterCancellation.
Import Json FlightTracker Database.
Local Open Scope list_scope.

Variable Date_parse : string -> option Z.
Variable toISOString : Z -> string.
Variable schedule : Z -> string -> string -> string -> ScheduleResponse.

(** X22.  A flight track cancelled by its owner is out of the periodic
    check: the check that follows leaves the document as the cancellation
    left it and sends the owner no update about that track.  The owner's
    documents are filed under the track id they carry. *)
Theorem cancelled_track_gets_no_more_updates w trackId userId t now :
  user_track (store w) userId trackId = Some t ->
  (forall id t', user_track (store w) userId id = Some t' ->
     track_id t' = id) ->
  let cancelled := cancelFlightTrack (store w) trackId userId now in
  let w' := checkAllTrackedFlights Date_parse toISOString schedule
              (set_store cancelled.2 w) in
  cancelled.1 = true
  /\ user_track (store w') userId trackId = Some (with_cancelled now t)
  /\ active (with_cancelled now t) = false
  /\ exists new,
       events w' = events w ++ new
       /\ forall st, StatusUpdateSent userId trackId st ∉ new.
Proof.
  intros Ht Hfiled cancelled w'.
  assert (Hc : cancelled
               = (true, update_track userId trackId (with_cancelled now)
                          (store w))).
  { unfold cancelled, cancelFlightTrack. now rewrite Ht. }
  subst w'. rewrite Hc. cbn [fst snd].
  set (w1 := set_store (update_track userId trackId (with_cancelled now)
                          (store w)) w) in *.
  assert (Ht1 : user_track (store w1) userId trackId
                = Some (with_cancelled now t)).
  { unfold w1. cbn [store set_store]. rewrite user_track_update_track.
    rewrite decide_True by auto. now rewrite Ht. }
  assert (Hfiled1 : forall id t', user_track (store w1) userId id = Some t'
                      -> track_id t' = id).
  { intros id t'. unfold w1. cbn [store set_store].
    rewrite user_track_update_track.
    destruct (decide (userId = userId /\ trackId = id)) as [[_ <-]|Hne].
    - rewrite Ht. intros [= <-]. cbn. now apply Hfiled.
    - apply Hfiled. }
  destruct (check_tracks_effect Date_parse toISOString schedule
              (map (fun p : string * FlightTrack => track_id p.2)
                   (getAllActiveFlightTracks Date_parse (store w1))) w1)
    as (Hkeep & _ & _ & new & He & Hnew & _).
  fold (checkAllTrackedFlights Date_parse toISOString schedule w1) in *.
  split; [reflexivity|]. split; [|split; [reflexivity|]].
  - specialize (Hkeep userId trackId). rewrite Ht1 in Hkeep.
    destruct Hkeep as [H | (Hact & _)]; [exact H | discriminate Hact].
  - exists new. split; [exact He|]. intros st Hin.
    destruct (Hnew _ Hin)
      as [(id & _ & Heq) | (owner & id & t0 & st0 & Heq & Ht0 & Hact)];
      [discriminate Heq|].
    injection Heq as <- Hid <-.
    pose proof (Hfiled1 id t0 Ht0) as Hdoc. rewrite <- Hid in Hdoc.
    subst id. rewrite Ht1 in Ht0. injection Ht0 as <-.
    discriminate Hact.
Qed.

End AfterCancellation.

Section ActiveAlerts.
Import Database.
Local Open Scope list_scope.

(** X23.  [getActiveAlerts] lists, under owner and document id, exactly
    the alerts that are active and have been checked before -- as many
    rows as there are such documents -- the least recently checked
    first; an alert its owner has cancelled is not listed any more. *)
Theorem getActiveAlerts_lists_the_stalest_first db :
  (forall uid a,
     (uid, a) ∈ getActiveAlerts db
     <-> exists id a0,
           user_alert db uid id = Some a0 /\ a = with_alert_id id a0
           /\ is_active a0 = true /\ is_Some (last_checked a0))
  /\ StronglySorted
       (fun x y : string * PriceAlert =>
          default 0 (last_checked x.2) <= default 0 (last_checked y.2))
       (getActiveAlerts db)
  /\ getActiveAlerts db
     ≡ₚ filter (fun p : string * PriceAlert =>
                  is_active p.2 = true /\ is_Some (last_checked p.2))
               (all_alerts db)
  /\ forall alertId owner a0,
       user_alert db owner alertId = Some a0 ->
       forall a, (owner, a) ∈ getActiveAlerts (cancelAlert db alertId
                                                 owner).2 ->
                 alert_id a <> alertId.
Proof.
  assert (Hmem : forall db uid a,
            (uid, a) ∈ getActiveAlerts db
            <-> exists id a0,
                  user_alert db uid id = Some a0 /\ a = with_alert_id id a0
                  /\ is_active a0 = true /\ is_Some (last_checked a0)).
  { intros db0 uid a. unfold getActiveAlerts.
    rewrite merge_sort_Permutation, list_elem_of_filter,
      elem_of_all_alerts. cbn [snd]. split.
    - intros ((Hact & Hchecked) & id & a0 & Hget & ->). eauto 10.
    - intros (id & a0 & Hget & -> & Hact & Hchecked). eauto 10. }
  split; [exact (Hmem db)|]. split; [|split].
  - unfold getActiveAlerts. apply StronglySorted_merge_sort.
    + intros x y z. unfold staler. lia.
    + intros x y. unfold staler. lia.
  - unfold getActiveAlerts. apply merge_sort_Permutation.
  - intros alertId owner a0 Hget a Hin Hid.
    apply Hmem in Hin as (id & a1 & Hget1 & -> & Hact & _).
    cbn in Hid. subst id.
    unfold cancelAlert in Hget1. rewrite Hget in Hget1. cbn [snd] in Hget1.
    rewrite user_alert_update_alert in Hget1.
    rewrite decide_True in Hget1 by auto. rewrite Hget in Hget1.
    injection Hget1 as <-. discriminate Hact.
Qed.

End ActiveAlerts.

(** ** Worked examples *)

Section MoreExamples.
Import Database Examples.
Local Open Scope list_scope.

Lemma user_alert_db2 uid id a :
  user_alert db2 uid id = Some a -> uid = "7" /\ id = "a1".
Proof.
  unfold user_alert, db2.
  destruct (decide (uid = "7")) as [->|Hu].
  - rewrite lookup_insert_eq. simpl.
    destruct (decide (id = "a1")) as [->|Hi]; [auto|].
    rewrite lookup_singleton_ne by congruence. discriminate.
  - rewrite lookup_insert_ne by congruence.
    destruct (decide (uid = "8")) as [->|Hu'].
    + rewrite lookup_singleton_eq. simpl. rewrite lookup_empty. discriminate.
    + rewrite lookup_singleton_ne by congruence. discriminate.
Qed.

Lemma user_alert_db2_fresh id uid :
  id <> "a1" -> user_alert db2 uid id = None.
Proof.
  intros Hne. destruct (user_alert db2 uid id) as [a|] eqn:E; [|reflexivity].
  apply user_alert_db2 in E as (_ & ->). contradiction.
Qed.

Lemma user_track_db2_other uid :
  uid <> "7" -> user_track db2 uid "t1" = None.
Proof.
  intros Hu. unfold user_track, db2.
  rewrite lookup_insert_ne by congruence.
  destruct (decide (uid = "8")) as [->|Hu'].
  - rewrite lookup_singleton_eq. simpl. apply lookup_empty.
  - now rewrite lookup_singleton_ne by congruence.
Qed.

Lemma user_track_db2 uid id t :
  user_track db2 uid id = Some t -> track_id t = id.
Proof.
  unfold user_track, db2.
  destruct (decide (uid = "7")) as [->|Hu].
  - rewrite lookup_insert_eq. simpl.
    destruct (decide (id = "t1")) as [->|Hi].
    + rewrite lookup_singleton_eq. now intros [= <-].
    + rewrite lookup_singleton_ne by congruence. discriminate.
  - rewrite lookup_insert_ne by congruence.
    destruct (decide (uid = "8")) as [->|Hu'].
    + rewrite lookup_singleton_eq. simpl. rewrite lookup_empty. discriminate.
    + rewrite lookup_singleton_ne by congruence. discriminate.
Qed.

End MoreExamples.

(** User [8] asks for a first alert, which gets the id [a2]. *)
Lemma createAlert_then_getAlert_witness :
  (forall uid, Database.user_alert Examples.db2 uid "a2" = None)
  /\ Database.getAlert
       (Database.createAlert Examples.db2 "a2" Examples.alert_request
          2000).2 "a2" None
     = Some ("8", mkAlert "a2" "DEL" "BOM" "2030-02-01" None 300 None None
                    true None None).
Proof.
  assert (Hfresh : forall uid,
            Database.user_alert Examples.db2 uid "a2" = None)
    by (intros uid; now apply user_alert_db2_fresh).
  split; [exact Hfresh|].
  destruct (createAlert_then_getAlert Examples.db2 "a2"
              Examples.alert_request 2000 Hfresh) as (_ & H & _).
  exact H.
Defined.

(** Alert [a1], last seen at 450 at time 900, is checked at time 1000 and
    the cheapest offer is 410. *)
Lemma checked_price_heads_the_history_witness :
  Database.getAlert (store Examples.world3) "a1" None
  = Some ("7", Examples.alert1 400 (Some 450%Q) (Some 430%Q))
  /\ Examples.provider (Examples.offers [420%Q; 410%Q; 415%Q])
       "JFK" "LAX" "2030-01-15" None
     = SearchReturns (Some [Examples.offer 420; Examples.offer 410;
                            Examples.offer 415])
  /\ exists flight,
       In flight [Examples.offer 420; Examples.offer 410;
                  Examples.offer 415]
       /\ Forall (fun o => (price flight <= price o)%Q)
            [Examples.offer 420; Examples.offer 410; Examples.offer 415]
       /\ Database.getPriceHistory
            (store (PriceMonitor.checkSingleAlert
                      (Examples.provider
                         (Examples.offers [420%Q; 410%Q; 415%Q]))
                      "a1" Examples.world3)) "7" "a1" 10
          = mkHistory "a1" (price flight) None None 1000
            :: Database.getPriceHistory (store Examples.world3) "7" "a1"
                 (10 - 1).
Proof.
  split; [reflexivity|]. split; [reflexivity|].
  destruct (checked_price_heads_the_history
              (Examples.provider (Examples.offers [420%Q; 410%Q; 415%Q]))
              Examples.world3 "a1" "7"
              (Examples.alert1 400 (Some 450%Q) (Some 430%Q))
              (Examples.offer 420) [Examples.offer 410; Examples.offer 415]
              10 eq_refl eq_refl)
    as (flight & Hin & Hall & H & _).
  - intros u h Hu Hh _. unfold Examples.world3 in Hu. simpl in Hu.
    rewrite lookup_insert_eq in Hu. injection Hu as <-. simpl in Hh.
    apply elem_of_cons in Hh as [-> | Hh]; [simpl; lia|].
    apply list_elem_of_singleton in Hh as ->. simpl. lia.
  - lia.
  - exists flight. split; [exact Hin|]. split; [exact Hall | exact H].
Defined.

(** LH400 moves from terminal 1 to terminal 2, gate B7, six hours after
    the stored check: passed over. *)
Lemma terminal_or_gate_change_alone_is_passed_over_witness :
  last_status (Examples.track1 (Json Examples.lh400_stored))
  = Json (Json.roundtrip Examples.lh400_stored)
  /\ Iso.parse "2024-12-24T12:00:00Z" = Some 1735041600000
  /\ FlightTracker.shouldNotifyUser Iso.parse
       (Examples.track1 (Json Examples.lh400_stored))
       Examples.lh400_moved 1735063200000
     = Ok false.
Proof.
  split; [reflexivity|]. split; [reflexivity|].
  apply (terminal_or_gate_change_alone_is_passed_over Iso.parse
           (Examples.track1 (Json Examples.lh400_stored))
           "LH" 400 (JStr "FRA") (JStr "JFK") (JStr "FRA") (JStr "JFK")
           (JStr "2024-12-25T10:00:00Z") (JStr "2024-12-25T18:30:00Z")
           (JStr "1") JNull (JStr "2") (JStr "B7")
           "2024-12-24T12:00:00Z" "2024-12-24T18:00:00Z"
           1735041600000 1735063200000);
    first [reflexivity | discriminate | lia].
Defined.

(** Track [t1] has no stored status: its first check notifies user [7];
    the check half an hour later, with the same answer, is quiet. *)
Lemma second_check_with_same_answer_is_quiet_witness :
  Database.user_track (store Examples.world2) "7" "t1"
  = Some (Examples.track1 NoStatus)
  /\ Iso.parse (Iso.toISOString 1735063200000) = Some 1735063200000
  /\ exists st,
       events (FlightTracker.checkSingleFlightStatus Iso.parse
                 Iso.toISOString Examples.always_on_time "t1"
                 Examples.world2)
       = [StatusChecked "t1"; StatusUpdateSent "7" "t1" st]
       /\ events (FlightTracker.checkSingleFlightStatus Iso.parse
                    Iso.toISOString Examples.always_on_time "t1"
                    (sleep 1800000
                       (FlightTracker.checkSingleFlightStatus Iso.parse
                          Iso.toISOString Examples.always_on_time "t1"
                          Examples.world2)))
          = (events (FlightTracker.checkSingleFlightStatus Iso.parse
                       Iso.toISOString Examples.always_on_time "t1"
                       Examples.world2)
             ++ [StatusChecked "t1"])%list.
Proof.
  split; [reflexivity|]. split; [vm_compute; reflexivity|].
  destruct (second_check_with_same_answer_is_quiet Iso.parse
              Iso.toISOString Examples.always_on_time Examples.world2
              "t1" "7" (Examples.track1 NoStatus)
              (FlightTracker.mkScheduled
                 (FlightTracker.designator "LH" 400)
                 (Some [ FlightTracker.mkPoint (JStr "FRA")
                           (JStr "2024-12-25T10:00:00Z") JUndefined
                           JUndefined JUndefined;
                         FlightTracker.mkPoint (JStr "JFK") JUndefined
                           (JStr "2024-12-25T18:30:00Z") (JStr "1")
                           JUndefined ]))
              [] []
              (FlightTracker.mkPoint (JStr "FRA")
                 (JStr "2024-12-25T10:00:00Z") JUndefined JUndefined
                 JUndefined)
              (FlightTracker.mkPoint (JStr "JFK") JUndefined
                 (JStr "2024-12-25T18:30:00Z") (JStr "1") JUndefined)
              [] "LH" 400 1800000)
    as (st & _ & H1 & _ & H2 & _).
  - reflexivity.
  - intros uid Hne. now apply user_track_db2_other.
  - discriminate.
  - reflexivity.
  - reflexivity.
  - reflexivity.
  - reflexivity.
  - reflexivity.
  - intros st _. reflexivity.
  - vm_compute. discriminate.
  - vm_compute. reflexivity.
  - simpl. lia.
  - exists st. split; [exact H1 | exact H2].
Defined.

(** The buttons under alert [a1] and under track [t1]. *)
Lemma id_buttons_round_trip_witness :
  Callbacks.plain "t1" = true
  /\ Callbacks.route (Callbacks.cancel_flight_button "t1")
     = Callbacks.CancelFlightTrack (Some "t1")
  /\ Callbacks.route (Callbacks.history_button "t1")
     = Callbacks.SendPriceHistory (Some "t1")
  /\ Callbacks.route (Callbacks.cancel_button "t1")
     = Callbacks.CancelAlert (Some "t1").
Proof.
  split; [reflexivity|].
  apply (id_buttons_round_trip "t1"). reflexivity.
Defined.

(** The button under a search from Delhi to Mumbai and back. *)
Lemma track_button_round_trip_witness :
  Callbacks.plain "DEL" = true /\ Callbacks.plain "BOM" = true
  /\ Callbacks.plain "2030-02-01" = true
  /\ Callbacks.plain "2030-02-10" = true
  /\ Callbacks.route
       (Callbacks.track_button "DEL" "BOM" "2030-02-01"
          (Some "2030-02-10"))
     = Callbacks.SetupDirectTracking (Some "DEL") (Some "BOM")
         (Some "2030-02-01") (Some "2030-02-10").
Proof.
  repeat (split; [reflexivity|]).
  apply (track_button_round_trip "DEL" "BOM" "2030-02-01"
           (Some "2030-02-10")); reflexivity.
Defined.

(** Christmas Day 2024, typed in three ways. *)
Lemma formatDate_reads_day_first_witness :
  Dates.is_digit "2" = true /\ Dates.is_digit "5" = true
  /\ Dates.is_digit "1" = true /\ Dates.is_digit "0" = true
  /\ Dates.is_digit "4" = true
  /\ Dates.formatDate "25-12-2024" = Some "2024-12-25"
  /\ Dates.formatDate "25/12/2024" = Some "2024-12-25"
  /\ Dates.formatDate "25-12-24" = Some "2024-12-25"
  /\ Dates.formatDate "2024-12-25" = Some "2024-12-25".
Proof.
  repeat (split; [reflexivity|]).
  apply (formatDate_reads_day_first "2" "5" "1" "2" "2" "0" "2" "4");
    reflexivity.
Defined.

Lemma formatDate_gives_year_first_witness :
  Dates.formatDate "25-12-24" = Some "2024-12-25"
  /\ Dates.test Dates.year_first "2024-12-25" = true
  /\ String.length "2024-12-25" = 10%nat
  /\ Dates.formatDate "2024-12-25" = Some "2024-12-25".
Proof.
  split; [reflexivity|].
  apply (formatDate_gives_year_first "25-12-24" "2024-12-25").
  reflexivity.
Defined.

(** User [8] starts tracking from a search whose cheapest offer is 410;
    five seconds later the cheapest offer is 400. *)
Lemma direct_tracking_reports_every_change_witness :
  (forall uid,
     Database.user_alert (store Examples.world2) uid
       (Examples.numbered (drawn Examples.world2)) = None)
  /\ exists before flight,
       (Bot.setupDirectTracking
          (Examples.provider (Examples.offers [420%Q; 410%Q]))
          Examples.numbered "8" "8" "DEL" "BOM" "2030-02-01" None
          Examples.world2).1
       = Bot.TrackingEnabled "doc-0" (price before)
       /\ In before [Examples.offer 420; Examples.offer 410]
       /\ Forall (fun f => (price before <= price f)%Q)
            [Examples.offer 420; Examples.offer 410]
       /\ In flight [Examples.offer 400; Examples.offer 405]
       /\ Forall (fun f => (price flight <= price f)%Q)
            [Examples.offer 400; Examples.offer 405]
       /\ events
            (PriceMonitor.checkSingleAlert
               (Examples.provider (Examples.offers [400%Q; 405%Q]))
               "doc-0"
               (Bot.setupDirectTracking
                  (Examples.provider (Examples.offers [420%Q; 410%Q]))
                  Examples.numbered "8" "8" "DEL" "BOM" "2030-02-01" None
                  Examples.world2).2)
          = (events
               (Bot.setupDirectTracking
                  (Examples.provider (Examples.offers [420%Q; 410%Q]))
                  Examples.numbered "8" "8" "DEL" "BOM" "2030-02-01" None
                  Examples.world2).2
             ++ (if Qeq_bool (price flight) (price before) then []
                 else [PriceAlertSent "8" "doc-0"
                         (Some (if Js.Qlt_bool (price flight)
                                     (price before)
                                then price_drop else price_increase))
                         flight (Some (price before))]))%list.
Proof.
  assert (Hfresh : forall uid,
            Database.user_alert (store Examples.world2) uid
              (Examples.numbered (drawn Examples.world2)) = None).
  { intros uid. apply user_alert_db2_fresh. discriminate. }
  split; [exact Hfresh|].
  destruct (direct_tracking_reports_every_change
              (Examples.provider (Examples.offers [420%Q; 410%Q]))
              (Examples.provider (Examples.offers [400%Q; 405%Q]))
              Examples.numbered "8" "8" "DEL" "BOM" "2030-02-01" None
              (Examples.offer 420) [Examples.offer 410]
              (Examples.offer 400) [Examples.offer 405]
              Examples.world2 Hfresh eq_refl eq_refl)
    as (before & flight & H1 & H2 & H3 & _ & H5 & H6 & H7).
  - repeat constructor.
  - repeat constructor.
  - exists before, flight. repeat (split; [assumption|]). exact H7.
Defined.


(** User [7] cancels the track [t1]; the check that follows does not
    write to them about it. *)
Lemma cancelled_track_gets_no_more_updates_witness :
  Database.user_track (store Examples.world2) "7" "t1"
  = Some (Examples.track1 NoStatus)
  /\ forall st,
       StatusUpdateSent "7" "t1" st
       ∉ events (FlightTracker.checkAllTrackedFlights Iso.parse
                   Iso.toISOString Examples.always_on_time
                   (set_store
                      (Database.cancelFlightTrack (store Examples.world2)
                         "t1" "7" "2024-12-24T18:00:00Z").2
                      Examples.world2)).
Proof.
  split; [reflexivity|].
  destruct (cancelled_track_gets_no_more_updates Iso.parse Iso.toISOString
              Examples.always_on_time Examples.world2 "t1" "7"
              (Examples.track1 NoStatus) "2024-12-24T18:00:00Z")
    as (_ & _ & _ & new & He & Hnew).
  - reflexivity.
  - intros id t'. apply user_track_db2.
  - intros st. rewrite He. exact (Hnew st).
Defined.
